(** * Steel building configurator

    A shallow embedding of the steel-builder application and the properties
    of its geometry and layout engine:

    - the configuration store of [useStore.ts]: its state, its initial
      value and its twenty-one actions;
    - [DraggableDoor]: the placement of an opening on its wall and the
      pointer handlers of the drag, and the quick-add of the doors and
      windows panel;
    - [Building] and [TrapezoidWall]: the whole derived scene, from the
      floor slab to the four lean-tos, and the buffer geometries that a
      render constructs or takes from a [useMemo];
    - the view controls and the accordion of [Sidebar], the camera and the
      orbit controls of [CameraController], and the canvas that
      [createCorrugatedTexture] draws.

    JavaScript numbers are modelled as real numbers: arithmetic is exact,
    and rounding, [NaN] and the infinities are outside the model.  An
    element tree is a tree of [mesh] and [group] nodes; a child
    [{cond && <x/>}] is the list [when cond [x]], a fragment is the
    concatenation of its children, and an omitted position or rotation is
    the origin.  Every mesh carries the role its comment or key gives it in
    the source; materials keep the colors and textures, which are all that
    depends on the color assignments.  Event handlers run on the state of
    the latest render. *)

From Stdlib Require Import Reals Lra Lia ZArith List String Bool DecimalString
  DecimalN.
Import ListNotations.

Open Scope R_scope.

Set Warnings "-register-all".

(** ** JavaScript numbers, [Math] and arrays *)

Module JS.

Definition number := R.

Definition Math_max (a b : number) : number := Rmax a b.
Definition Math_min (a b : number) : number := Rmin a b.
Definition Math_floor (x : number) : number := IZR (Zfloor x).
Definition Math_ceil (x : number) : number := IZR (Zceil x).
(* Math.round rounds halves up. *)
Definition Math_round (x : number) : number := IZR (Zfloor (x + 0.5)).
(* Math.sqrt is only applied to sums of squares in this program. *)
Definition Math_sqrt (x : number) : number := sqrt x.
Definition Math_PI : number := PI.
Definition Math_cos (x : number) : number := cos x.
Definition Math_sin (x : number) : number := sin x.

(* Math.atan2(y, x): the angle of the point (x, y). *)
Definition Math_atan2 (y x : number) : number :=
if Rlt_dec 0 x then atan (y / x)
else if Rlt_dec x 0 then
  if Rle_dec 0 y then atan (y / x) + PI else atan (y / x) - PI
else if Rlt_dec 0 y then PI / 2
else if Rlt_dec y 0 then - (PI / 2)
else 0.

(* x > y and x === y on numbers, as booleans. *)
Definition gtb (x y : number) : bool := if Rlt_dec y x then true else false.
Definition eqb (x y : number) : bool := if Req_dec_T x y then true else false.

(* The truthiness of a possibly undefined number, and [a || b || 0]. *)
Definition truthy (v : option number) : bool :=
match v with
| Some x => negb (eqb x 0)
| None => false
end.

Definition or_else (v : option number) (rest : number) : number :=
match v with
| Some x => if truthy v then x else rest
| None => rest
end.

(* ToLength of a number: truncation, negative lengths count as 0. *)
Definition ToLength (n : number) : nat := Z.to_nat (Zfloor n).

(* Array.from({ length: n }).map((_, i) => f i) *)
Definition Array_from {A : Type} (n : number) (f : nat -> A) : list A :=
map f (seq 0 (ToLength n)).

(* {cond && children} *)
Definition when {A : Type} (cond : bool) (children : list A) : list A :=
if cond then children else [].

(* { ...old, ...patch } on one field of a Partial<> object *)
Definition spread {A : Type} (old : A) (patch : option A) : A :=
match patch with
| Some v => v
| None => old
end.

End JS.

Import JS.

(** ** The store: types of [useStore.ts] *)

Module RoofStyle.
Inductive t := gable | single_slope | asymmetrical.
Definition eqb (a b : t) : bool :=
  match a, b with
  | gable, gable | single_slope, single_slope
  | asymmetrical, asymmetrical => true
  | _, _ => false
  end.
End RoofStyle.

Module WallSide.
Inductive t := north | south | east | west.
Definition eqb (a b : t) : bool :=
  match a, b with
  | north, north | south, south | east, east | west, west => true
  | _, _ => false
  end.
End WallSide.

(* Record<WallSide, A> *)
Module PerSide.
Record t (A : Type) := mk { north : A; south : A; east : A; west : A }.
Arguments mk {A}.
Arguments north {A}.
Arguments south {A}.
Arguments east {A}.
Arguments west {A}.

Definition get {A} (side : WallSide.t) (r : t A) : A :=
  match side with
  | WallSide.north => north r
  | WallSide.south => south r
  | WallSide.east => east r
  | WallSide.west => west r
  end.

(* { ...r, [side]: v } *)
Definition set {A} (side : WallSide.t) (v : A) (r : t A) : t A :=
  match side with
  | WallSide.north => mk v (south r) (east r) (west r)
  | WallSide.south => mk (north r) v (east r) (west r)
  | WallSide.east => mk (north r) (south r) v (west r)
  | WallSide.west => mk (north r) (south r) (east r) v
  end.
End PerSide.

Module SkyType.
Inductive t := day | sunset | night.
End SkyType.

Module GroundType.
Inductive t := grass | concrete | gravel.
End GroundType.

Module ViewMode.
Inductive t := exterior | interior.
End ViewMode.

Module VisibilityMode.
Inductive t := full | hide_walls | hide_roof | frame_only.
Definition eqb (a b : t) : bool :=
  match a, b with
  | full, full | hide_walls, hide_walls
  | hide_roof, hide_roof | frame_only, frame_only => true
  | _, _ => false
  end.
End VisibilityMode.

Module LeanToWallType.
Inductive t :=
| full_length | fully_enclosed | open | gable_dress | gable_walls_only
| apron_2ft.
Definition eqb (a b : t) : bool :=
  match a, b with
  | full_length, full_length | fully_enclosed, fully_enclosed
  | open, open | gable_dress, gable_dress
  | gable_walls_only, gable_walls_only | apron_2ft, apron_2ft => true
  | _, _ => false
  end.
End LeanToWallType.

Module DoorType.
Inductive t :=
| walk_single | walk_double | walk_half_glass | sliding_glass
| dutch_equine | overhead | overhead_modern | overhead_glass
| sliding | sliding_left | sliding_right | roll_up | bi_fold | hydraulic
| window_slider | window_hopper.

Definition to_string (d : t) : string :=
  match d with
  | walk_single => "walk-single"
  | walk_double => "walk-double"
  | walk_half_glass => "walk-half-glass"
  | sliding_glass => "sliding-glass"
  | dutch_equine => "dutch-equine"
  | overhead => "overhead"
  | overhead_modern => "overhead-modern"
  | overhead_glass => "overhead-glass"
  | sliding => "sliding"
  | sliding_left => "sliding-left"
  | sliding_right => "sliding-right"
  | roll_up => "roll-up"
  | bi_fold => "bi-fold"
  | hydraulic => "hydraulic"
  | window_slider => "window-slider"
  | window_hopper => "window-hopper"
  end%string.

Definition eqb (a b : t) : bool :=
  String.eqb (to_string a) (to_string b).

(* type.startsWith(p) *)
Definition startsWith (p : string) (d : t) : bool :=
  String.prefix p (to_string d).
End DoorType.

Module OpeningWall.
Inductive t :=
| north | south | east | west
| lean_to_north | lean_to_south | lean_to_east | lean_to_west.
End OpeningWall.

Module LeanToConfig.
Record t := mk {
  enabled : bool;
  drop : number;
  cutL : number;
  cutR : number;
  depth : number;
  roofPitch : number;
  walls : LeanToWallType.t }.

Record partial := mkPartial {
  p_enabled : option bool;
  p_drop : option number;
  p_cutL : option number;
  p_cutR : option number;
  p_depth : option number;
  p_roofPitch : option number;
  p_walls : option LeanToWallType.t }.

Definition assign (c : t) (p : partial) : t :=
  mk (spread (enabled c) (p_enabled p)) (spread (drop c) (p_drop p))
     (spread (cutL c) (p_cutL p)) (spread (cutR c) (p_cutR p))
     (spread (depth c) (p_depth p)) (spread (roofPitch c) (p_roofPitch p))
     (spread (walls c) (p_walls p)).
End LeanToConfig.

Module LeanTo.
Record t := mk {
  id : string;
  wall : WallSide.t;
  width : number;
  length : number;
  height : number }.

Record partial := mkPartial {
  p_id : option string;
  p_wall : option WallSide.t;
  p_width : option number;
  p_length : option number;
  p_height : option number }.

Definition assign (c : t) (p : partial) : t :=
  mk (spread (id c) (p_id p)) (spread (wall c) (p_wall p))
     (spread (width c) (p_width p)) (spread (length c) (p_length p))
     (spread (height c) (p_height p)).
End LeanTo.

Module Opening.
Record t := mk {
  id : string;
  type : DoorType.t;
  wall : OpeningWall.t;
  position : number;
  width : number;
  height : number;
  bottomOffset : number }.

Record partial := mkPartial {
  p_id : option string;
  p_type : option DoorType.t;
  p_wall : option OpeningWall.t;
  p_position : option number;
  p_width : option number;
  p_height : option number;
  p_bottomOffset : option number }.

Definition assign (c : t) (p : partial) : t :=
  mk (spread (id c) (p_id p)) (spread (type c) (p_type p))
     (spread (wall c) (p_wall p)) (spread (position c) (p_position p))
     (spread (width c) (p_width p)) (spread (height c) (p_height p))
     (spread (bottomOffset c) (p_bottomOffset p)).
End Opening.

Module Dimensions.
Record t := mk { width : number; length : number; eaveHeight : number }.

Record partial := mkPartial {
  p_width : option number;
  p_length : option number;
  p_eaveHeight : option number }.

Definition assign (c : t) (p : partial) : t :=
  mk (spread (width c) (p_width p)) (spread (length c) (p_length p))
     (spread (eaveHeight c) (p_eaveHeight p)).
End Dimensions.

Module Roof.
Record t := mk {
  style : RoofStyle.t;
  pitch : number;
  asymmetricOffset : number;
  overhangs : PerSide.t number;
  ridgeVents : number;
  cupola2ft : number;
  cupola3ft : number }.

Record partial := mkPartial {
  p_style : option RoofStyle.t;
  p_pitch : option number;
  p_asymmetricOffset : option number;
  p_overhangs : option (PerSide.t number);
  p_ridgeVents : option number;
  p_cupola2ft : option number;
  p_cupola3ft : option number }.

Definition assign (c : t) (p : partial) : t :=
  mk (spread (style c) (p_style p)) (spread (pitch c) (p_pitch p))
     (spread (asymmetricOffset c) (p_asymmetricOffset p))
     (spread (overhangs c) (p_overhangs p))
     (spread (ridgeVents c) (p_ridgeVents p))
     (spread (cupola2ft c) (p_cupola2ft p))
     (spread (cupola3ft c) (p_cupola3ft p)).
End Roof.

Module Colors.
Record t := mk {
  roof : string;
  wall : string;
  trim : string;
  wainscot : string }.

(* keyof BuildingState['colors'] *)
Inductive key := k_roof | k_wall | k_trim | k_wainscot.

(* { ...c, [k]: v } *)
Definition set (k : key) (v : string) (c : t) : t :=
  match k with
  | k_roof => mk v (wall c) (trim c) (wainscot c)
  | k_wall => mk (roof c) v (trim c) (wainscot c)
  | k_trim => mk (roof c) (wall c) v (wainscot c)
  | k_wainscot => mk (roof c) (wall c) (trim c) v
  end.
End Colors.

Module Walls.
Record t := mk {
  enclosed : PerSide.t bool;
  wainscotEnabled : bool;
  wainscotHeight : number }.

Record partial := mkPartial {
  p_enclosed : option (PerSide.t bool);
  p_wainscotEnabled : option bool;
  p_wainscotHeight : option number }.

Definition assign (c : t) (p : partial) : t :=
  mk (spread (enclosed c) (p_enclosed p))
     (spread (wainscotEnabled c) (p_wainscotEnabled p))
     (spread (wainscotHeight c) (p_wainscotHeight p)).
End Walls.

Module Environment.
Record t := mk {
  sky : SkyType.t;
  ground : GroundType.t;
  showGrid : bool }.

Record partial := mkPartial {
  p_sky : option SkyType.t;
  p_ground : option GroundType.t;
  p_showGrid : option bool }.

Definition assign (c : t) (p : partial) : t :=
  mk (spread (sky c) (p_sky p)) (spread (ground c) (p_ground p))
     (spread (showGrid c) (p_showGrid p)).
End Environment.

Module UI.
Record t := mk {
  expandedPanel : option string;
  viewMode : ViewMode.t;
  visibilityMode : VisibilityMode.t;
  placementMode : option DoorType.t;
  selectedOpeningId : option string;
  isDraggingDoor : bool }.
End UI.

Record BuildingState := mkState {
  dimensions : Dimensions.t;
  roof : Roof.t;
  colors : Colors.t;
  walls : Walls.t;
  leanToConfigs : PerSide.t LeanToConfig.t;
  leanTos : list LeanTo.t;
  openings : list Opening.t;
  environment : Environment.t;
  ui : UI.t }.

(** ** The store: initial state and actions of [useStore.ts] *)

Module Store.

Open Scope string_scope.

Definition initialLeanToConfig : LeanToConfig.t :=
  LeanToConfig.mk false 1 0 0 12 3 LeanToWallType.full_length.

Definition initialState : BuildingState :=
  {| dimensions := Dimensions.mk 30 40 10;
     roof := Roof.mk RoofStyle.gable 4 4 (PerSide.mk 0 0 1 1) 0 0 0;
     colors := Colors.mk "#5c4033" "#e8e4d9" "#5c4033" "#5c4033";
     walls := Walls.mk (PerSide.mk true true true true) false 3;
     leanToConfigs :=
       PerSide.mk initialLeanToConfig initialLeanToConfig
                  initialLeanToConfig initialLeanToConfig;
     leanTos := [];
     openings := [];
     environment := Environment.mk SkyType.day GroundType.grass true;
     ui := UI.mk (Some "dimensions") ViewMode.exterior VisibilityMode.full
                 None None false |}.

(* Date.now(), in decimal *)
Definition timestamp (now : N) : string :=
  NilZero.string_of_uint (N.to_uint now).

(* set((state) => ({ f: v })) merges the returned fields into the state:
   each field setter below replaces one top-level field. *)
Definition set_dimensions (v : Dimensions.t) (s : BuildingState) :=
  mkState v (roof s) (colors s) (walls s) (leanToConfigs s) (leanTos s)
          (openings s) (environment s) (ui s).
Definition set_roof (v : Roof.t) (s : BuildingState) :=
  mkState (dimensions s) v (colors s) (walls s) (leanToConfigs s) (leanTos s)
          (openings s) (environment s) (ui s).
Definition set_colors (v : Colors.t) (s : BuildingState) :=
  mkState (dimensions s) (roof s) v (walls s) (leanToConfigs s) (leanTos s)
          (openings s) (environment s) (ui s).
Definition set_walls (v : Walls.t) (s : BuildingState) :=
  mkState (dimensions s) (roof s) (colors s) v (leanToConfigs s) (leanTos s)
          (openings s) (environment s) (ui s).
Definition set_leanToConfigs (v : PerSide.t LeanToConfig.t)
    (s : BuildingState) :=
  mkState (dimensions s) (roof s) (colors s) (walls s) v (leanTos s)
          (openings s) (environment s) (ui s).
Definition set_leanTos (v : list LeanTo.t) (s : BuildingState) :=
  mkState (dimensions s) (roof s) (colors s) (walls s) (leanToConfigs s) v
          (openings s) (environment s) (ui s).
Definition set_openings (v : list Opening.t) (s : BuildingState) :=
  mkState (dimensions s) (roof s) (colors s) (walls s) (leanToConfigs s)
          (leanTos s) v (environment s) (ui s).
Definition set_environment (v : Environment.t) (s : BuildingState) :=
  mkState (dimensions s) (roof s) (colors s) (walls s) (leanToConfigs s)
          (leanTos s) (openings s) v (ui s).
Definition set_ui (v : UI.t) (s : BuildingState) :=
  mkState (dimensions s) (roof s) (colors s) (walls s) (leanToConfigs s)
          (leanTos s) (openings s) (environment s) v.

Definition setDimensions (dims : Dimensions.partial) (s : BuildingState) :=
  set_dimensions (Dimensions.assign (dimensions s) dims) s.

Definition setRoof (r : Roof.partial) (s : BuildingState) :=
  set_roof (Roof.assign (roof s) r) s.

Definition setRoofOverhang (side : WallSide.t) (value : number)
    (s : BuildingState) :=
  let r := roof s in
  set_roof
    (Roof.mk (Roof.style r) (Roof.pitch r) (Roof.asymmetricOffset r)
             (PerSide.set side value (Roof.overhangs r))
             (Roof.ridgeVents r) (Roof.cupola2ft r) (Roof.cupola3ft r)) s.

Definition setColor (key : Colors.key) (value : string) (s : BuildingState) :=
  set_colors (Colors.set key value (colors s)) s.

Definition setWalls (w : Walls.partial) (s : BuildingState) :=
  set_walls (Walls.assign (walls s) w) s.

Definition setWallEnclosed (side : WallSide.t) (enclosed : bool)
    (s : BuildingState) :=
  let w := walls s in
  set_walls
    (Walls.mk (PerSide.set side enclosed (Walls.enclosed w))
              (Walls.wainscotEnabled w) (Walls.wainscotHeight w)) s.

Definition setLeanToConfig (side : WallSide.t) (config : LeanToConfig.partial)
    (s : BuildingState) :=
  set_leanToConfigs
    (PerSide.set side
       (LeanToConfig.assign (PerSide.get side (leanToConfigs s)) config)
       (leanToConfigs s)) s.

(* The argument is an Omit<LeanTo, 'id'>: its id is overwritten. *)
Definition addLeanTo (leanTo : LeanTo.t) (now : N) (s : BuildingState) :=
  set_leanTos
    (leanTos s ++
     [LeanTo.mk ("leanto-" ++ timestamp now) (LeanTo.wall leanTo)
                (LeanTo.width leanTo) (LeanTo.length leanTo)
                (LeanTo.height leanTo)]) s.

Definition updateLeanTo (id : string) (updates : LeanTo.partial)
    (s : BuildingState) :=
  set_leanTos
    (map (fun lt =>
            if String.eqb (LeanTo.id lt) id then LeanTo.assign lt updates
            else lt)
         (leanTos s)) s.

Definition removeLeanTo (id : string) (s : BuildingState) :=
  set_leanTos
    (filter (fun lt => negb (String.eqb (LeanTo.id lt) id)) (leanTos s)) s.

(* The argument is an Omit<Opening, 'id'>: its id is overwritten. *)
Definition addOpening (opening : Opening.t) (now : N) (s : BuildingState) :=
  set_openings
    (openings s ++
     [Opening.mk ("opening-" ++ timestamp now) (Opening.type opening)
                 (Opening.wall opening) (Opening.position opening)
                 (Opening.width opening) (Opening.height opening)
                 (Opening.bottomOffset opening)]) s.

Definition updateOpening (id : string) (updates : Opening.partial)
    (s : BuildingState) :=
  set_openings
    (map (fun o =>
            if String.eqb (Opening.id o) id then Opening.assign o updates
            else o)
         (openings s)) s.

Definition removeOpening (id : string) (s : BuildingState) :=
  set_openings
    (filter (fun o => negb (String.eqb (Opening.id o) id)) (openings s)) s.

Definition setPlacementMode (mode : option DoorType.t) (s : BuildingState) :=
  let u := ui s in
  set_ui (UI.mk (UI.expandedPanel u) (UI.viewMode u) (UI.visibilityMode u)
                mode None (UI.isDraggingDoor u)) s.

Definition setSelectedOpeningId (id : option string) (s : BuildingState) :=
  let u := ui s in
  set_ui (UI.mk (UI.expandedPanel u) (UI.viewMode u) (UI.visibilityMode u)
                None id (UI.isDraggingDoor u)) s.

Definition setIsDraggingDoor (isDragging : bool) (s : BuildingState) :=
  let u := ui s in
  set_ui (UI.mk (UI.expandedPanel u) (UI.viewMode u) (UI.visibilityMode u)
                (UI.placementMode u) (UI.selectedOpeningId u) isDragging) s.

Definition setEnvironment (env : Environment.partial) (s : BuildingState) :=
  set_environment (Environment.assign (environment s) env) s.

Definition setExpandedPanel (panel : option string) (s : BuildingState) :=
  let u := ui s in
  set_ui (UI.mk panel (UI.viewMode u) (UI.visibilityMode u)
                (UI.placementMode u) (UI.selectedOpeningId u)
                (UI.isDraggingDoor u)) s.

Definition setViewMode (mode : ViewMode.t) (s : BuildingState) :=
  let u := ui s in
  set_ui (UI.mk (UI.expandedPanel u) mode (UI.visibilityMode u)
                (UI.placementMode u) (UI.selectedOpeningId u)
                (UI.isDraggingDoor u)) s.

Definition setVisibilityMode (mode : VisibilityMode.t) (s : BuildingState) :=
  let u := ui s in
  set_ui (UI.mk (UI.expandedPanel u) (UI.viewMode u) mode
                (UI.placementMode u) (UI.selectedOpeningId u)
                (UI.isDraggingDoor u)) s.

Definition resetView (s : BuildingState) :=
  let u := ui s in
  set_ui (UI.mk (UI.expandedPanel u) ViewMode.exterior VisibilityMode.full
                (UI.placementMode u) (UI.selectedOpeningId u)
                (UI.isDraggingDoor u)) s.

(* The actions of the store, as data, and one dispatch. *)
Inductive action :=
| SetDimensions (dims : Dimensions.partial)
| SetRoof (r : Roof.partial)
| SetRoofOverhang (side : WallSide.t) (value : number)
| SetColor (key : Colors.key) (value : string)
| SetWalls (w : Walls.partial)
| SetWallEnclosed (side : WallSide.t) (enclosed : bool)
| SetLeanToConfig (side : WallSide.t) (config : LeanToConfig.partial)
| AddLeanTo (leanTo : LeanTo.t) (now : N)
| UpdateLeanTo (id : string) (updates : LeanTo.partial)
| RemoveLeanTo (id : string)
| AddOpening (opening : Opening.t) (now : N)
| UpdateOpening (id : string) (updates : Opening.partial)
| RemoveOpening (id : string)
| SetPlacementMode (mode : option DoorType.t)
| SetSelectedOpeningId (id : option string)
| SetIsDraggingDoor (isDragging : bool)
| SetEnvironment (env : Environment.partial)
| SetExpandedPanel (panel : option string)
| SetViewMode (mode : ViewMode.t)
| SetVisibilityMode (mode : VisibilityMode.t)
| ResetView.

Definition dispatch (a : action) (s : BuildingState) : BuildingState :=
  match a with
  | SetDimensions dims => setDimensions dims s
  | SetRoof r => setRoof r s
  | SetRoofOverhang side value => setRoofOverhang side value s
  | SetColor key value => setColor key value s
  | SetWalls w => setWalls w s
  | SetWallEnclosed side enclosed => setWallEnclosed side enclosed s
  | SetLeanToConfig side config => setLeanToConfig side config s
  | AddLeanTo leanTo now => addLeanTo leanTo now s
  | UpdateLeanTo id updates => updateLeanTo id updates s
  | RemoveLeanTo id => removeLeanTo id s
  | AddOpening opening now => addOpening opening now s
  | UpdateOpening id updates => updateOpening id updates s
  | RemoveOpening id => removeOpening id s
  | SetPlacementMode mode => setPlacementMode mode s
  | SetSelectedOpeningId id => setSelectedOpeningId id s
  | SetIsDraggingDoor isDragging => setIsDraggingDoor isDragging s
  | SetEnvironment env => setEnvironment env s
  | SetExpandedPanel panel => setExpandedPanel panel s
  | SetViewMode mode => setViewMode mode s
  | SetVisibilityMode mode => setVisibilityMode mode s
  | ResetView => resetView s
  end.

(* The states reached from the initial state by any sequence of actions. *)
Inductive reachable : BuildingState -> Prop :=
| reachable_init : reachable initialState
| reachable_step s a : reachable s -> reachable (dispatch a s).

Definition run (acts : list action) (s : BuildingState) : BuildingState :=
  fold_left (fun st a => dispatch a st) acts s.

End Store.

(** ** Scene nodes: what a component renders *)

Module Scene.

Definition vec3 := (number * number * number)%type.
Definition origin : vec3 := (0, 0, 0).

(* useCorrugatedTexture(color, isRoof): a texture memoized on its two
   arguments. *)
Record texture := mkTexture { baseColor : string; isRoof : bool }.

Record material := mkMaterial {
  basic : bool;                 (* meshBasicMaterial / meshStandardMaterial *)
  color : option string;
  map : option texture;
  metalness : option number;
  roughness : option number;
  doubleSide : bool;
  transparent : bool;
  opacity : option number }.

Definition standard (c : string) : material :=
  mkMaterial false (Some c) None None None false false None.
Definition standardMR (c : string) (m r : number) : material :=
  mkMaterial false (Some c) None (Some m) (Some r) false false None.
Definition textured (t : texture) (m r : number) : material :=
  mkMaterial false None (Some t) (Some m) (Some r) true false None.
Definition glass (c : string) (o m r : number) : material :=
  mkMaterial false (Some c) None (Some m) (Some r) false true (Some o).
Definition basicColor (c : string) : material :=
  mkMaterial true (Some c) None None None false false None.
Definition basicTransparent (c : option string) (o : number) : material :=
  mkMaterial true c None None None false true (Some o).
(* The orange of every steel member. *)
Definition steel : material := standardMR "#FF6B35" 0.6 0.4.

Inductive geometry :=
| boxGeometry (w h d : number)
| coneGeometry (radius height radialSegments : number)
| bufferGeometry (position uv : list number).

(* The semantic role of a mesh: the structure it belongs to and the member
   it is, after the comments and keys of the element tree. *)
Inductive structure :=
| MainBuilding
| OverhangFrame (side : WallSide.t)
| LeanToOf (side : WallSide.t)
| OpeningOf (id : string).

Inductive member :=
| FloorSlab | Column | EaveBeam | KneeBrace | Rafter | Girt | Purlin
| RidgeBeam | WallPanel (side : WallSide.t) | Wainscot (side : WallSide.t)
| RoofPanel | RidgeCap | RidgeVent | Cupola | Trim | DoorPart.

Definition role := (structure * member)%type.

Inductive node :=
| mesh (r : role) (position rotation : vec3) (g : geometry) (m : material)
| group (position rotation : vec3) (children : list node).

(* A node without its materials: roles, transforms and geometries only. *)
Inductive shape :=
| mesh_shape (r : role) (position rotation : vec3) (g : geometry)
| group_shape (position rotation : vec3) (children : list shape).

Fixpoint geometryOf (n : node) : shape :=
  match n with
  | mesh r p q g _ => mesh_shape r p q g
  | group p q children => group_shape p q (List.map geometryOf children)
  end.

(* The meshes of a tree, in document order. *)
Fixpoint meshes (n : node) : list node :=
  match n with
  | mesh _ _ _ _ _ => [n]
  | group _ _ children => flat_map meshes children
  end.

Definition role_of (n : node) : option role :=
  match n with
  | mesh r _ _ _ _ => Some r
  | group _ _ _ => None
  end.

Definition structure_eqb (a b : structure) : bool :=
  match a, b with
  | MainBuilding, MainBuilding => true
  | OverhangFrame x, OverhangFrame y => WallSide.eqb x y
  | LeanToOf x, LeanToOf y => WallSide.eqb x y
  | OpeningOf x, OpeningOf y => String.eqb x y
  | _, _ => false
  end.

Definition member_eqb (a b : member) : bool :=
  match a, b with
  | FloorSlab, FloorSlab | Column, Column | EaveBeam, EaveBeam
  | KneeBrace, KneeBrace | Rafter, Rafter | Girt, Girt | Purlin, Purlin
  | RidgeBeam, RidgeBeam | RoofPanel, RoofPanel | RidgeCap, RidgeCap
  | RidgeVent, RidgeVent | Cupola, Cupola | Trim, Trim
  | DoorPart, DoorPart => true
  | WallPanel x, WallPanel y => WallSide.eqb x y
  | Wainscot x, Wainscot y => WallSide.eqb x y
  | _, _ => false
  end.

Definition role_eqb (a b : role) : bool :=
  structure_eqb (fst a) (fst b) && member_eqb (snd a) (snd b).

Definition has_role (r : role) (n : node) : bool :=
  match role_of n with
  | Some r' => role_eqb r r'
  | None => false
  end.

(* How many meshes of a tree carry the role [r]. *)
Definition count_role (r : role) (n : node) : nat :=
  List.length (filter (has_role r) (meshes n)).

End Scene.

Import Scene.

(** ** [DraggableDoor]: one opening and its drag handlers *)

Module DraggableDoor.

Open Scope string_scope.

(* dragStartRef.current *)
Record dragStart := mkDragStart {
  start_position : number;
  start_bottomOffset : number;
  mouseX : number;
  mouseY : number }.

(* useState / useRef of one component instance *)
Record local := mkLocal {
  isDragging : bool;
  isHovered : bool;
  dragStartRef : option dragStart }.

Definition initialLocal : local := mkLocal false false None.

(* useThree().size *)
Record viewport := mkViewport { size_width : number; size_height : number }.

Record nativePointerEvent := mkNative {
  native_clientX : option number;
  native_clientY : option number }.

Record pointerEvent := mkEvent {
  clientX : option number;
  clientY : option number;
  nativeEvent : option nativePointerEvent }.

(* e.clientX || e.nativeEvent?.clientX || 0 *)
Definition eventX (e : pointerEvent) : number :=
  or_else (clientX e)
    (or_else (match nativeEvent e with
              | Some n => native_clientX n
              | None => None
              end) 0).

Definition eventY (e : pointerEvent) : number :=
  or_else (clientY e)
    (or_else (match nativeEvent e with
              | Some n => native_clientY n
              | None => None
              end) 0).

Section Component.

Variable opening : Opening.t.
Variables buildingWidth buildingLength : number.

Definition getWallLength (wall : OpeningWall.t) : number :=
  match wall with
  | OpeningWall.south | OpeningWall.north => buildingWidth
  | OpeningWall.east | OpeningWall.west => buildingLength
  | _ => buildingWidth
  end.

Definition wallLength : number := getWallLength (Opening.wall opening).
Definition maxPosition : number :=
  Math_max 0 (wallLength - Opening.width opening).

Definition doorPosition : vec3 :=
  match Opening.wall opening with
  | OpeningWall.south =>
      (- buildingWidth / 2 + Opening.position opening
         + Opening.width opening / 2,
       Opening.bottomOffset opening + Opening.height opening / 2,
       buildingLength / 2 + 0.5)
  | OpeningWall.north =>
      (- buildingWidth / 2 + Opening.position opening
         + Opening.width opening / 2,
       Opening.bottomOffset opening + Opening.height opening / 2,
       - buildingLength / 2 - 0.5)
  | OpeningWall.east =>
      (buildingWidth / 2 + 0.5,
       Opening.bottomOffset opening + Opening.height opening / 2,
       - buildingLength / 2 + Opening.position opening
         + Opening.width opening / 2)
  | OpeningWall.west =>
      (- buildingWidth / 2 - 0.5,
       Opening.bottomOffset opening + Opening.height opening / 2,
       - buildingLength / 2 + Opening.position opening
         + Opening.width opening / 2)
  | _ => (0, 0, 0)
  end.

Definition doorRotation : vec3 :=
  match Opening.wall opening with
  | OpeningWall.south => (0, 0, 0)
  | OpeningWall.north => (0, Math_PI, 0)
  | OpeningWall.east => (0, - Math_PI / 2, 0)
  | OpeningWall.west => (0, Math_PI / 2, 0)
  | _ => (0, 0, 0)
  end.

Definition isWindow : bool := DoorType.startsWith "window" (Opening.type opening).
Definition isOverhead : bool :=
  DoorType.startsWith "overhead" (Opening.type opening)
  || DoorType.eqb (Opening.type opening) DoorType.roll_up
  || DoorType.eqb (Opening.type opening) DoorType.bi_fold
  || DoorType.eqb (Opening.type opening) DoorType.hydraulic.
Definition doorColor : string :=
  if isWindow then "#87CEEB" else if isOverhead then "#4a4a4a" else "#8B4513".

Definition handlePointerDown (e : pointerEvent)
    (st : BuildingState * local) : BuildingState * local :=
  let (s, l) := st in
  (Store.setSelectedOpeningId (Some (Opening.id opening))
     (Store.setIsDraggingDoor true s),
   mkLocal true (isHovered l)
     (Some (mkDragStart (Opening.position opening)
                        (Opening.bottomOffset opening)
                        (eventX e) (eventY e)))).

Variable size : viewport.

Definition handlePointerMove (e : pointerEvent)
    (st : BuildingState * local) : BuildingState * local :=
  let (s, l) := st in
  match isDragging l, dragStartRef l with
  | true, Some start =>
      let clientX := eventX e in
      let clientY := eventY e in
      let deltaX := clientX - mouseX start in
      let deltaY := clientY - mouseY start in
      let sensitivityX := wallLength / size_width size * 2 in
      let sensitivityY := 20 / size_height size * 2 in
      let newPosition := start_position start + deltaX * sensitivityX in
      let newPosition :=
        match Opening.wall opening with
        | OpeningWall.north => start_position start - deltaX * sensitivityX
        | _ => newPosition
        end in
      let newPosition :=
        match Opening.wall opening with
        | OpeningWall.west => start_position start - deltaX * sensitivityX
        | _ => newPosition
        end in
      let newPosition := Math_max 0 (Math_min maxPosition newPosition) in
      let newBottomOffset :=
        if isWindow then
          let newBottomOffset :=
            start_bottomOffset start - deltaY * sensitivityY in
          let maxBottomOffset := Math_max 0 (14 - Opening.height opening) in
          Math_max 0 (Math_min maxBottomOffset newBottomOffset)
        else Opening.bottomOffset opening in
      (Store.updateOpening (Opening.id opening)
         (Opening.mkPartial None None None (Some newPosition) None None
                            (Some newBottomOffset)) s,
       l)
  | _, _ => st
  end.

Definition handlePointerUp (e : pointerEvent)
    (st : BuildingState * local) : BuildingState * local :=
  let (s, l) := st in
  (Store.setIsDraggingDoor false s, mkLocal false (isHovered l) None).

Variable ui : UI.t.
Variable l : local.

Definition isSelected : bool :=
  match UI.selectedOpeningId ui with
  | Some id => String.eqb id (Opening.id opening)
  | None => false
  end.

Definition render : node :=
  let r := (OpeningOf (Opening.id opening), DoorPart) in
  let w := Opening.width opening in
  let h := Opening.height opening in
  group doorPosition doorRotation
    ((* Selection/hover outline *)
     when (isSelected || isHovered l)
       [mesh r (0, 0, -0.05) origin (boxGeometry (w + 0.4) (h + 0.3) 0.1)
          (basicTransparent
             (Some (if isSelected then "#3b82f6" else "#60a5fa")) 0.5)]
     ++ (* Door/Window frame *)
     [mesh r origin origin (boxGeometry w h 0.3) (standardMR doorColor 0.3 0.7)]
     ++ (* Invisible hit area *)
     [mesh r (0, 0, 0.3) origin (boxGeometry (w + 0.3) (h + 0.3) 0.2)
        (basicTransparent None 0)]
     ++ (* Glass for windows and glass doors *)
     when (isWindow
           || DoorType.eqb (Opening.type opening) DoorType.sliding_glass
           || DoorType.eqb (Opening.type opening) DoorType.overhead_glass
           || DoorType.eqb (Opening.type opening) DoorType.walk_half_glass)
       [mesh r (0, if isWindow then 0 else h * 0.2, 0.1) origin
          (boxGeometry (w * 0.85) (if isWindow then h * 0.85 else h * 0.5) 0.05)
          (glass "#87CEEB" 0.5 0.9 0.1)]
     ++ (* Overhead door sections *)
     when isOverhead
       (List.map
          (fun i =>
             mesh r (0, - h / 2 + h * 0.125 + i * h * 0.25, 0.1) origin
               (boxGeometry (w * 0.95) (h * 0.23) 0.02) (standard "#5a5a5a"))
          [0; 1; 2; 3])
     ++ (* Drag indicator when dragging *)
     when (isDragging l)
       [mesh r (0, h / 2 + 0.5, 0.2) origin (boxGeometry 1 0.3 0.1)
          (basicColor "#3b82f6")]).

End Component.

(* Pointer events delivered to the hit area of the opening at index [k] of
   the store; onPointerLeave runs handlePointerUp too. *)
Inductive pointer :=
| onPointerDown (e : pointerEvent)
| onPointerMove (e : pointerEvent)
| onPointerUp (e : pointerEvent)
| onPointerLeave (e : pointerEvent).

Definition deliver (size : viewport) (k : nat) (p : pointer)
    (st : BuildingState * local) : BuildingState * local :=
  match nth_error (openings (fst st)) k with
  | Some opening =>
      let bw := Dimensions.width (dimensions (fst st)) in
      let bl := Dimensions.length (dimensions (fst st)) in
      match p with
      | onPointerDown e => handlePointerDown opening e st
      | onPointerMove e => handlePointerMove opening bw bl size e st
      | onPointerUp e => handlePointerUp e st
      | onPointerLeave e => handlePointerUp e st
      end
  | None => st
  end.

Definition deliverAll (size : viewport) (k : nat) (ps : list pointer)
    (st : BuildingState * local) : BuildingState * local :=
  fold_left (fun acc p => deliver size k p acc) ps st.

End DraggableDoor.

(** ** [TrapezoidWall]: a wall from the ground to a sloped top edge *)

Module TrapezoidWall.

(* The memoized geometry: two triangles, non-indexed. *)
Definition geometry (width lowHeight highHeight : number) : Scene.geometry :=
  bufferGeometry
    [ 0; 0; 0;
      width; 0; 0;
      width; lowHeight; 0;
      0; 0; 0;
      width; lowHeight; 0;
      0; highHeight; 0 ]
    [ 0; 0;
      1; 0;
      1; lowHeight / Math_max highHeight 1;
      0; 0;
      1; lowHeight / Math_max highHeight 1;
      0; 1 ].
Definition geometry_deps (width lowHeight highHeight : number)
  : list number :=
  [width; lowHeight; highHeight].

Definition render (r : role) (width lowHeight highHeight : number)
    (position rotation : vec3) (t : texture) : node :=
  mesh r position rotation (geometry width lowHeight highHeight)
       (textured t 0.4 0.6).

End TrapezoidWall.

(** ** [Building]: the derived scene *)

Module Building.

Open Scope string_scope.

Section Render.

Variable s : BuildingState.

Definition width : number := Dimensions.width (dimensions s).
Definition length : number := Dimensions.length (dimensions s).
Definition eaveHeight : number := Dimensions.eaveHeight (dimensions s).
Definition roofStyle : RoofStyle.t := Roof.style (roof s).
Definition pitch : number := Roof.pitch (roof s).
Definition asymmetricOffset : number := Roof.asymmetricOffset (roof s).
Definition overhangs : PerSide.t number := Roof.overhangs (roof s).
Definition ridgeVents : number := Roof.ridgeVents (roof s).
Definition cupola2ft : number := Roof.cupola2ft (roof s).
Definition cupola3ft : number := Roof.cupola3ft (roof s).
Definition visibilityMode : VisibilityMode.t := UI.visibilityMode (ui s).

Definition isGable : bool := RoofStyle.eqb roofStyle RoofStyle.gable.
Definition isSingleSlope : bool :=
  RoofStyle.eqb roofStyle RoofStyle.single_slope.
Definition isAsymmetrical : bool :=
  RoofStyle.eqb roofStyle RoofStyle.asymmetrical.

(* Corrugated metal textures *)
Definition wallTexture : texture := mkTexture (Colors.wall (colors s)) false.
Definition roofTexture : texture := mkTexture (Colors.roof (colors s)) true.

(* Roof geometry *)
Definition roofRise : number := (width / 2) * (pitch / 12).
Definition roofAngle : number := Math_atan2 roofRise (width / 2).
Definition roofPanelLength : number :=
  Math_sqrt ((width / 2) ^ 2 + roofRise ^ 2).

(* Asymmetrical roof *)
Definition peakOffset : number :=
  ((asymmetricOffset - 5) / 5) * (width / 2) * 0.8.
Definition leftWidth : number := width / 2 + peakOffset.
Definition rightWidth : number := width / 2 - peakOffset.
Definition leftRoofLength : number := Math_sqrt (leftWidth ^ 2 + roofRise ^ 2).
Definition rightRoofLength : number :=
  Math_sqrt (rightWidth ^ 2 + roofRise ^ 2).
Definition leftRoofAngle : number := Math_atan2 roofRise leftWidth.
Definition rightRoofAngle : number := Math_atan2 roofRise rightWidth.

(* Visibility flags *)
Definition showWalls : bool :=
  VisibilityMode.eqb visibilityMode VisibilityMode.full.
Definition showRoof : bool :=
  VisibilityMode.eqb visibilityMode VisibilityMode.full
  || VisibilityMode.eqb visibilityMode VisibilityMode.hide_walls.
Definition showSecondaryMembers : bool :=
  negb (VisibilityMode.eqb visibilityMode VisibilityMode.frame_only).

(* Steel beam dimensions *)
Definition beamSize : number := 0.4.

(* Frame spacing *)
Definition maxSpacing : number := 25.
Definition numFrames : number :=
  Math_max 2 (Math_ceil (length / maxSpacing) + 1).
Definition frameSpacing : number := length / (numFrames - 1).

Definition gableInset : number := 0.

(* The three end wall geometries, each under useMemo with the
   dependencies listed next to it. *)
Definition gableEndWallGeometry : geometry :=
  let hw := width / 2 - gableInset in
  let peakExtra := 0.2 in
  let totalHeight := eaveHeight + roofRise + peakExtra in
  bufferGeometry
    [ - hw; 0; 0;
      hw; 0; 0;
      hw; eaveHeight; 0;
      - hw; 0; 0;
      hw; eaveHeight; 0;
      - hw; eaveHeight; 0;
      - hw; eaveHeight; 0;
      hw; eaveHeight; 0;
      0; eaveHeight + roofRise + peakExtra; 0 ]
    [ 0; 0;
      1; 0;
      1; eaveHeight / totalHeight;
      0; 0;
      1; eaveHeight / totalHeight;
      0; eaveHeight / totalHeight;
      0; eaveHeight / totalHeight;
      1; eaveHeight / totalHeight;
      0.5; 1 ].
Definition gableEndWallGeometry_deps : list number :=
  [width; eaveHeight; roofRise].

Definition asymmetricalEndWallGeometry : geometry :=
  let hw := width / 2 - gableInset in
  let peakExtra := 0.2 in
  let totalHeight := eaveHeight + roofRise + peakExtra in
  let peakU := (peakOffset + hw) / (2 * hw) in
  bufferGeometry
    [ - hw; 0; 0;
      hw; 0; 0;
      hw; eaveHeight; 0;
      - hw; 0; 0;
      hw; eaveHeight; 0;
      - hw; eaveHeight; 0;
      - hw; eaveHeight; 0;
      hw; eaveHeight; 0;
      peakOffset; eaveHeight + roofRise + peakExtra; 0 ]
    [ 0; 0;
      1; 0;
      1; eaveHeight / totalHeight;
      0; 0;
      1; eaveHeight / totalHeight;
      0; eaveHeight / totalHeight;
      0; eaveHeight / totalHeight;
      1; eaveHeight / totalHeight;
      peakU; 1 ].
Definition asymmetricalEndWallGeometry_deps : list number :=
  [width; eaveHeight; roofRise; peakOffset].

Definition singleSlopeEndWallGeometry : geometry :=
  let hw := width / 2 - gableInset in
  let topOffset := -0.1 in
  let totalHeight := eaveHeight + roofRise + topOffset in
  bufferGeometry
    [ - hw; 0; 0;
      hw; 0; 0;
      hw; eaveHeight + roofRise + topOffset; 0;
      - hw; 0; 0;
      hw; eaveHeight + roofRise + topOffset; 0;
      - hw; eaveHeight + topOffset; 0 ]
    [ 0; 0;
      1; 0;
      1; 1;
      0; 0;
      1; 1;
      0; eaveHeight / totalHeight ].
Definition singleSlopeEndWallGeometry_deps : list number :=
  [width; eaveHeight; roofRise].

(* An H-beam rafter of the given length: web, top flange, bottom flange. *)
Definition rafterBeam (r : role) (rafterLength : number) : list node :=
  let flangeWidth := 1.2 in
  let webHeight := 1.0 in
  let flangeThickness := 0.15 in
  let webThickness := 0.1 in
  [ mesh r origin origin
      (boxGeometry rafterLength (webHeight * 0.8) webThickness) steel;
    mesh r (0, webHeight * 0.4, 0) origin
      (boxGeometry rafterLength flangeThickness (flangeWidth * 0.8)) steel;
    mesh r (0, - webHeight * 0.4, 0) origin
      (boxGeometry rafterLength flangeThickness (flangeWidth * 0.8)) steel ].

(* An H-beam column of the given height: web, front flange, back flange. *)
Definition columnBeam (r : role) (columnHeight : number) : list node :=
  let flangeWidth := 1.2 in
  let webHeight := 1.0 in
  let flangeThickness := 0.15 in
  let webThickness := 0.1 in
  [ mesh r (0, columnHeight / 2, 0) origin
      (boxGeometry webThickness columnHeight webHeight) steel;
    mesh r (0, columnHeight / 2, webHeight / 2) origin
      (boxGeometry flangeWidth columnHeight flangeThickness) steel;
    mesh r (0, columnHeight / 2, - webHeight / 2) origin
      (boxGeometry flangeWidth columnHeight flangeThickness) steel ].

(* One primary frame at [zPos].  The main frames and the north and south
   overhang frames are three copies of this element tree; they differ in
   the position of the outer group only. *)
Definition frame (st : structure) (zPos : number) : node :=
  let flangeWidth := 1.2 in
  let kneeBraceLength := Math_min (eaveHeight * 0.3) 4 in
  let kneeBraceAngle := Math_PI / 4 in
  let columnInset := flangeWidth / 2 + 0.3 in
  let leftColumnHeight := eaveHeight in
  let rightColumnHeight :=
    if isSingleSlope then eaveHeight + roofRise - 0.5 else eaveHeight in
  group (0, 0, zPos) origin
    ([ (* Left Column *)
       group (- width / 2 + columnInset, 0, 0) origin
         (columnBeam (st, Column) leftColumnHeight);
       (* Right Column *)
       group (width / 2 - columnInset, 0, 0) origin
         (columnBeam (st, Column) rightColumnHeight);
       (* Eave Beam *)
       mesh (st, EaveBeam) (0, eaveHeight, 0) origin
         (boxGeometry (width - columnInset * 2 - 0.4) (beamSize * 0.8)
                      (beamSize * 0.8)) steel;
       (* Left Knee Brace *)
       mesh (st, KneeBrace)
         (- width / 2 + columnInset + flangeWidth / 2 + kneeBraceLength * 0.5,
          eaveHeight - kneeBraceLength * 0.5, 0)
         (0, 0, kneeBraceAngle)
         (boxGeometry (kneeBraceLength * 1.4) (beamSize * 0.5)
                      (beamSize * 0.5)) steel;
       (* Right Knee Brace *)
       mesh (st, KneeBrace)
         (width / 2 - columnInset - flangeWidth / 2 - kneeBraceLength * 0.5,
          eaveHeight - kneeBraceLength * 0.5, 0)
         (0, 0, - kneeBraceAngle)
         (boxGeometry (kneeBraceLength * 1.4) (beamSize * 0.5)
                      (beamSize * 0.5)) steel ]
     ++ (* Gable Rafters *)
     when isGable
       (let rafterHorizLength := width / 2 - columnInset in
        let rafterLength :=
          Math_sqrt (rafterHorizLength ^ 2 + roofRise ^ 2) in
        let rafterCenterX := rafterHorizLength / 2 in
        let rafterOffset := 0.8 in
        let rafterCenterY := eaveHeight + roofRise / 2 - rafterOffset in
        [ group (- rafterCenterX, rafterCenterY, 0) (0, 0, roofAngle)
            (rafterBeam (st, Rafter) rafterLength);
          group (rafterCenterX, rafterCenterY, 0) (0, 0, - roofAngle)
            (rafterBeam (st, Rafter) rafterLength) ])
     ++ (* Single Slope Rafter *)
     when isSingleSlope
       (let rafterHorizLength := width - columnInset * 2 in
        let rafterLength :=
          Math_sqrt (rafterHorizLength ^ 2 + roofRise ^ 2) in
        let rafterOffset := 0.8 in
        let rafterCenterY := eaveHeight + roofRise / 2 - rafterOffset in
        [ group (0, rafterCenterY, 0)
            (0, 0, Math_atan2 roofRise rafterHorizLength)
            (rafterBeam (st, Rafter) rafterLength) ])
     ++ (* Asymmetrical Rafters *)
     when isAsymmetrical
       (let leftHorizLength := peakOffset + width / 2 - columnInset in
        let leftRafterLength :=
          Math_sqrt (leftHorizLength ^ 2 + roofRise ^ 2) in
        let leftCenterX := (- width / 2 + columnInset + peakOffset) / 2 in
        let rightHorizLength := width / 2 - columnInset - peakOffset in
        let rightRafterLength :=
          Math_sqrt (rightHorizLength ^ 2 + roofRise ^ 2) in
        let rightCenterX := (width / 2 - columnInset + peakOffset) / 2 in
        let rafterOffset := 0.8 in
        let rafterCenterY := eaveHeight + roofRise / 2 - rafterOffset in
        [ group (leftCenterX, rafterCenterY, 0) (0, 0, leftRoofAngle)
            (rafterBeam (st, Rafter) leftRafterLength);
          group (rightCenterX, rafterCenterY, 0) (0, 0, - rightRoofAngle)
            (rafterBeam (st, Rafter) rightRafterLength) ])).

(* The z position of main frame [i]: evenly spaced, the end frames inset. *)
Definition frameZ (i : nat) : number :=
  let endWallInset := 1.0 in
  let zPos := - length / 2 + INR i * frameSpacing in
  if JS.eqb (INR i) 0 then - length / 2 + endWallInset
  else if JS.eqb (INR i) (numFrames - 1) then length / 2 - endWallInset
  else zPos.

(* Main Steel Frames - always rendered *)
Definition MainSteelFrames : list node :=
  Array_from numFrames (fun i => frame MainBuilding (frameZ i)).

(* Horizontal Wall Girts - hidden in frame-only mode, on enclosed walls *)
Definition WallGirts : list node :=
  when showSecondaryMembers
    (let r := (MainBuilding, Girt) in
     let girtSize := 0.2 in
     let girtInset := 0.9 in
     let westWallHeight := eaveHeight in
     let eastWallHeight :=
       if isSingleSlope then eaveHeight + roofRise else eaveHeight in
     let numWestGirts := Math_max 2 (Math_floor (westWallHeight / 4)) in
     let numEastGirts := Math_max 2 (Math_floor (eastWallHeight / 4)) in
     let westGirtSpacing := westWallHeight / (numWestGirts + 1) in
     let eastGirtSpacing := eastWallHeight / (numEastGirts + 1) in
     [ group origin origin
         (when (PerSide.west (Walls.enclosed (walls s)))
            (Array_from numWestGirts (fun i =>
               mesh r (- width / 2 + girtInset,
                       westGirtSpacing * (INR i + 1), 0) origin
                 (boxGeometry girtSize girtSize (length - girtInset * 2))
                 steel))
          ++ when (PerSide.east (Walls.enclosed (walls s)))
            (Array_from numEastGirts (fun i =>
               mesh r (width / 2 - girtInset,
                       eastGirtSpacing * (INR i + 1), 0) origin
                 (boxGeometry girtSize girtSize (length - girtInset * 2))
                 steel))
          ++ when (PerSide.south (Walls.enclosed (walls s)))
            (Array_from numWestGirts (fun i =>
               mesh r (0, westGirtSpacing * (INR i + 1),
                       length / 2 - girtInset) origin
                 (boxGeometry (width - girtInset * 2) girtSize girtSize)
                 steel))
          ++ when (PerSide.north (Walls.enclosed (walls s)))
            (Array_from numWestGirts (fun i =>
               mesh r (0, westGirtSpacing * (INR i + 1),
                       - length / 2 + girtInset) origin
                 (boxGeometry (width - girtInset * 2) girtSize girtSize)
                 steel))
          ++ (* Base girts *)
          when (PerSide.west (Walls.enclosed (walls s)))
            [ mesh r (- width / 2 + girtInset, girtSize / 2, 0) origin
                (boxGeometry girtSize girtSize (length - girtInset * 2))
                steel ]
          ++ when (PerSide.east (Walls.enclosed (walls s)))
            [ mesh r (width / 2 - girtInset, girtSize / 2, 0) origin
                (boxGeometry girtSize girtSize (length - girtInset * 2))
                steel ]
          ++ when (PerSide.south (Walls.enclosed (walls s)))
            [ mesh r (0, girtSize / 2, length / 2 - girtInset) origin
                (boxGeometry (width - girtInset * 2) girtSize girtSize)
                steel ]
          ++ when (PerSide.north (Walls.enclosed (walls s)))
            [ mesh r (0, girtSize / 2, - length / 2 + girtInset) origin
                (boxGeometry (width - girtInset * 2) girtSize girtSize)
                steel ]) ]).

(* North and South End Wall Overhang Frames - when the overhang is set *)
Definition NorthOverhangFrame : list node :=
  when (gtb (PerSide.north overhangs) 0)
    [ frame (OverhangFrame WallSide.north)
        (- length / 2 - PerSide.north overhangs) ].

Definition SouthOverhangFrame : list node :=
  when (gtb (PerSide.south overhangs) 0)
    [ frame (OverhangFrame WallSide.south)
        (length / 2 + PerSide.south overhangs) ].

(* Purlins of the gable roof - hidden in frame-only *)
Definition GablePurlins : list node :=
  when (showSecondaryMembers && isGable)
    (let r := (MainBuilding, Purlin) in
     let purlinSize := 0.15 in
     let numPurlins := 5 in
     let columnInset := 0.9 in
     let rafterHorizLength := width / 2 - columnInset in
     [ (* Ridge Purlin *)
       mesh r (0, eaveHeight + roofRise - 0.3, 0) origin
         (boxGeometry (purlinSize * 1.5) (purlinSize * 1.5) length) steel ]
     ++ (* Left Side Purlins *)
     Array_from numPurlins (fun idx =>
       let ratio := (INR idx + 1) / (numPurlins + 1) in
       let x := - rafterHorizLength * (1 - ratio) in
       let y := eaveHeight + roofRise * ratio - 0.3 in
       mesh r (x, y, 0) origin (boxGeometry purlinSize purlinSize length)
         steel)
     ++ (* Right Side Purlins *)
     Array_from numPurlins (fun idx =>
       let ratio := (INR idx + 1) / (numPurlins + 1) in
       let x := rafterHorizLength * (1 - ratio) in
       let y := eaveHeight + roofRise * ratio - 0.3 in
       mesh r (x, y, 0) origin (boxGeometry purlinSize purlinSize length)
         steel)).

(* Purlins of the single slope roof - hidden in frame-only *)
Definition SingleSlopePurlins : list node :=
  when (showSecondaryMembers && isSingleSlope)
    (let r := (MainBuilding, Purlin) in
     let purlinSize := 0.15 in
     let numPurlins := 6 in
     let columnInset := 0.9 in
     let rafterHorizLength := width - columnInset * 2 in
     Array_from numPurlins (fun idx =>
       let ratio := (INR idx + 1) / (numPurlins + 1) in
       let x := - width / 2 + columnInset + rafterHorizLength * ratio in
       let y := eaveHeight + roofRise * ratio - 0.3 in
       mesh r (x, y, 0) origin (boxGeometry purlinSize purlinSize length)
         steel)).

(* Purlins of the asymmetrical roof - hidden in frame-only *)
Definition AsymmetricalPurlins : list node :=
  when (showSecondaryMembers && isAsymmetrical)
    (let r := (MainBuilding, Purlin) in
     let purlinSize := 0.15 in
     let columnInset := 0.9 in
     let leftHorizLength := peakOffset + width / 2 - columnInset in
     let numLeftPurlins := Math_max 3 (Math_round (leftHorizLength / 4)) in
     let rightHorizLength := width / 2 - columnInset - peakOffset in
     let numRightPurlins := Math_max 2 (Math_round (rightHorizLength / 4)) in
     [ (* Ridge Purlin at offset peak *)
       mesh r (peakOffset, eaveHeight + roofRise - 0.3, 0) origin
         (boxGeometry (purlinSize * 1.5) (purlinSize * 1.5) length) steel ]
     ++ (* Left Side Purlins *)
     Array_from numLeftPurlins (fun idx =>
       let ratio := (INR idx + 1) / (numLeftPurlins + 1) in
       let x := - width / 2 + columnInset + leftHorizLength * ratio in
       let y := eaveHeight + roofRise * ratio - 0.3 in
       mesh r (x, y, 0) origin (boxGeometry purlinSize purlinSize length)
         steel)
     ++ (* Right Side Purlins *)
     Array_from numRightPurlins (fun idx =>
       let ratio := (INR idx + 1) / (numRightPurlins + 1) in
       let x := peakOffset + rightHorizLength * ratio in
       let y := eaveHeight + roofRise * (1 - ratio) - 0.3 in
       mesh r (x, y, 0) origin (boxGeometry purlinSize purlinSize length)
         steel)).

(* Ridge Beam - at the peak, along the building and its overhangs *)
Definition RidgeBeamSection : list node :=
  when (isGable || isAsymmetrical)
    (let totalLength :=
       length + PerSide.north overhangs + PerSide.south overhangs in
     let zOffset :=
       (PerSide.south overhangs - PerSide.north overhangs) / 2 in
     let ridgeX := if isAsymmetrical then peakOffset else 0 in
     let ridgeY := eaveHeight + roofRise - 0.6 in
     [ mesh (MainBuilding, RidgeBeam) (ridgeX, ridgeY, zOffset) origin
         (boxGeometry 0.3 0.3 totalLength) steel ]).

(* Perimeter Eave Beams - always rendered *)
Definition PerimeterEaveBeams : list node :=
  let r := (MainBuilding, EaveBeam) in
  let eaveInset := 0.9 in
  [ group origin origin
      [ mesh r (0, eaveHeight - 0.2, - length / 2 + eaveInset) origin
          (boxGeometry (width - eaveInset * 2) (beamSize * 0.8)
                       (beamSize * 0.8)) steel;
        mesh r (0, eaveHeight - 0.2, length / 2 - eaveInset) origin
          (boxGeometry (width - eaveInset * 2) (beamSize * 0.8)
                       (beamSize * 0.8)) steel;
        mesh r (- width / 2 + eaveInset, eaveHeight - 0.2, 0) origin
          (boxGeometry (beamSize * 0.8) (beamSize * 0.8)
                       (length - eaveInset * 2)) steel;
        mesh r (width / 2 - eaveInset, eaveHeight - 0.2, 0) origin
          (boxGeometry (beamSize * 0.8) (beamSize * 0.8)
                       (length - eaveInset * 2)) steel ] ].

(* Wainscot - only on enclosed walls, hidden if a lean-to is attached to
   that side *)
Definition Wainscots : list node :=
  when (Walls.wainscotEnabled (walls s))
    (let wainscotHeight := Walls.wainscotHeight (walls s) in
     let m := standardMR (Colors.wainscot (colors s)) 0.4 0.6 in
     [ group origin origin
         (when (PerSide.south (Walls.enclosed (walls s))
                && negb (LeanToConfig.enabled
                           (PerSide.south (leanToConfigs s))))
            [ mesh (MainBuilding, Wainscot WallSide.south)
                (0, wainscotHeight / 2, length / 2 + 0.3) origin
                (boxGeometry (width + 0.4) wainscotHeight 0.2) m ]
          ++ when (PerSide.north (Walls.enclosed (walls s))
                   && negb (LeanToConfig.enabled
                              (PerSide.north (leanToConfigs s))))
            [ mesh (MainBuilding, Wainscot WallSide.north)
                (0, wainscotHeight / 2, - length / 2 - 0.3) origin
                (boxGeometry (width + 0.4) wainscotHeight 0.2) m ]
          ++ when (PerSide.west (Walls.enclosed (walls s))
                   && negb (LeanToConfig.enabled
                              (PerSide.west (leanToConfigs s))))
            [ mesh (MainBuilding, Wainscot WallSide.west)
                (- width / 2 - 0.3, wainscotHeight / 2, 0) origin
                (boxGeometry 0.2 wainscotHeight (length + 0.4)) m ]
          ++ when (PerSide.east (Walls.enclosed (walls s))
                   && negb (LeanToConfig.enabled
                              (PerSide.east (leanToConfigs s))))
            [ mesh (MainBuilding, Wainscot WallSide.east)
                (width / 2 + 0.3, wainscotHeight / 2, 0) origin
                (boxGeometry 0.2 wainscotHeight (length + 0.4)) m ]) ]).

(* Wall Panels - only render if enclosed *)
Definition WallPanels : list node :=
  when showWalls
    (let m := textured wallTexture 0.4 0.6 in
     let enclosed := Walls.enclosed (walls s) in
     [ group origin origin
         (when (PerSide.south enclosed && isGable)
            [ mesh (MainBuilding, WallPanel WallSide.south)
                (0, 0, length / 2 + 0.05) origin gableEndWallGeometry m ]
          ++ when (PerSide.south enclosed && isAsymmetrical)
            [ mesh (MainBuilding, WallPanel WallSide.south)
                (0, 0, length / 2 + 0.05) origin
                asymmetricalEndWallGeometry m ]
          ++ when (PerSide.south enclosed && isSingleSlope)
            [ mesh (MainBuilding, WallPanel WallSide.south)
                (0, 0, length / 2 + 0.05) origin
                singleSlopeEndWallGeometry m ]
          ++ when (PerSide.north enclosed && isGable)
            [ mesh (MainBuilding, WallPanel WallSide.north)
                (0, 0, - length / 2 - 0.05) origin gableEndWallGeometry m ]
          ++ when (PerSide.north enclosed && isAsymmetrical)
            [ mesh (MainBuilding, WallPanel WallSide.north)
                (0, 0, - length / 2 - 0.05) origin
                asymmetricalEndWallGeometry m ]
          ++ when (PerSide.north enclosed && isSingleSlope)
            [ mesh (MainBuilding, WallPanel WallSide.north)
                (0, 0, - length / 2 - 0.05) origin
                singleSlopeEndWallGeometry m ]
          ++ (* Left Wall (West) *)
          when (PerSide.west enclosed)
            [ mesh (MainBuilding, WallPanel WallSide.west)
                (- width / 2, eaveHeight / 2, 0) origin
                (boxGeometry 0.4 eaveHeight length) m ]
          ++ (* Right Wall (East) - taller for single-slope *)
          when (PerSide.east enclosed)
            (let eastWallHeight :=
               if isSingleSlope then eaveHeight + roofRise - 0.15
               else eaveHeight in
             [ mesh (MainBuilding, WallPanel WallSide.east)
                 (width / 2, eastWallHeight / 2, 0) origin
                 (boxGeometry 0.4 eastWallHeight length) m ])
          ++ Wainscots) ]).

Definition totalRoofLength : number :=
  let roofExtension := 1.5 in
  length + PerSide.north overhangs + PerSide.south overhangs
  + roofExtension * 2.

(* Roof Panels of the gable roof *)
Definition GableRoof : list node :=
  when (showRoof && isGable)
    (let leftPanelLength :=
       roofPanelLength + 0.5 + PerSide.west overhangs in
     let rightPanelLength :=
       roofPanelLength + 0.5 + PerSide.east overhangs in
     let leftXOffset := - PerSide.west overhangs / 2 * Math_cos roofAngle in
     let leftYOffset := - PerSide.west overhangs / 2 * Math_sin roofAngle in
     let rightXOffset := PerSide.east overhangs / 2 * Math_cos roofAngle in
     let rightYOffset := - PerSide.east overhangs / 2 * Math_sin roofAngle in
     let m := textured roofTexture 0.5 0.5 in
     [ group
         (0, 0, (PerSide.south overhangs - PerSide.north overhangs) / 2)
         origin
         [ (* Left Roof Panel (WEST side) *)
           group (- width / 4 + leftXOffset,
                  eaveHeight + roofRise / 2 + 0.1 + leftYOffset, 0) origin
             [ mesh (MainBuilding, RoofPanel) origin (0, 0, roofAngle)
                 (boxGeometry leftPanelLength 0.15 totalRoofLength) m ];
           (* Right Roof Panel (EAST side) *)
           group (width / 4 + rightXOffset,
                  eaveHeight + roofRise / 2 + 0.1 + rightYOffset, 0) origin
             [ mesh (MainBuilding, RoofPanel) origin (0, 0, - roofAngle)
                 (boxGeometry rightPanelLength 0.15 totalRoofLength) m ];
           (* Ridge Cap *)
           mesh (MainBuilding, RidgeCap)
             (0, eaveHeight + roofRise + 0.15, 0) origin
             (boxGeometry 0.5 0.1 totalRoofLength)
             (standard (Colors.trim (colors s))) ] ]).

(* Single Slope Roof - slopes from WEST (low) to EAST (high); the slope
   is calculated with the overhangs included in the width *)
Definition singleSlope_totalWidth : number :=
  width + PerSide.east overhangs + PerSide.west overhangs.
Definition singleSlope_slopeLength : number :=
  Math_sqrt (singleSlope_totalWidth ^ 2 + roofRise ^ 2).
Definition singleSlope_slopeAngle : number :=
  Math_atan2 roofRise singleSlope_totalWidth.

Definition SingleSlopeRoof : list node :=
  when (showRoof && isSingleSlope)
    (let totalWidth := singleSlope_totalWidth in
     let slopeLength := singleSlope_slopeLength in
     let slopeAngle := singleSlope_slopeAngle in
     let xOffset := (PerSide.east overhangs - PerSide.west overhangs) / 2 in
     [ group
         (xOffset, eaveHeight,
          (PerSide.south overhangs - PerSide.north overhangs) / 2) origin
         [ mesh (MainBuilding, RoofPanel) (0, roofRise / 2, 0)
             (0, 0, slopeAngle)
             (boxGeometry (slopeLength + 0.5) 0.15 totalRoofLength)
             (textured roofTexture 0.5 0.5) ] ]).

(* Asymmetrical Roof - peak offset from center *)
Definition AsymmetricalRoof : list node :=
  when (showRoof && isAsymmetrical)
    (let m := textured roofTexture 0.5 0.5 in
     [ group
         (0, 0, (PerSide.south overhangs - PerSide.north overhangs) / 2)
         origin
         [ (* Left Roof Panel *)
           group ((- width / 2 + peakOffset) / 2 - PerSide.west overhangs / 2,
                  eaveHeight + roofRise / 2 + 0.1, 0) origin
             [ mesh (MainBuilding, RoofPanel) origin (0, 0, leftRoofAngle)
                 (boxGeometry (leftRoofLength + 0.3 + PerSide.west overhangs)
                              0.15 totalRoofLength) m ];
           (* Right Roof Panel *)
           group ((width / 2 + peakOffset) / 2 + PerSide.east overhangs / 2,
                  eaveHeight + roofRise / 2 + 0.1, 0) origin
             [ mesh (MainBuilding, RoofPanel) origin (0, 0, - rightRoofAngle)
                 (boxGeometry (rightRoofLength + 0.3 + PerSide.east overhangs)
                              0.15 totalRoofLength) m ];
           (* Ridge Cap at offset peak *)
           mesh (MainBuilding, RidgeCap)
             (peakOffset, eaveHeight + roofRise + 0.15, 0) origin
             (boxGeometry 0.5 0.1 totalRoofLength)
             (standard (Colors.trim (colors s))) ] ]).

(* Ridge Vents *)
Definition RidgeVents : list node :=
  when (showRoof && gtb ridgeVents 0 && isGable)
    [ group origin origin
        (Array_from ridgeVents (fun i =>
           let spacing := length / (ridgeVents + 1) in
           let zPos := - length / 2 + spacing * (INR i + 1) in
           group (0, eaveHeight + roofRise + 0.3, zPos) origin
             [ mesh (MainBuilding, RidgeVent) origin origin
                 (boxGeometry 1.5 0.5 2)
                 (standardMR (Colors.trim (colors s)) 0.3 0.7);
               mesh (MainBuilding, RidgeVent) (0, 0.1, 0) origin
                 (boxGeometry 1.3 0.3 1.8) (standardMR "#888888" 0.4 0.6) ])) ].

(* 2' Cupolas *)
Definition Cupolas2ft : list node :=
  when (showRoof && gtb cupola2ft 0 && isGable)
    [ group origin origin
        (Array_from cupola2ft (fun i =>
           let spacing := length / (cupola2ft + 1) in
           let zPos := - length / 2 + spacing * (INR i + 1) in
           group (0, eaveHeight + roofRise + 0.2, zPos) origin
             [ mesh (MainBuilding, Cupola) origin origin
                 (boxGeometry 2 0.3 2) (standard (Colors.trim (colors s)));
               mesh (MainBuilding, Cupola) (0, 1, 0) origin
                 (boxGeometry 1.8 1.5 1.8)
                 (standardMR (Colors.wall (colors s)) 0.3 0.7);
               mesh (MainBuilding, Cupola) (0, 2, 0) origin
                 (coneGeometry 1.5 1 4)
                 (standardMR (Colors.roof (colors s)) 0.4 0.6) ])) ].

(* 3' Cupolas *)
Definition Cupolas3ft : list node :=
  when (showRoof && gtb cupola3ft 0 && isGable)
    [ group origin origin
        (Array_from cupola3ft (fun i =>
           let spacing := length / (cupola3ft + 1) in
           let zPos := - length / 2 + spacing * (INR i + 1) in
           group (0, eaveHeight + roofRise + 0.2, zPos) origin
             [ mesh (MainBuilding, Cupola) origin origin
                 (boxGeometry 3 0.4 3) (standard (Colors.trim (colors s)));
               mesh (MainBuilding, Cupola) (0, 1.25, 0) origin
                 (boxGeometry 2.7 2 2.7)
                 (standardMR (Colors.wall (colors s)) 0.3 0.7);
               mesh (MainBuilding, Cupola) (0, 2.75, 0) origin
                 (coneGeometry 2.2 1.5 4)
                 (standardMR (Colors.roof (colors s)) 0.4 0.6) ])) ].

(* Trim - only visible when walls are visible *)
Definition TrimSection : list node :=
  when showWalls
    (let r := (MainBuilding, Trim) in
     let m := standard (Colors.trim (colors s)) in
     let leftEaveHeight := eaveHeight in
     let rightEaveHeight :=
       if isSingleSlope then eaveHeight + roofRise else eaveHeight in
     let rightTrimOffset := if isSingleSlope then 0.3 else 0 in
     let eaveTrimHeight := 0.6 in
     [ group origin origin
         [ (* Left and Right Eave Trim *)
           mesh r (- width / 2 - 0.15, leftEaveHeight - eaveTrimHeight / 2, 0)
             origin (boxGeometry 0.15 eaveTrimHeight length) m;
           mesh r (width / 2 + 0.15, rightEaveHeight - eaveTrimHeight / 2, 0)
             origin (boxGeometry 0.15 eaveTrimHeight length) m;
           (* Corner Trim - Left corners *)
           mesh r (- width / 2 - 0.1, leftEaveHeight / 2, length / 2 + 0.1)
             origin (boxGeometry 0.2 leftEaveHeight 0.2) m;
           mesh r (- width / 2 - 0.1, leftEaveHeight / 2, - length / 2 - 0.1)
             origin (boxGeometry 0.2 leftEaveHeight 0.2) m;
           (* Corner Trim - Right corners *)
           mesh r (width / 2 + 0.1, (rightEaveHeight - rightTrimOffset) / 2,
                   length / 2 + 0.1)
             origin (boxGeometry 0.2 (rightEaveHeight - rightTrimOffset) 0.2)
             m;
           mesh r (width / 2 + 0.1, (rightEaveHeight - rightTrimOffset) / 2,
                   - length / 2 - 0.1)
             origin (boxGeometry 0.2 (rightEaveHeight - rightTrimOffset) 0.2)
             m ] ]).

(* Doors and windows; each opening keeps its own component state. *)
Variable doorLocal : string -> DraggableDoor.local.

Definition DoorsAndWindows : list node :=
  when showWalls
    (List.map
       (fun opening =>
          DraggableDoor.render opening width length (ui s)
            (doorLocal (Opening.id opening)))
       (openings s)).

(** *** South Lean-To *)

Definition south_config : LeanToConfig.t := PerSide.south (leanToConfigs s).
Definition south_leanToWidth : number :=
  width - LeanToConfig.cutL south_config - LeanToConfig.cutR south_config.
Definition south_attachHeight : number :=
  eaveHeight - LeanToConfig.drop south_config.
Definition south_leanToRoofRise : number :=
  LeanToConfig.depth south_config * (LeanToConfig.roofPitch south_config / 12).
Definition south_outerHeight : number :=
  Math_max 1 (south_attachHeight - south_leanToRoofRise).
Definition south_leanToRoofLength : number :=
  Math_sqrt (LeanToConfig.depth south_config ^ 2 + south_leanToRoofRise ^ 2).
Definition south_leanToRoofAngle : number :=
  Math_atan2 south_leanToRoofRise (LeanToConfig.depth south_config).

Definition SouthLeanTo : list node :=
  when (LeanToConfig.enabled south_config)
    (let config := south_config in
     let depth := LeanToConfig.depth config in
     let wallType := LeanToConfig.walls config in
     let leanToWidth := south_leanToWidth in
     let attachHeight := south_attachHeight in
     let leanToRoofRise := south_leanToRoofRise in
     let outerHeight := south_outerHeight in
     let leanToRoofLength := south_leanToRoofLength in
     let leanToRoofAngle := south_leanToRoofAngle in
     let xOffset := (LeanToConfig.cutR config - LeanToConfig.cutL config) / 2 in
     let showLeanToWalls :=
       showWalls && negb (LeanToWallType.eqb wallType LeanToWallType.open) in
     let isFullLength :=
       LeanToWallType.eqb wallType LeanToWallType.full_length in
     let isFullyEnclosed :=
       LeanToWallType.eqb wallType LeanToWallType.fully_enclosed in
     let isGableDress :=
       LeanToWallType.eqb wallType LeanToWallType.gable_dress in
     let isGableWallsOnly :=
       LeanToWallType.eqb wallType LeanToWallType.gable_walls_only in
     let isApron := LeanToWallType.eqb wallType LeanToWallType.apron_2ft in
     let flangeWidth := 1.2 in
     let webHeight := 1.0 in
     let flangeThickness := 0.15 in
     let webThickness := 0.1 in
     let columnInset := flangeWidth / 2 + 1.5 in
     let purlinSize := 0.15 in
     let girtSize := 0.2 in
     let rafterDrop := 1.0 in
     let endWallInset := 1.5 in
     let numLeanToFrames := 3 in
     let frameableWidth := leanToWidth - endWallInset * 2 in
     let actualFrameSpacing := frameableWidth / (numLeanToFrames - 1) in
     let numPurlins := Math_max 3 (Math_ceil (depth / 3)) in
     let st := LeanToOf WallSide.south in
     let wallMat := textured wallTexture 0.4 0.6 in
     let wainscotMat := standardMR (Colors.wainscot (colors s)) 0.4 0.6 in
     let trimMat := standard (Colors.trim (colors s)) in
     let wainscotHeight :=
       Math_min (Walls.wainscotHeight (walls s)) outerHeight in
     [ group (xOffset, 0, length / 2) origin
         ((* MAIN FRAMES (I-beam columns + rafters) *)
          Array_from numLeanToFrames (fun frameIdx =>
            let xPos :=
              - leanToWidth / 2 + endWallInset
              + INR frameIdx * actualFrameSpacing in
            group (xPos, 0, 0) origin
              [ (* Column at outer edge *)
                group (0, 0, depth - columnInset) origin
                  [ mesh (st, Column) (0, outerHeight / 2, 0) origin
                      (boxGeometry webThickness outerHeight webHeight) steel;
                    mesh (st, Column) (0, outerHeight / 2, webHeight / 2)
                      origin
                      (boxGeometry flangeWidth outerHeight flangeThickness)
                      steel;
                    mesh (st, Column) (0, outerHeight / 2, - webHeight / 2)
                      origin
                      (boxGeometry flangeWidth outerHeight flangeThickness)
                      steel ];
                (* Rafter - sloped I-beam from building to outer column *)
                group (0, (attachHeight + outerHeight) / 2 - rafterDrop,
                       depth / 2)
                  (leanToRoofAngle, 0, 0)
                  [ mesh (st, Rafter) origin origin
                      (boxGeometry webThickness webHeight leanToRoofLength)
                      steel;
                    mesh (st, Rafter) (0, webHeight / 2, 0) origin
                      (boxGeometry flangeWidth flangeThickness
                                   leanToRoofLength) steel;
                    mesh (st, Rafter) (0, - webHeight / 2, 0) origin
                      (boxGeometry flangeWidth flangeThickness
                                   leanToRoofLength) steel ] ])
          ++ (* EAVE BEAMS *)
          when showSecondaryMembers
            [ mesh (st, EaveBeam)
                (0, attachHeight - rafterDrop - 0.5, columnInset + 0.5) origin
                (boxGeometry (leanToWidth - endWallInset * 2) 0.3 0.3) steel;
              mesh (st, EaveBeam)
                (0, outerHeight - rafterDrop - 0.5, depth - columnInset)
                origin
                (boxGeometry (leanToWidth - endWallInset * 2) 0.3 0.3) steel ]
          ++ (* PURLINS *)
          when showSecondaryMembers
            (Array_from numPurlins (fun idx =>
               let ratio := (INR idx + 1) / (numPurlins + 1) in
               let zPos := depth * ratio in
               let yPos := attachHeight - leanToRoofRise * ratio - 0.1 in
               mesh (st, Purlin) (0, yPos, zPos) origin
                 (boxGeometry frameableWidth purlinSize purlinSize) steel))
          ++ (* WALL GIRTS *)
          when (showSecondaryMembers && showLeanToWalls)
            (let numGirts := Math_max 2 (Math_floor (outerHeight / 4)) in
             let girtSpacing := outerHeight / (numGirts + 1) in
             [ group origin origin
                 (when (isFullLength || isFullyEnclosed)
                    (Array_from numGirts (fun i =>
                       mesh (st, Girt)
                         (0, girtSpacing * (INR i + 1), depth - columnInset)
                         origin
                         (boxGeometry (leanToWidth - columnInset * 2)
                                      girtSize girtSize) steel))
                  ++ when (isFullLength || isFullyEnclosed)
                    [ mesh (st, Girt)
                        (0, girtSize / 2, depth - columnInset) origin
                        (boxGeometry (leanToWidth - columnInset * 2)
                                     girtSize girtSize) steel ]) ])
          ++ (* ROOF *)
          when showRoof
            [ group (0, (attachHeight + outerHeight) / 2, depth / 2 + 0.3)
                origin
                [ mesh (st, RoofPanel) origin (leanToRoofAngle, 0, 0)
                    (boxGeometry (leanToWidth + 1) 0.15
                                 (leanToRoofLength + 0.5))
                    (textured roofTexture 0.5 0.5) ] ]
          ++ (* WALLS *)
          when showLeanToWalls
            [ group origin origin
                ((* Front wall (at outer edge) *)
                 when (isFullLength || isFullyEnclosed)
                   [ mesh (st, WallPanel WallSide.south)
                       (0, outerHeight / 2, depth + 0.2) origin
                       (boxGeometry leanToWidth outerHeight 0.4) wallMat ]
                 ++ (* Side walls - trapezoid from ground to roof, built
                       in place *)
                 when (isFullyEnclosed || isGableWallsOnly)
                   (let sideWallGeo :=
                      bufferGeometry
                        [ 0; 0; 0;
                          0; 0; depth;
                          0; outerHeight; depth;
                          0; 0; 0;
                          0; outerHeight; depth;
                          0; attachHeight; 0 ]
                        [ 0; 0;
                          1; 0;
                          1; outerHeight / attachHeight;
                          0; 0;
                          1; outerHeight / attachHeight;
                          0; 1 ] in
                    [ mesh (st, WallPanel WallSide.west)
                        (- leanToWidth / 2, 0, 0) origin sideWallGeo wallMat;
                      mesh (st, WallPanel WallSide.east)
                        (leanToWidth / 2, 0, 0) origin sideWallGeo wallMat ])
                 ++ (* Gable Dress - triangular panels at ends only *)
                 when isGableDress
                   (let gableDressGeo :=
                      bufferGeometry
                        [ 0; outerHeight; depth;
                          0; attachHeight; 0;
                          0; outerHeight; 0 ]
                        [ 1; 0;
                          0; 1;
                          0; 0 ] in
                    [ mesh (st, WallPanel WallSide.west)
                        (- leanToWidth / 2, 0, 0) origin gableDressGeo
                        wallMat;
                      mesh (st, WallPanel WallSide.east)
                        (leanToWidth / 2, 0, 0) origin gableDressGeo
                        wallMat ])
                 ++ (* 2ft Apron *)
                 when isApron
                   [ mesh (st, WallPanel WallSide.south)
                       (0, outerHeight - 1, depth + 0.2) origin
                       (boxGeometry leanToWidth 2 0.4) wallMat ]) ]
          ++ (* Wainscot for South Lean-To *)
          when (showWalls && Walls.wainscotEnabled (walls s))
            [ group origin origin
                (when (isFullLength || isFullyEnclosed)
                   [ mesh (st, Wainscot WallSide.south)
                       (0, wainscotHeight / 2, depth + 0.35) origin
                       (boxGeometry (leanToWidth + 0.4) wainscotHeight 0.2)
                       wainscotMat ]
                 ++ when (isFullyEnclosed || isGableWallsOnly)
                   [ mesh (st, Wainscot WallSide.west)
                       (- leanToWidth / 2 - 0.35, wainscotHeight / 2,
                        depth / 2) origin
                       (boxGeometry 0.2 wainscotHeight depth) wainscotMat;
                     mesh (st, Wainscot WallSide.east)
                       (leanToWidth / 2 + 0.35, wainscotHeight / 2,
                        depth / 2) origin
                       (boxGeometry 0.2 wainscotHeight depth) wainscotMat ]) ]
          ++ (* Trim for South Lean-To *)
          when (showWalls
                && negb (LeanToWallType.eqb wallType LeanToWallType.open))
            (let frontEaveTrim :=
               mesh (st, Trim) (0, outerHeight - 0.3, depth + 0.3) origin
                 (boxGeometry (leanToWidth + 0.4) 0.6 0.15) trimMat in
             let leftOuterCorner :=
               mesh (st, Trim)
                 (- leanToWidth / 2 - 0.1, outerHeight / 2, depth + 0.1)
                 origin (boxGeometry 0.2 outerHeight 0.2) trimMat in
             let rightOuterCorner :=
               mesh (st, Trim)
                 (leanToWidth / 2 + 0.1, outerHeight / 2, depth + 0.1)
                 origin (boxGeometry 0.2 outerHeight 0.2) trimMat in
             let leftBuildingCorner :=
               mesh (st, Trim)
                 (- leanToWidth / 2 - 0.1, attachHeight / 2, 0.1) origin
                 (boxGeometry 0.2 attachHeight 0.2) trimMat in
             let rightBuildingCorner :=
               mesh (st, Trim)
                 (leanToWidth / 2 + 0.1, attachHeight / 2, 0.1) origin
                 (boxGeometry 0.2 attachHeight 0.2) trimMat in
             let leftSloped :=
               mesh (st, Trim)
                 (- leanToWidth / 2 - 0.1, (attachHeight + outerHeight) / 2,
                  depth / 2)
                 (leanToRoofAngle, 0, 0)
                 (boxGeometry 0.2 0.15 leanToRoofLength) trimMat in
             let rightSloped :=
               mesh (st, Trim)
                 (leanToWidth / 2 + 0.1, (attachHeight + outerHeight) / 2,
                  depth / 2)
                 (leanToRoofAngle, 0, 0)
                 (boxGeometry 0.2 0.15 leanToRoofLength) trimMat in
             [ group origin origin
                 (when isFullLength
                    [ frontEaveTrim; leftOuterCorner; rightOuterCorner ]
                  ++ when isFullyEnclosed
                    [ frontEaveTrim; leftOuterCorner; rightOuterCorner;
                      leftBuildingCorner; rightBuildingCorner;
                      leftSloped; rightSloped ]
                  ++ when isGableWallsOnly
                    [ leftOuterCorner; rightOuterCorner;
                      leftBuildingCorner; rightBuildingCorner;
                      leftSloped; rightSloped ]
                  ++ when isGableDress [ leftSloped; rightSloped ]
                  ++ when isApron
                    [ mesh (st, Trim)
                        (0, outerHeight - 2.1, depth + 0.3) origin
                        (boxGeometry (leanToWidth + 0.4) 0.2 0.15) trimMat;
                      mesh (st, Trim)
                        (0, outerHeight - 0.1, depth + 0.3) origin
                        (boxGeometry (leanToWidth + 0.4) 0.2 0.15)
                        trimMat ]) ])) ]).

(** *** North Lean-To *)

Definition north_config : LeanToConfig.t := PerSide.north (leanToConfigs s).
Definition north_leanToWidth : number :=
  width - LeanToConfig.cutL north_config - LeanToConfig.cutR north_config.
Definition north_attachHeight : number :=
  eaveHeight - LeanToConfig.drop north_config.
Definition north_leanToRoofRise : number :=
  LeanToConfig.depth north_config * (LeanToConfig.roofPitch north_config / 12).
Definition north_outerHeight : number :=
  Math_max 1 (north_attachHeight - north_leanToRoofRise).
Definition north_leanToRoofLength : number :=
  Math_sqrt (LeanToConfig.depth north_config ^ 2 + north_leanToRoofRise ^ 2).
Definition north_leanToRoofAngle : number :=
  Math_atan2 north_leanToRoofRise (LeanToConfig.depth north_config).

Definition NorthLeanTo : list node :=
  when (LeanToConfig.enabled north_config)
    (let config := north_config in
     let depth := LeanToConfig.depth config in
     let wallType := LeanToConfig.walls config in
     let leanToWidth := north_leanToWidth in
     let attachHeight := north_attachHeight in
     let leanToRoofRise := north_leanToRoofRise in
     let outerHeight := north_outerHeight in
     let leanToRoofLength := north_leanToRoofLength in
     let leanToRoofAngle := north_leanToRoofAngle in
     let xOffset := (LeanToConfig.cutL config - LeanToConfig.cutR config) / 2 in
     let showLeanToWalls :=
       showWalls && negb (LeanToWallType.eqb wallType LeanToWallType.open) in
     let isFullLength :=
       LeanToWallType.eqb wallType LeanToWallType.full_length in
     let isFullyEnclosed :=
       LeanToWallType.eqb wallType LeanToWallType.fully_enclosed in
     let isGableDress :=
       LeanToWallType.eqb wallType LeanToWallType.gable_dress in
     let isGableWallsOnly :=
       LeanToWallType.eqb wallType LeanToWallType.gable_walls_only in
     let isApron := LeanToWallType.eqb wallType LeanToWallType.apron_2ft in
     let flangeWidth := 1.2 in
     let webHeight := 1.0 in
     let flangeThickness := 0.15 in
     let webThickness := 0.1 in
     let columnInset := flangeWidth / 2 + 1.5 in
     let purlinSize := 0.15 in
     let girtSize := 0.2 in
     let rafterDrop := 1.0 in
     let endWallInset := 1.5 in
     let numLeanToFrames := 3 in
     let frameableWidth := leanToWidth - endWallInset * 2 in
     let actualFrameSpacing := frameableWidth / (numLeanToFrames - 1) in
     let numPurlins := Math_max 3 (Math_ceil (depth / 3)) in
     let st := LeanToOf WallSide.north in
     let wallMat := textured wallTexture 0.4 0.6 in
     let wainscotMat := standardMR (Colors.wainscot (colors s)) 0.4 0.6 in
     let trimMat := standard (Colors.trim (colors s)) in
     let wainscotHeight :=
       Math_min (Walls.wainscotHeight (walls s)) outerHeight in
     [ group (xOffset, 0, - length / 2) origin
         ((* MAIN FRAMES (I-beam columns + rafters) *)
          Array_from numLeanToFrames (fun frameIdx =>
            let xPos :=
              - leanToWidth / 2 + endWallInset
              + INR frameIdx * actualFrameSpacing in
            group (xPos, 0, 0) origin
              [ (* Column at outer edge *)
                group (0, 0, - depth + columnInset) origin
                  [ mesh (st, Column) (0, outerHeight / 2, 0) origin
                      (boxGeometry webThickness outerHeight webHeight) steel;
                    mesh (st, Column) (0, outerHeight / 2, webHeight / 2)
                      origin
                      (boxGeometry flangeWidth outerHeight flangeThickness)
                      steel;
                    mesh (st, Column) (0, outerHeight / 2, - webHeight / 2)
                      origin
                      (boxGeometry flangeWidth outerHeight flangeThickness)
                      steel ];
                (* Rafter - sloped I-beam from building to outer column *)
                group (0, (attachHeight + outerHeight) / 2 - rafterDrop,
                       - depth / 2)
                  (- leanToRoofAngle, 0, 0)
                  [ mesh (st, Rafter) origin origin
                      (boxGeometry webThickness webHeight leanToRoofLength)
                      steel;
                    mesh (st, Rafter) (0, webHeight / 2, 0) origin
                      (boxGeometry flangeWidth flangeThickness
                                   leanToRoofLength) steel;
                    mesh (st, Rafter) (0, - webHeight / 2, 0) origin
                      (boxGeometry flangeWidth flangeThickness
                                   leanToRoofLength) steel ] ])
          ++ (* EAVE BEAMS *)
          when showSecondaryMembers
            [ mesh (st, EaveBeam)
                (0, attachHeight - rafterDrop - 0.5, - columnInset - 0.5) origin
                (boxGeometry (leanToWidth - endWallInset * 2) 0.3 0.3) steel;
              mesh (st, EaveBeam)
                (0, outerHeight - rafterDrop - 0.5, - depth + columnInset)
                origin
                (boxGeometry (leanToWidth - endWallInset * 2) 0.3 0.3) steel ]
          ++ (* PURLINS *)
          when showSecondaryMembers
            (Array_from numPurlins (fun idx =>
               let ratio := (INR idx + 1) / (numPurlins + 1) in
               let zPos := - depth * ratio in
               let yPos := attachHeight - leanToRoofRise * ratio - 0.1 in
               mesh (st, Purlin) (0, yPos, zPos) origin
                 (boxGeometry frameableWidth purlinSize purlinSize) steel))
          ++ (* WALL GIRTS *)
          when (showSecondaryMembers && showLeanToWalls)
            (let numGirts := Math_max 2 (Math_floor (outerHeight / 4)) in
             let girtSpacing := outerHeight / (numGirts + 1) in
             [ group origin origin
                 (when (isFullLength || isFullyEnclosed)
                    (Array_from numGirts (fun i =>
                       mesh (st, Girt)
                         (0, girtSpacing * (INR i + 1), - depth + columnInset)
                         origin
                         (boxGeometry (leanToWidth - columnInset * 2)
                                      girtSize girtSize) steel))
                  ++ when (isFullLength || isFullyEnclosed)
                    [ mesh (st, Girt)
                        (0, girtSize / 2, - depth + columnInset) origin
                        (boxGeometry (leanToWidth - columnInset * 2)
                                     girtSize girtSize) steel ]) ])
          ++ (* ROOF *)
          when showRoof
            [ group (0, (attachHeight + outerHeight) / 2, - depth / 2 - 0.3)
                origin
                [ mesh (st, RoofPanel) origin (- leanToRoofAngle, 0, 0)
                    (boxGeometry (leanToWidth + 1) 0.15
                                 (leanToRoofLength + 0.5))
                    (textured roofTexture 0.5 0.5) ] ]
          ++ (* WALLS *)
          when showLeanToWalls
            [ group origin origin
                ((* Front wall (at outer edge) *)
                 when (isFullLength || isFullyEnclosed)
                   [ mesh (st, WallPanel WallSide.north)
                       (0, outerHeight / 2, - depth - 0.2) origin
                       (boxGeometry leanToWidth outerHeight 0.4) wallMat ]
                 ++ (* Side walls - trapezoid shape *)
                 when (isFullyEnclosed || isGableWallsOnly)
                   [ TrapezoidWall.render (st, WallPanel WallSide.west)
                       depth outerHeight attachHeight
                       (- leanToWidth / 2, 0, 0) (0, - Math_PI / 2, 0)
                       wallTexture;
                     TrapezoidWall.render (st, WallPanel WallSide.east)
                       depth outerHeight attachHeight
                       (leanToWidth / 2, 0, 0) (0, - Math_PI / 2, 0)
                       wallTexture ]
                 ++ (* Gable Dress - triangular panels at ends *)
                 when isGableDress
                   [ TrapezoidWall.render (st, WallPanel WallSide.west)
                       depth 0 (attachHeight - outerHeight)
                       (- leanToWidth / 2, outerHeight, 0)
                       (0, - Math_PI / 2, 0) wallTexture;
                     TrapezoidWall.render (st, WallPanel WallSide.east)
                       depth 0 (attachHeight - outerHeight)
                       (leanToWidth / 2, outerHeight, 0)
                       (0, - Math_PI / 2, 0) wallTexture ]
                 ++ (* 2ft Apron *)
                 when isApron
                   [ mesh (st, WallPanel WallSide.north)
                       (0, outerHeight - 1, - depth - 0.2) origin
                       (boxGeometry leanToWidth 2 0.4) wallMat ]) ]
          ++ (* Wainscot for North Lean-To *)
          when (showWalls && Walls.wainscotEnabled (walls s))
            [ group origin origin
                (when (isFullLength || isFullyEnclosed)
                   [ mesh (st, Wainscot WallSide.north)
                       (0, wainscotHeight / 2, - depth - 0.35) origin
                       (boxGeometry (leanToWidth + 0.4) wainscotHeight 0.2)
                       wainscotMat ]
                 ++ when (isFullyEnclosed || isGableWallsOnly)
                   [ mesh (st, Wainscot WallSide.west)
                       (- leanToWidth / 2 - 0.35, wainscotHeight / 2,
                        - depth / 2) origin
                       (boxGeometry 0.2 wainscotHeight depth) wainscotMat;
                     mesh (st, Wainscot WallSide.east)
                       (leanToWidth / 2 + 0.35, wainscotHeight / 2,
                        - depth / 2) origin
                       (boxGeometry 0.2 wainscotHeight depth) wainscotMat ]) ]
          ++ (* Trim for North Lean-To *)
          when (showWalls
                && negb (LeanToWallType.eqb wallType LeanToWallType.open))
            (let frontEaveTrim :=
               mesh (st, Trim) (0, outerHeight - 0.3, - depth - 0.3) origin
                 (boxGeometry (leanToWidth + 0.4) 0.6 0.15) trimMat in
             let leftOuterCorner :=
               mesh (st, Trim)
                 (- leanToWidth / 2 - 0.1, outerHeight / 2, - depth - 0.1)
                 origin (boxGeometry 0.2 outerHeight 0.2) trimMat in
             let rightOuterCorner :=
               mesh (st, Trim)
                 (leanToWidth / 2 + 0.1, outerHeight / 2, - depth - 0.1)
                 origin (boxGeometry 0.2 outerHeight 0.2) trimMat in
             let leftBuildingCorner :=
               mesh (st, Trim)
                 (- leanToWidth / 2 - 0.1, attachHeight / 2, -0.1) origin
                 (boxGeometry 0.2 attachHeight 0.2) trimMat in
             let rightBuildingCorner :=
               mesh (st, Trim)
                 (leanToWidth / 2 + 0.1, attachHeight / 2, -0.1) origin
                 (boxGeometry 0.2 attachHeight 0.2) trimMat in
             let leftSloped :=
               mesh (st, Trim)
                 (- leanToWidth / 2 - 0.1, (attachHeight + outerHeight) / 2,
                  - depth / 2)
                 (- leanToRoofAngle, 0, 0)
                 (boxGeometry 0.2 0.15 leanToRoofLength) trimMat in
             let rightSloped :=
               mesh (st, Trim)
                 (leanToWidth / 2 + 0.1, (attachHeight + outerHeight) / 2,
                  - depth / 2)
                 (- leanToRoofAngle, 0, 0)
                 (boxGeometry 0.2 0.15 leanToRoofLength) trimMat in
             [ group origin origin
                 (when isFullLength
                    [ frontEaveTrim; leftOuterCorner; rightOuterCorner ]
                  ++ when isFullyEnclosed
                    [ frontEaveTrim; leftOuterCorner; rightOuterCorner;
                      leftBuildingCorner; rightBuildingCorner;
                      leftSloped; rightSloped ]
                  ++ when isGableWallsOnly
                    [ leftOuterCorner; rightOuterCorner;
                      leftBuildingCorner; rightBuildingCorner;
                      leftSloped; rightSloped ]
                  ++ when isGableDress [ leftSloped; rightSloped ]
                  ++ when isApron
                    [ mesh (st, Trim)
                        (0, outerHeight - 2.1, - depth - 0.3) origin
                        (boxGeometry (leanToWidth + 0.4) 0.2 0.15) trimMat;
                      mesh (st, Trim)
                        (0, outerHeight - 0.1, - depth - 0.3) origin
                        (boxGeometry (leanToWidth + 0.4) 0.2 0.15)
                        trimMat ]) ])) ]).

(** *** West Lean-To *)

Definition west_config : LeanToConfig.t := PerSide.west (leanToConfigs s).
Definition west_leanToLength : number :=
  length - LeanToConfig.cutL west_config - LeanToConfig.cutR west_config.
Definition west_attachHeight : number :=
  eaveHeight - LeanToConfig.drop west_config.
Definition west_leanToRoofRise : number :=
  LeanToConfig.depth west_config * (LeanToConfig.roofPitch west_config / 12).
Definition west_outerHeight : number :=
  Math_max 1 (west_attachHeight - west_leanToRoofRise).
Definition west_leanToRoofLength : number :=
  Math_sqrt (LeanToConfig.depth west_config ^ 2 + west_leanToRoofRise ^ 2).
Definition west_leanToRoofAngle : number :=
  Math_atan2 west_leanToRoofRise (LeanToConfig.depth west_config).

Definition WestLeanTo : list node :=
  when (LeanToConfig.enabled west_config)
    (let config := west_config in
     let depth := LeanToConfig.depth config in
     let wallType := LeanToConfig.walls config in
     let leanToLength := west_leanToLength in
     let attachHeight := west_attachHeight in
     let leanToRoofRise := west_leanToRoofRise in
     let outerHeight := west_outerHeight in
     let leanToRoofLength := west_leanToRoofLength in
     let leanToRoofAngle := west_leanToRoofAngle in
     let zOffset := (LeanToConfig.cutR config - LeanToConfig.cutL config) / 2 in
     let showLeanToWalls :=
       showWalls && negb (LeanToWallType.eqb wallType LeanToWallType.open) in
     let isFullLength :=
       LeanToWallType.eqb wallType LeanToWallType.full_length in
     let isFullyEnclosed :=
       LeanToWallType.eqb wallType LeanToWallType.fully_enclosed in
     let isGableDress :=
       LeanToWallType.eqb wallType LeanToWallType.gable_dress in
     let isGableWallsOnly :=
       LeanToWallType.eqb wallType LeanToWallType.gable_walls_only in
     let isApron := LeanToWallType.eqb wallType LeanToWallType.apron_2ft in
     let flangeWidth := 1.2 in
     let webHeight := 1.0 in
     let flangeThickness := 0.15 in
     let webThickness := 0.1 in
     let columnInset := flangeWidth / 2 + 1.5 in
     let purlinSize := 0.15 in
     let girtSize := 0.2 in
     let rafterDrop := 1.0 in
     let endWallInset := 1.5 in
     let numLeanToFrames := 3 in
     let frameableLength := leanToLength - endWallInset * 2 in
     let actualFrameSpacing := frameableLength / (numLeanToFrames - 1) in
     let numPurlins := Math_max 3 (Math_ceil (depth / 3)) in
     let st := LeanToOf WallSide.west in
     let wallMat := textured wallTexture 0.4 0.6 in
     let wainscotMat := standardMR (Colors.wainscot (colors s)) 0.4 0.6 in
     let trimMat := standard (Colors.trim (colors s)) in
     let wainscotHeight :=
       Math_min (Walls.wainscotHeight (walls s)) outerHeight in
     [ group (- width / 2, 0, zOffset) origin
         ((* MAIN FRAMES (I-beam columns + rafters) *)
          Array_from numLeanToFrames (fun frameIdx =>
            let zPos :=
              - leanToLength / 2 + endWallInset
              + INR frameIdx * actualFrameSpacing in
            group (0, 0, zPos) origin
              [ (* Column at outer edge *)
                group (- depth + columnInset, 0, 0) origin
                  [ mesh (st, Column) (0, outerHeight / 2, 0) origin
                      (boxGeometry webHeight outerHeight webThickness) steel;
                    mesh (st, Column) (webHeight / 2, outerHeight / 2, 0)
                      origin
                      (boxGeometry flangeThickness outerHeight flangeWidth)
                      steel;
                    mesh (st, Column) (- webHeight / 2, outerHeight / 2, 0)
                      origin
                      (boxGeometry flangeThickness outerHeight flangeWidth)
                      steel ];
                (* Rafter - sloped I-beam from building to outer column *)
                group (- depth / 2,
                       (attachHeight + outerHeight) / 2 - rafterDrop, 0)
                  (0, 0, leanToRoofAngle)
                  [ mesh (st, Rafter) origin origin
                      (boxGeometry leanToRoofLength webHeight webThickness)
                      steel;
                    mesh (st, Rafter) (0, webHeight / 2, 0) origin
                      (boxGeometry leanToRoofLength flangeThickness
                                   flangeWidth) steel;
                    mesh (st, Rafter) (0, - webHeight / 2, 0) origin
                      (boxGeometry leanToRoofLength flangeThickness
                                   flangeWidth) steel ] ])
          ++ (* EAVE BEAMS *)
          when showSecondaryMembers
            [ mesh (st, EaveBeam)
                (- columnInset - 0.5, attachHeight - rafterDrop - 0.5, 0)
                origin
                (boxGeometry 0.3 0.3 (leanToLength - endWallInset * 2)) steel;
              mesh (st, EaveBeam)
                (- depth + columnInset, outerHeight - rafterDrop - 0.5, 0)
                origin
                (boxGeometry 0.3 0.3 (leanToLength - endWallInset * 2)) steel ]
          ++ (* PURLINS *)
          when showSecondaryMembers
            (Array_from numPurlins (fun idx =>
               let ratio := (INR idx + 1) / (numPurlins + 1) in
               let xPos := - depth * ratio in
               let yPos := attachHeight - leanToRoofRise * ratio - 0.1 in
               mesh (st, Purlin) (xPos, yPos, 0) origin
                 (boxGeometry purlinSize purlinSize frameableLength) steel))
          ++ (* WALL GIRTS *)
          when (showSecondaryMembers && showLeanToWalls)
            (let numGirts := Math_max 2 (Math_floor (outerHeight / 4)) in
             let girtSpacing := outerHeight / (numGirts + 1) in
             [ group origin origin
                 (when (isFullLength || isFullyEnclosed)
                    (Array_from numGirts (fun i =>
                       mesh (st, Girt)
                         (- depth + columnInset, girtSpacing * (INR i + 1), 0)
                         origin
                         (boxGeometry girtSize girtSize
                                      (leanToLength - columnInset * 2))
                         steel))
                  ++ when (isFullLength || isFullyEnclosed)
                    [ mesh (st, Girt)
                        (- depth + columnInset, girtSize / 2, 0) origin
                        (boxGeometry girtSize girtSize
                                     (leanToLength - columnInset * 2))
                        steel ]) ])
          ++ (* ROOF *)
          when showRoof
            [ group (- depth / 2 - 0.3, (attachHeight + outerHeight) / 2, 0)
                origin
                [ mesh (st, RoofPanel) origin (0, 0, leanToRoofAngle)
                    (boxGeometry (leanToRoofLength + 0.5) 0.15
                                 (leanToLength + 1))
                    (textured roofTexture 0.5 0.5) ] ]
          ++ (* WALLS *)
          when showLeanToWalls
            [ group origin origin
                ((* Outer wall (at outer edge) *)
                 when (isFullLength || isFullyEnclosed)
                   [ mesh (st, WallPanel WallSide.west)
                       (- depth - 0.2, outerHeight / 2, 0) origin
                       (boxGeometry 0.4 outerHeight leanToLength) wallMat ]
                 ++ (* End walls - trapezoid shape *)
                 when (isFullyEnclosed || isGableWallsOnly)
                   [ TrapezoidWall.render (st, WallPanel WallSide.south)
                       depth outerHeight attachHeight
                       (0, 0, leanToLength / 2) (0, Math_PI, 0)
                       wallTexture;
                     TrapezoidWall.render (st, WallPanel WallSide.north)
                       depth outerHeight attachHeight
                       (0, 0, - leanToLength / 2) (0, Math_PI, 0)
                       wallTexture ]
                 ++ (* Gable Dress - triangular panels at ends *)
                 when isGableDress
                   [ TrapezoidWall.render (st, WallPanel WallSide.south)
                       depth 0 (attachHeight - outerHeight)
                       (0, outerHeight, leanToLength / 2)
                       (0, Math_PI, 0) wallTexture;
                     TrapezoidWall.render (st, WallPanel WallSide.north)
                       depth 0 (attachHeight - outerHeight)
                       (0, outerHeight, - leanToLength / 2)
                       (0, Math_PI, 0) wallTexture ]
                 ++ (* 2ft Apron *)
                 when isApron
                   [ mesh (st, WallPanel WallSide.west)
                       (- depth - 0.2, outerHeight - 1, 0) origin
                       (boxGeometry 0.4 2 leanToLength) wallMat ]) ]
          ++ (* Wainscot for West Lean-To *)
          when (showWalls && Walls.wainscotEnabled (walls s))
            [ group origin origin
                (when (isFullLength || isFullyEnclosed)
                   [ mesh (st, Wainscot WallSide.west)
                       (- depth - 0.35, wainscotHeight / 2, 0) origin
                       (boxGeometry 0.2 wainscotHeight (leanToLength + 0.4))
                       wainscotMat ]
                 ++ when (isFullyEnclosed || isGableWallsOnly)
                   [ mesh (st, Wainscot WallSide.south)
                       (- depth / 2, wainscotHeight / 2,
                        leanToLength / 2 + 0.35) origin
                       (boxGeometry depth wainscotHeight 0.2) wainscotMat;
                     mesh (st, Wainscot WallSide.north)
                       (- depth / 2, wainscotHeight / 2,
                        - leanToLength / 2 - 0.35) origin
                       (boxGeometry depth wainscotHeight 0.2) wainscotMat ]) ]
          ++ (* Trim for West Lean-To *)
          when (showWalls
                && negb (LeanToWallType.eqb wallType LeanToWallType.open))
            (let outerEaveTrim :=
               mesh (st, Trim) (- depth - 0.3, outerHeight - 0.3, 0) origin
                 (boxGeometry 0.15 0.6 (leanToLength + 0.4)) trimMat in
             let southOuterCorner :=
               mesh (st, Trim)
                 (- depth - 0.1, outerHeight / 2, leanToLength / 2 + 0.1)
                 origin (boxGeometry 0.2 outerHeight 0.2) trimMat in
             let northOuterCorner :=
               mesh (st, Trim)
                 (- depth - 0.1, outerHeight / 2, - leanToLength / 2 - 0.1)
                 origin (boxGeometry 0.2 outerHeight 0.2) trimMat in
             let southBuildingCorner :=
               mesh (st, Trim)
                 (-0.1, attachHeight / 2, leanToLength / 2 + 0.1) origin
                 (boxGeometry 0.2 attachHeight 0.2) trimMat in
             let northBuildingCorner :=
               mesh (st, Trim)
                 (-0.1, attachHeight / 2, - leanToLength / 2 - 0.1) origin
                 (boxGeometry 0.2 attachHeight 0.2) trimMat in
             let southSloped :=
               mesh (st, Trim)
                 (- depth / 2, (attachHeight + outerHeight) / 2,
                  leanToLength / 2 + 0.1)
                 (0, 0, - leanToRoofAngle)
                 (boxGeometry leanToRoofLength 0.15 0.2) trimMat in
             let northSloped :=
               mesh (st, Trim)
                 (- depth / 2, (attachHeight + outerHeight) / 2,
                  - leanToLength / 2 - 0.1)
                 (0, 0, - leanToRoofAngle)
                 (boxGeometry leanToRoofLength 0.15 0.2) trimMat in
             [ group origin origin
                 (when isFullLength
                    [ outerEaveTrim; southOuterCorner; northOuterCorner ]
                  ++ when isFullyEnclosed
                    [ outerEaveTrim; southOuterCorner; northOuterCorner;
                      southBuildingCorner; northBuildingCorner;
                      southSloped; northSloped ]
                  ++ when isGableWallsOnly
                    [ southOuterCorner; northOuterCorner;
                      southBuildingCorner; northBuildingCorner;
                      southSloped; northSloped ]
                  ++ when isGableDress [ southSloped; northSloped ]
                  ++ when isApron
                    [ mesh (st, Trim)
                        (- depth - 0.3, outerHeight - 2.1, 0) origin
                        (boxGeometry 0.15 0.2 (leanToLength + 0.4)) trimMat;
                      mesh (st, Trim)
                        (- depth - 0.3, outerHeight - 0.1, 0) origin
                        (boxGeometry 0.15 0.2 (leanToLength + 0.4))
                        trimMat ]) ])) ]).

(** *** East Lean-To *)

Definition east_config : LeanToConfig.t := PerSide.east (leanToConfigs s).
Definition east_leanToLength : number :=
  length - LeanToConfig.cutL east_config - LeanToConfig.cutR east_config.
Definition east_attachHeight : number :=
  eaveHeight - LeanToConfig.drop east_config.
Definition east_leanToRoofRise : number :=
  LeanToConfig.depth east_config * (LeanToConfig.roofPitch east_config / 12).
Definition east_outerHeight : number :=
  Math_max 1 (east_attachHeight - east_leanToRoofRise).
Definition east_leanToRoofLength : number :=
  Math_sqrt (LeanToConfig.depth east_config ^ 2 + east_leanToRoofRise ^ 2).
Definition east_leanToRoofAngle : number :=
  Math_atan2 east_leanToRoofRise (LeanToConfig.depth east_config).

Definition EastLeanTo : list node :=
  when (LeanToConfig.enabled east_config)
    (let config := east_config in
     let depth := LeanToConfig.depth config in
     let wallType := LeanToConfig.walls config in
     let leanToLength := east_leanToLength in
     let attachHeight := east_attachHeight in
     let leanToRoofRise := east_leanToRoofRise in
     let outerHeight := east_outerHeight in
     let leanToRoofLength := east_leanToRoofLength in
     let leanToRoofAngle := east_leanToRoofAngle in
     let zOffset := (LeanToConfig.cutL config - LeanToConfig.cutR config) / 2 in
     let showLeanToWalls :=
       showWalls && negb (LeanToWallType.eqb wallType LeanToWallType.open) in
     let isFullLength :=
       LeanToWallType.eqb wallType LeanToWallType.full_length in
     let isFullyEnclosed :=
       LeanToWallType.eqb wallType LeanToWallType.fully_enclosed in
     let isGableDress :=
       LeanToWallType.eqb wallType LeanToWallType.gable_dress in
     let isGableWallsOnly :=
       LeanToWallType.eqb wallType LeanToWallType.gable_walls_only in
     let isApron := LeanToWallType.eqb wallType LeanToWallType.apron_2ft in
     let flangeWidth := 1.2 in
     let webHeight := 1.0 in
     let flangeThickness := 0.15 in
     let webThickness := 0.1 in
     let columnInset := flangeWidth / 2 + 1.5 in
     let purlinSize := 0.15 in
     let girtSize := 0.2 in
     let rafterDrop := 1.0 in
     let endWallInset := 1.5 in
     let numLeanToFrames := 3 in
     let frameableLength := leanToLength - endWallInset * 2 in
     let actualFrameSpacing := frameableLength / (numLeanToFrames - 1) in
     let numPurlins := Math_max 3 (Math_ceil (depth / 3)) in
     let st := LeanToOf WallSide.east in
     let wallMat := textured wallTexture 0.4 0.6 in
     let wainscotMat := standardMR (Colors.wainscot (colors s)) 0.4 0.6 in
     let trimMat := standard (Colors.trim (colors s)) in
     let wainscotHeight :=
       Math_min (Walls.wainscotHeight (walls s)) outerHeight in
     [ group (width / 2, 0, zOffset) origin
         ((* MAIN FRAMES (I-beam columns + rafters) *)
          Array_from numLeanToFrames (fun frameIdx =>
            let zPos :=
              - leanToLength / 2 + endWallInset
              + INR frameIdx * actualFrameSpacing in
            group (0, 0, zPos) origin
              [ (* Column at outer edge *)
                group (depth - columnInset, 0, 0) origin
                  [ mesh (st, Column) (0, outerHeight / 2, 0) origin
                      (boxGeometry webHeight outerHeight webThickness) steel;
                    mesh (st, Column) (webHeight / 2, outerHeight / 2, 0)
                      origin
                      (boxGeometry flangeThickness outerHeight flangeWidth)
                      steel;
                    mesh (st, Column) (- webHeight / 2, outerHeight / 2, 0)
                      origin
                      (boxGeometry flangeThickness outerHeight flangeWidth)
                      steel ];
                (* Rafter - sloped I-beam from building to outer column *)
                group (depth / 2,
                       (attachHeight + outerHeight) / 2 - rafterDrop, 0)
                  (0, 0, - leanToRoofAngle)
                  [ mesh (st, Rafter) origin origin
                      (boxGeometry leanToRoofLength webHeight webThickness)
                      steel;
                    mesh (st, Rafter) (0, webHeight / 2, 0) origin
                      (boxGeometry leanToRoofLength flangeThickness
                                   flangeWidth) steel;
                    mesh (st, Rafter) (0, - webHeight / 2, 0) origin
                      (boxGeometry leanToRoofLength flangeThickness
                                   flangeWidth) steel ] ])
          ++ (* EAVE BEAMS *)
          when showSecondaryMembers
            [ mesh (st, EaveBeam)
                (columnInset + 0.5, attachHeight - rafterDrop - 0.5, 0)
                origin
                (boxGeometry 0.3 0.3 (leanToLength - endWallInset * 2)) steel;
              mesh (st, EaveBeam)
                (depth - columnInset, outerHeight - rafterDrop - 0.5, 0)
                origin
                (boxGeometry 0.3 0.3 (leanToLength - endWallInset * 2)) steel ]
          ++ (* PURLINS *)
          when showSecondaryMembers
            (Array_from numPurlins (fun idx =>
               let ratio := (INR idx + 1) / (numPurlins + 1) in
               let xPos := depth * ratio in
               let yPos := attachHeight - leanToRoofRise * ratio - 0.1 in
               mesh (st, Purlin) (xPos, yPos, 0) origin
                 (boxGeometry purlinSize purlinSize frameableLength) steel))
          ++ (* WALL GIRTS *)
          when (showSecondaryMembers && showLeanToWalls)
            (let numGirts := Math_max 2 (Math_floor (outerHeight / 4)) in
             let girtSpacing := outerHeight / (numGirts + 1) in
             [ group origin origin
                 (when (isFullLength || isFullyEnclosed)
                    (Array_from numGirts (fun i =>
                       mesh (st, Girt)
                         (depth - columnInset, girtSpacing * (INR i + 1), 0)
                         origin
                         (boxGeometry girtSize girtSize
                                      (leanToLength - columnInset * 2))
                         steel))
                  ++ when (isFullLength || isFullyEnclosed)
                    [ mesh (st, Girt)
                        (depth - columnInset, girtSize / 2, 0) origin
                        (boxGeometry girtSize girtSize
                                     (leanToLength - columnInset * 2))
                        steel ]) ])
          ++ (* ROOF *)
          when showRoof
            [ group (depth / 2 + 0.3, (attachHeight + outerHeight) / 2, 0)
                origin
                [ mesh (st, RoofPanel) origin (0, 0, - leanToRoofAngle)
                    (boxGeometry (leanToRoofLength + 0.5) 0.15
                                 (leanToLength + 1))
                    (textured roofTexture 0.5 0.5) ] ]
          ++ (* WALLS *)
          when showLeanToWalls
            [ group origin origin
                ((* Outer wall (at outer edge) *)
                 when (isFullLength || isFullyEnclosed)
                   [ mesh (st, WallPanel WallSide.east)
                       (depth + 0.2, outerHeight / 2, 0) origin
                       (boxGeometry 0.4 outerHeight leanToLength) wallMat ]
                 ++ (* End walls - trapezoid shape *)
                 when (isFullyEnclosed || isGableWallsOnly)
                   [ TrapezoidWall.render (st, WallPanel WallSide.south)
                       depth outerHeight attachHeight
                       (0, 0, leanToLength / 2) (0, 0, 0)
                       wallTexture;
                     TrapezoidWall.render (st, WallPanel WallSide.north)
                       depth outerHeight attachHeight
                       (0, 0, - leanToLength / 2) (0, 0, 0)
                       wallTexture ]
                 ++ (* Gable Dress - triangular panels at ends *)
                 when isGableDress
                   [ TrapezoidWall.render (st, WallPanel WallSide.south)
                       depth 0 (attachHeight - outerHeight)
                       (0, outerHeight, leanToLength / 2)
                       (0, 0, 0) wallTexture;
                     TrapezoidWall.render (st, WallPanel WallSide.north)
                       depth 0 (attachHeight - outerHeight)
                       (0, outerHeight, - leanToLength / 2)
                       (0, 0, 0) wallTexture ]
                 ++ (* 2ft Apron *)
                 when isApron
                   [ mesh (st, WallPanel WallSide.east)
                       (depth + 0.2, outerHeight - 1, 0) origin
                       (boxGeometry 0.4 2 leanToLength) wallMat ]) ]
          ++ (* Wainscot for East Lean-To *)
          when (showWalls && Walls.wainscotEnabled (walls s))
            [ group origin origin
                (when (isFullLength || isFullyEnclosed)
                   [ mesh (st, Wainscot WallSide.east)
                       (depth + 0.35, wainscotHeight / 2, 0) origin
                       (boxGeometry 0.2 wainscotHeight (leanToLength + 0.4))
                       wainscotMat ]
                 ++ when (isFullyEnclosed || isGableWallsOnly)
                   [ mesh (st, Wainscot WallSide.south)
                       (depth / 2, wainscotHeight / 2,
                        leanToLength / 2 + 0.35) origin
                       (boxGeometry depth wainscotHeight 0.2) wainscotMat;
                     mesh (st, Wainscot WallSide.north)
                       (depth / 2, wainscotHeight / 2,
                        - leanToLength / 2 - 0.35) origin
                       (boxGeometry depth wainscotHeight 0.2) wainscotMat ]) ]
          ++ (* Trim for East Lean-To *)
          when (showWalls
                && negb (LeanToWallType.eqb wallType LeanToWallType.open))
            (let outerEaveTrim :=
               mesh (st, Trim) (depth + 0.3, outerHeight - 0.3, 0) origin
                 (boxGeometry 0.15 0.6 (leanToLength + 0.4)) trimMat in
             let southOuterCorner :=
               mesh (st, Trim)
                 (depth + 0.1, outerHeight / 2, leanToLength / 2 + 0.1)
                 origin (boxGeometry 0.2 outerHeight 0.2) trimMat in
             let northOuterCorner :=
               mesh (st, Trim)
                 (depth + 0.1, outerHeight / 2, - leanToLength / 2 - 0.1)
                 origin (boxGeometry 0.2 outerHeight 0.2) trimMat in
             let southBuildingCorner :=
               mesh (st, Trim)
                 (0.1, attachHeight / 2, leanToLength / 2 + 0.1) origin
                 (boxGeometry 0.2 attachHeight 0.2) trimMat in
             let northBuildingCorner :=
               mesh (st, Trim)
                 (0.1, attachHeight / 2, - leanToLength / 2 - 0.1) origin
                 (boxGeometry 0.2 attachHeight 0.2) trimMat in
             let southSloped :=
               mesh (st, Trim)
                 (depth / 2, (attachHeight + outerHeight) / 2,
                  leanToLength / 2 + 0.1)
                 (0, 0, leanToRoofAngle)
                 (boxGeometry leanToRoofLength 0.15 0.2) trimMat in
             let northSloped :=
               mesh (st, Trim)
                 (depth / 2, (attachHeight + outerHeight) / 2,
                  - leanToLength / 2 - 0.1)
                 (0, 0, leanToRoofAngle)
                 (boxGeometry leanToRoofLength 0.15 0.2) trimMat in
             [ group origin origin
                 (when isFullLength
                    [ outerEaveTrim; southOuterCorner; northOuterCorner ]
                  ++ when isFullyEnclosed
                    [ outerEaveTrim; southOuterCorner; northOuterCorner;
                      southBuildingCorner; northBuildingCorner;
                      southSloped; northSloped ]
                  ++ when isGableWallsOnly
                    [ southOuterCorner; northOuterCorner;
                      southBuildingCorner; northBuildingCorner;
                      southSloped; northSloped ]
                  ++ when isGableDress [ southSloped; northSloped ]
                  ++ when isApron
                    [ mesh (st, Trim)
                        (depth + 0.3, outerHeight - 2.1, 0) origin
                        (boxGeometry 0.15 0.2 (leanToLength + 0.4)) trimMat;
                      mesh (st, Trim)
                        (depth + 0.3, outerHeight - 0.1, 0) origin
                        (boxGeometry 0.15 0.2 (leanToLength + 0.4))
                        trimMat ]) ])) ]).

(** *** The whole scene *)

Definition FloorSlabSection : list node :=
  [ mesh (MainBuilding, FloorSlab) (0, 0.05, 0) origin
      (boxGeometry (width + 1) 0.1 (length + 1)) (standard "#b0b0b0") ].

Definition children : list node :=
  FloorSlabSection
  ++ MainSteelFrames
  ++ WallGirts
  ++ NorthOverhangFrame
  ++ SouthOverhangFrame
  ++ GablePurlins
  ++ SingleSlopePurlins
  ++ AsymmetricalPurlins
  ++ RidgeBeamSection
  ++ PerimeterEaveBeams
  ++ WallPanels
  ++ GableRoof
  ++ SingleSlopeRoof
  ++ AsymmetricalRoof
  ++ RidgeVents
  ++ Cupolas2ft
  ++ Cupolas3ft
  ++ TrimSection
  ++ DoorsAndWindows
  ++ SouthLeanTo
  ++ NorthLeanTo
  ++ WestLeanTo
  ++ EastLeanTo.

Definition render : node := group (0, 0, 0) origin children.

End Render.

(** *** The quantities of the lean-to of each side *)

Definition mainDimension (s : BuildingState) (side : WallSide.t) : number :=
  match side with
  | WallSide.south | WallSide.north => width s
  | WallSide.east | WallSide.west => length s
  end.

Definition leanToSpan (s : BuildingState) (side : WallSide.t) : number :=
  match side with
  | WallSide.south => south_leanToWidth s
  | WallSide.north => north_leanToWidth s
  | WallSide.west => west_leanToLength s
  | WallSide.east => east_leanToLength s
  end.

Definition attachHeight (s : BuildingState) (side : WallSide.t) : number :=
  match side with
  | WallSide.south => south_attachHeight s
  | WallSide.north => north_attachHeight s
  | WallSide.west => west_attachHeight s
  | WallSide.east => east_attachHeight s
  end.

Definition leanToRoofRise (s : BuildingState) (side : WallSide.t) : number :=
  match side with
  | WallSide.south => south_leanToRoofRise s
  | WallSide.north => north_leanToRoofRise s
  | WallSide.west => west_leanToRoofRise s
  | WallSide.east => east_leanToRoofRise s
  end.

Definition outerHeight (s : BuildingState) (side : WallSide.t) : number :=
  match side with
  | WallSide.south => south_outerHeight s
  | WallSide.north => north_outerHeight s
  | WallSide.west => west_outerHeight s
  | WallSide.east => east_outerHeight s
  end.

Definition LeanTo (s : BuildingState) (side : WallSide.t) : list node :=
  match side with
  | WallSide.south => SouthLeanTo s
  | WallSide.north => NorthLeanTo s
  | WallSide.west => WestLeanTo s
  | WallSide.east => EastLeanTo s
  end.

End Building.

(** ** [useMemo]: a value cached on its dependency list *)

Module Memo.

Record cell (A : Type) := mkCell { deps : list number; value : A }.
Arguments mkCell {A}.
Arguments deps {A}.
Arguments value {A}.

Fixpoint same_deps (a b : list number) : bool :=
  match a, b with
  | [], [] => true
  | x :: a', y :: b' => JS.eqb x y && same_deps a' b'
  | _, _ => false
  end.

(* One render: the cached value is kept when no dependency changed.  The
   second component tells whether the value was computed again. *)
Definition useMemo {A : Type} (cache : option (cell A))
    (newDeps : list number) (compute : A) : cell A * bool :=
  match cache with
  | Some c =>
      if same_deps (deps c) newDeps then (c, false)
      else (mkCell newDeps compute, true)
  | None => (mkCell newDeps compute, true)
  end.

End Memo.

(** ** Render passes: the [BufferGeometry] objects that a render constructs *)

Module RenderPass.

(* The four TrapezoidWall elements of a lean-to, in document order: the
   two side walls, then the two gable dress panels. *)
Inductive element :=
| firstSideWall | secondSideWall | firstGableDress | secondGableDress.

(* What is kept of a mounted Building from one render to the next: the
   cells of its three useMemo, and the cell of the useMemo of each
   TrapezoidWall that is mounted. *)
Record fiber := mkFiber {
  gableEndWall : Memo.cell geometry;
  asymmetricalEndWall : Memo.cell geometry;
  singleSlopeEndWall : Memo.cell geometry;
  trapezoidWall : WallSide.t -> element -> option (Memo.cell geometry) }.

(* useMemo(() => { const geometry = new THREE.BufferGeometry() ... }, deps):
   the cell after the render and the geometry that the render constructed,
   if it did. *)
Definition useMemo (cache : option (Memo.cell geometry))
    (newDeps : list number) (g : geometry)
  : Memo.cell geometry * list geometry :=
  let (c, computed) := Memo.useMemo cache newDeps g in
  (c, when computed [g]).

Section Pass.

Variable s : BuildingState.

Definition config (side : WallSide.t) : LeanToConfig.t :=
  PerSide.get side (leanToConfigs s).

(* leanToConfigs[side].enabled && showLeanToWalls *)
Definition leanToWallsShown (side : WallSide.t) : bool :=
  LeanToConfig.enabled (config side)
  && (Building.showWalls s
      && negb (LeanToWallType.eqb (LeanToConfig.walls (config side))
                 LeanToWallType.open)).

Definition hasSideWalls (side : WallSide.t) : bool :=
  LeanToWallType.eqb (LeanToConfig.walls (config side))
    LeanToWallType.fully_enclosed
  || LeanToWallType.eqb (LeanToConfig.walls (config side))
       LeanToWallType.gable_walls_only.

Definition hasGableDress (side : WallSide.t) : bool :=
  LeanToWallType.eqb (LeanToConfig.walls (config side))
    LeanToWallType.gable_dress.

(* South lean-to: the geometry of the side walls and of the gable dress is
   constructed by the body of Building itself, in an immediately invoked
   function of the element tree, without useMemo. *)
Definition sideWallGeo : geometry :=
  let depth := LeanToConfig.depth (config WallSide.south) in
  let outerHeight := Building.south_outerHeight s in
  let attachHeight := Building.south_attachHeight s in
  bufferGeometry
    [ 0; 0; 0;
      0; 0; depth;
      0; outerHeight; depth;
      0; 0; 0;
      0; outerHeight; depth;
      0; attachHeight; 0 ]
    [ 0; 0;
      1; 0;
      1; outerHeight / attachHeight;
      0; 0;
      1; outerHeight / attachHeight;
      0; 1 ].

Definition gableDressGeo : geometry :=
  let depth := LeanToConfig.depth (config WallSide.south) in
  let outerHeight := Building.south_outerHeight s in
  let attachHeight := Building.south_attachHeight s in
  bufferGeometry
    [ 0; outerHeight; depth;
      0; attachHeight; 0;
      0; outerHeight; 0 ]
    [ 1; 0;
      0; 1;
      0; 0 ].

Definition inPlace : list geometry :=
  when (leanToWallsShown WallSide.south)
    (when (hasSideWalls WallSide.south) [sideWallGeo]
     ++ when (hasGableDress WallSide.south) [gableDressGeo]).

(* North, west and east lean-to: the props width, lowHeight and highHeight
   of a TrapezoidWall element, when the element is rendered. *)
Definition trapezoidProps (side : WallSide.t) (e : element)
  : option (number * number * number) :=
  match side with
  | WallSide.south => None
  | _ =>
      let depth := LeanToConfig.depth (config side) in
      let outerHeight := Building.outerHeight s side in
      let attachHeight := Building.attachHeight s side in
      if leanToWallsShown side then
        match e with
        | firstSideWall | secondSideWall =>
            if hasSideWalls side
            then Some (depth, outerHeight, attachHeight) else None
        | firstGableDress | secondGableDress =>
            if hasGableDress side
            then Some (depth, 0, attachHeight - outerHeight) else None
        end
      else None
  end.

Variable previous : option fiber.

(* The render of one TrapezoidWall element: its useMemo runs on the cell
   that the element kept from the previous render; an element that is not
   rendered keeps none. *)
Definition renderTrapezoid (key : WallSide.t * element)
  : option (Memo.cell geometry) * list geometry :=
  match trapezoidProps (fst key) (snd key) with
  | Some (width, lowHeight, highHeight) =>
      let r :=
        useMemo
          (match previous with
           | Some f => trapezoidWall f (fst key) (snd key)
           | None => None
           end)
          (TrapezoidWall.geometry_deps width lowHeight highHeight)
          (TrapezoidWall.geometry width lowHeight highHeight) in
      (Some (fst r), snd r)
  | None => (None, [])
  end.

Definition documentOrder : list (WallSide.t * element) :=
  list_prod [WallSide.north; WallSide.west; WallSide.east]
    [firstSideWall; secondSideWall; firstGableDress; secondGableDress].

(* One render of Building and of the TrapezoidWall elements under it: what
   is kept for the next render, and the geometries of the
   [new THREE.BufferGeometry()] that ran, in order. *)
Definition pass : fiber * list geometry :=
  let gable :=
    useMemo (option_map gableEndWall previous)
      (Building.gableEndWallGeometry_deps s)
      (Building.gableEndWallGeometry s) in
  let asymmetrical :=
    useMemo (option_map asymmetricalEndWall previous)
      (Building.asymmetricalEndWallGeometry_deps s)
      (Building.asymmetricalEndWallGeometry s) in
  let singleSlope :=
    useMemo (option_map singleSlopeEndWall previous)
      (Building.singleSlopeEndWallGeometry_deps s)
      (Building.singleSlopeEndWallGeometry s) in
  (mkFiber (fst gable) (fst asymmetrical) (fst singleSlope)
     (fun side e => fst (renderTrapezoid (side, e))),
   snd gable ++ snd asymmetrical ++ snd singleSlope ++ inPlace
   ++ flat_map (fun key => snd (renderTrapezoid key)) documentOrder).

End Pass.

(* The wall that the first and the second side wall of a lean-to stand
   for: west and east under a south or north lean-to, south and north
   under a west or east one. *)
Definition lateral (side : WallSide.t) (second : bool) : WallSide.t :=
  match side with
  | WallSide.south | WallSide.north =>
      if second then WallSide.east else WallSide.west
  | WallSide.west | WallSide.east =>
      if second then WallSide.north else WallSide.south
  end.

(* The buffer geometries that a render uses for the first or for the
   second side wall of a lean-to. *)
Definition sideWallBuffers (s : BuildingState) (side : WallSide.t)
    (second : bool) : list geometry :=
  match side with
  | WallSide.south => inPlace s
  | _ =>
      flat_map
        (fun e =>
           match trapezoidProps s side e with
           | Some (width, lowHeight, highHeight) =>
               [TrapezoidWall.geometry width lowHeight highHeight]
           | None => []
           end)
        (if second then [secondSideWall; secondGableDress]
         else [firstSideWall; firstGableDress])
  end.

End RenderPass.

(** ** Quick-add of an opening, from the doors and windows panel *)

Module DoorsWindowsPanel.

(* DOOR_TYPES: default width and height, and whether it is a window. *)
Definition defaults (d : DoorType.t) : number * number * bool :=
  match d with
  | DoorType.walk_single => (3, 6.67, false)
  | DoorType.walk_double => (6, 6.67, false)
  | DoorType.walk_half_glass => (3, 6.67, false)
  | DoorType.sliding_glass => (6, 6.67, false)
  | DoorType.dutch_equine => (4, 7, false)
  | DoorType.overhead => (10, 10, false)
  | DoorType.overhead_modern => (10, 10, false)
  | DoorType.overhead_glass => (10, 10, false)
  | DoorType.sliding => (12, 10, false)
  | DoorType.sliding_left => (12, 10, false)
  | DoorType.sliding_right => (12, 10, false)
  | DoorType.roll_up => (10, 10, false)
  | DoorType.bi_fold => (12, 12, false)
  | DoorType.hydraulic => (14, 14, false)
  | DoorType.window_slider => (3, 2, true)
  | DoorType.window_hopper => (3, 2, true)
  end.

Definition handleQuickAdd (d : DoorType.t) (selectedWall : OpeningWall.t)
    (now : N) (s : BuildingState) : BuildingState :=
  let '(defaultWidth, defaultHeight, window) := defaults d in
  let wallLength :=
    DraggableDoor.getWallLength (Dimensions.width (dimensions s))
      (Dimensions.length (dimensions s)) selectedWall in
  Store.addOpening
    (Opening.mk EmptyString d selectedWall (wallLength / 2 - defaultWidth / 2)
                defaultWidth defaultHeight (if window then 4 else 0))
    now s.

(* getWallLength of the panel, on the dimensions of the store *)
Definition getWallLength (s : BuildingState) (wall : OpeningWall.t) : number :=
  match wall with
  | OpeningWall.south | OpeningWall.north => Dimensions.width (dimensions s)
  | OpeningWall.east | OpeningWall.west => Dimensions.length (dimensions s)
  | _ => Dimensions.width (dimensions s)
  end.

Definition handlePositionChange (openingId : string) (newPosition : number)
    (s : BuildingState) : BuildingState :=
  Store.updateOpening openingId
    (Opening.mkPartial None None None (Some newPosition) None None None) s.

(* The row of one added opening: the upper end of its position slider, the
   onChange of its wall select, the onClick of its remove button and of its
   header. *)
Definition maxPosition (s : BuildingState) (opening : Opening.t) : number :=
  Math_max 0 (getWallLength s (Opening.wall opening) - Opening.width opening).

Definition onWallChange (opening : Opening.t) (newWall : OpeningWall.t)
    (s : BuildingState) : BuildingState :=
  Store.updateOpening (Opening.id opening)
    (Opening.mkPartial None None (Some newWall)
       (Some (getWallLength s newWall / 2 - Opening.width opening / 2))
       None None None) s.

Definition onRemove (opening : Opening.t) (s : BuildingState) : BuildingState :=
  Store.removeOpening (Opening.id opening) s.

Definition onSelect (opening : Opening.t) (s : BuildingState) : BuildingState :=
  Store.setSelectedOpeningId (Some (Opening.id opening)) s.

End DoorsWindowsPanel.

(** ** [Sidebar]: the view controls and the accordion of panels *)

Module Sidebar.

Open Scope string_scope.

Definition getVisibilityLabel (ui : UI.t) : string :=
  match UI.visibilityMode ui with
  | VisibilityMode.full => "HIDE WALLS"
  | VisibilityMode.hide_walls => "HIDE ROOF"
  | VisibilityMode.hide_roof => "FRAME ONLY"
  | VisibilityMode.frame_only => "SHOW ALL"
  end.

Definition modes : list VisibilityMode.t :=
  [ VisibilityMode.full; VisibilityMode.hide_walls; VisibilityMode.hide_roof;
    VisibilityMode.frame_only ].

(* modes.indexOf(x): the first index of x, or -1 *)
Fixpoint indexOf (x : VisibilityMode.t) (l : list VisibilityMode.t) : Z :=
  match l with
  | [] => (-1)%Z
  | y :: l' =>
      if VisibilityMode.eqb y x then 0%Z
      else let i := indexOf x l' in
           if (i <? 0)%Z then (-1)%Z else (i + 1)%Z
  end.

(* The remainder operator [%] of JavaScript has the sign of the dividend.
   [modes[nextIndex]] is read at an index within the array; were it
   undefined, the state is left as it is here. *)
Definition cycleVisibility (s : BuildingState) : BuildingState :=
  let currentIndex := indexOf (UI.visibilityMode (ui s)) modes in
  let nextIndex :=
    Z.rem (currentIndex + 1) (Z.of_nat (List.length modes)) in
  match nth_error modes (Z.to_nat nextIndex) with
  | Some mode => Store.setVisibilityMode mode s
  | None => s
  end.

(* The INSIDE / OUTSIDE button *)
Definition onViewModeClick (s : BuildingState) : BuildingState :=
  Store.setViewMode
    (match UI.viewMode (ui s) with
     | ViewMode.exterior => ViewMode.interior
     | ViewMode.interior => ViewMode.exterior
     end) s.

Definition viewModeLabel (ui : UI.t) : string :=
  match UI.viewMode ui with
  | ViewMode.interior => "OUTSIDE"
  | ViewMode.exterior => "INSIDE"
  end.

(* The visibility button is highlighted when something is hidden. *)
Definition visibilityHighlighted (ui : UI.t) : bool :=
  negb (VisibilityMode.eqb (UI.visibilityMode ui) VisibilityMode.full).

(* The ids of the accordion panels, in order *)
Definition panels : list string :=
  [ "dimensions"; "colors"; "roof"; "walls"; "doors-windows"; "lean-tos";
    "environment" ].

(* isExpanded and onToggle of the accordion of the panel [id] *)
Definition isExpanded (ui : UI.t) (id : string) : bool :=
  match UI.expandedPanel ui with
  | Some p => String.eqb p id
  | None => false
  end.

Definition onToggle (id : string) (s : BuildingState) : BuildingState :=
  Store.setExpandedPanel (if isExpanded (ui s) id then None else Some id) s.

End Sidebar.

(** ** [CameraController]: the camera and the orbit controls of the scene *)

Module CameraController.

(* The props of <OrbitControls> *)
Record orbitControls := mkOrbitControls {
  enabled : bool;
  minPolarAngle : number;
  maxPolarAngle : number;
  minDistance : number;
  maxDistance : number;
  target : vec3 }.

Definition render (s : BuildingState) : orbitControls :=
  let interior :=
    match UI.viewMode (ui s) with
    | ViewMode.interior => true
    | ViewMode.exterior => false
    end in
  {| enabled := negb (UI.isDraggingDoor (ui s));
     minPolarAngle := 0;
     maxPolarAngle := if interior then Math_PI else Math_PI / 2.1;
     minDistance := if interior then 1 else 20;
     maxDistance := if interior then 50 else 200;
     target := if interior then (0, 6, 10) else (0, 10, 0) |}.

(* What the effect on viewMode sets: camera.position, and the target of the
   controls once they are mounted. *)
Record placement := mkPlacement {
  camera_position : vec3;
  controls_target : option vec3 }.

Definition effect (controlsMounted : bool) (s : BuildingState) : placement :=
  let eaveHeight := Dimensions.eaveHeight (dimensions s) in
  match UI.viewMode (ui s) with
  | ViewMode.interior =>
      mkPlacement (0, eaveHeight * 0.6, 0)
        (if controlsMounted then Some (0, eaveHeight * 0.6, 10) else None)
  | ViewMode.exterior =>
      mkPlacement (60, 40, 60)
        (if controlsMounted then Some (0, 10, 0) else None)
  end.

End CameraController.

(** ** [createCorrugatedTexture]: the canvas of a corrugated metal texture *)

Module MetalMaterial.

(* One ctx.fillRect(x, y, w, h) under the fillStyle rgb(r, g, b) *)
Record fillRect := mkFillRect {
  fillStyle : number * number * number;
  rect_x : number;
  rect_y : number;
  rect_w : number;
  rect_h : number }.

Record canvasTexture := mkCanvasTexture {
  canvas_width : number;
  canvas_height : number;
  fills : list fillRect;         (* in drawing order *)
  texture_repeat : number * number }.

(* for (let i = 0; i < n; i++) body(i), collecting what the body draws *)
Definition for_lt {A : Type} (n : number) (body : nat -> list A) : list A :=
  flat_map body (seq 0 (Z.to_nat (Zceil n))).

(* [color] is the parsed base color, new THREE.Color(baseColor), with its
   channels r, g and b. *)
Definition createCorrugatedTexture (color : number * number * number)
    (isRoof : bool) : canvasTexture :=
  let '(color_r, color_g, color_b) := color in
  let size := 128 in
  let r := Math_floor (color_r * 255) in
  let g := Math_floor (color_g * 255) in
  let b := Math_floor (color_b * 255) in
  let ribWidth := 16 in
  let numRibs := Math_floor (size / ribWidth) in
  mkCanvasTexture size size
    ((* Fill with base color *)
     mkFillRect (r, g, b) 0 0 size size
     :: for_lt numRibs (fun i =>
          let pos := INR i * ribWidth in
          let highlight :=
            (Math_min 255 (r + 50), Math_min 255 (g + 50),
             Math_min 255 (b + 50)) in
          let shadow :=
            (Math_max 0 (r - 40), Math_max 0 (g - 40), Math_max 0 (b - 40)) in
          [ if isRoof then mkFillRect highlight 0 pos size (ribWidth * 0.4)
            else mkFillRect highlight pos 0 (ribWidth * 0.4) size;
            if isRoof
            then mkFillRect shadow 0 (pos + ribWidth * 0.6) size
                   (ribWidth * 0.4)
            else mkFillRect shadow (pos + ribWidth * 0.6) 0 (ribWidth * 0.4)
                   size ]))
    (if isRoof then 4 else 3, if isRoof then 8 else 6).

End MetalMaterial.

(** ** Vocabulary of the properties *)

(* placementMode and selectedOpeningId are not both set. *)
Definition selection_exclusive (s : BuildingState) : Prop :=
  UI.placementMode (ui s) = None \/ UI.selectedOpeningId (ui s) = None.

(* The integer behind numFrames. *)
Definition numFramesZ (s : BuildingState) : Z :=
  Z.max 2 (Zceil (Building.length s / 25) + 1).

(* What number of rafter meshes a frame has, per roof style. *)
Definition raftersPerFrame (style : RoofStyle.t) : nat :=
  match style with
  | RoofStyle.gable => 6
  | RoofStyle.single_slope => 3
  | RoofStyle.asymmetrical => 6
  end.

(* How many meshes of a list of nodes carry the role [r]. *)
Definition count_in (r : role) (l : list node) : nat :=
  List.length (filter (has_role r) (flat_map meshes l)).

(* The meshes of a list of nodes that carry the role [r], in document
   order, and their geometries. *)
Definition meshes_in (r : role) (l : list node) : list node :=
  filter (has_role r) (flat_map meshes l).

Definition meshesOf (r : role) (n : node) : list node :=
  filter (has_role r) (meshes n).

Definition geometriesOf (l : list node) : list geometry :=
  flat_map (fun n => match n with
                     | mesh _ _ _ g _ => [g]
                     | group _ _ _ => []
                     end) l.

(* The number of primitives of a shape. *)
Fixpoint primitives (sh : shape) : nat :=
  match sh with
  | mesh_shape _ _ _ _ => 1
  | group_shape _ _ children => list_sum (List.map primitives children)
  end.

Module Drag.

Import DraggableDoor.

(* What a drag leaves untouched in the dragged opening. *)
Definition same_opening (o o' : Opening.t) : Prop :=
  Opening.id o' = Opening.id o
  /\ Opening.type o' = Opening.type o
  /\ Opening.wall o' = Opening.wall o
  /\ Opening.width o' = Opening.width o
  /\ Opening.height o' = Opening.height o.

(* The position a pointer at [e] asks for, before clamping. *)
Definition requestedPosition (bw bl : number) (size : viewport)
    (o : Opening.t) (e0 e : pointerEvent) : number :=
  let deltaX := eventX e - eventX e0 in
  let sensitivityX := wallLength o bw bl / size_width size * 2 in
  match Opening.wall o with
  | OpeningWall.north | OpeningWall.west =>
      Opening.position o - deltaX * sensitivityX
  | _ => Opening.position o + deltaX * sensitivityX
  end.

Definition requestedBottomOffset (size : viewport) (o : Opening.t)
    (e0 e : pointerEvent) : number :=
  let deltaY := eventY e - eventY e0 in
  let sensitivityY := 20 / size_height size * 2 in
  Opening.bottomOffset o - deltaY * sensitivityY.

(* The state of a drag in progress on the opening at index [k]. *)
Record dragging (s0 : BuildingState) (k : nat) (o : Opening.t)
    (e0 : pointerEvent) (st : BuildingState * local) (o' : Opening.t)
    : Prop := {
  dragging_dims : dimensions (fst st) = dimensions s0;
  dragging_nth : nth_error (openings (fst st)) k = Some o';
  dragging_same : same_opening o o';
  dragging_door : Opening.type o' = Opening.type o
                  /\ (isWindow o = false ->
                      Opening.bottomOffset o' = Opening.bottomOffset o);
  dragging_flag : isDragging (snd st) = true;
  dragging_start :
    dragStartRef (snd st)
    = Some (mkDragStart (Opening.position o) (Opening.bottomOffset o)
                        (eventX e0) (eventY e0)) }.

End Drag.

(** ** Example states *)

(* The default building has width 30, length 40, eave height 10, pitch 4. *)
Definition length40 : BuildingState := Store.initialState.

Definition centeredAsymmetrical : BuildingState :=
  Store.setRoof
    (Roof.mkPartial (Some RoofStyle.asymmetrical) None (Some 5) None None
                    None None)
    Store.initialState.

Definition singleSlopeDefault : BuildingState :=
  Store.setRoof
    (Roof.mkPartial (Some RoofStyle.single_slope) None None None None None
                    None)
    Store.initialState.

Definition southLeanToEnabled : BuildingState :=
  Store.setLeanToConfig WallSide.south
    (LeanToConfig.mkPartial (Some true) None None None None None None)
    Store.initialState.

(* The south lean-to of the default building with enclosed walls, before
   and after the wall color is changed; the same for the north lean-to. *)
Definition southLeanToWalled : BuildingState :=
  Store.setLeanToConfig WallSide.south
    (LeanToConfig.mkPartial (Some true) None None None None None
       (Some LeanToWallType.fully_enclosed))
    Store.initialState.

Definition southLeanToWalledRepainted : BuildingState :=
  Store.setColor Colors.k_wall "#7c0a02"%string southLeanToWalled.

Definition northLeanToWalled : BuildingState :=
  Store.setLeanToConfig WallSide.north
    (LeanToConfig.mkPartial (Some true) None None None None None
       (Some LeanToWallType.fully_enclosed))
    Store.initialState.

Definition northLeanToWalledRepainted : BuildingState :=
  Store.setColor Colors.k_wall "#7c0a02"%string northLeanToWalled.

Definition frameOnly : BuildingState :=
  Store.setVisibilityMode VisibilityMode.frame_only Store.initialState.

(* Wainscot enabled on the default building, the south lean-to attached. *)
Definition wainscotWithSouthLeanTo : BuildingState :=
  Store.setLeanToConfig WallSide.south
    (LeanToConfig.mkPartial (Some true) None None None None None None)
    (Store.setWalls (Walls.mkPartial None (Some true) None)
       Store.initialState).

Definition noDoors : string -> DraggableDoor.local :=
  fun _ => DraggableDoor.initialLocal.

Definition placeThenSelect : list Store.action :=
  [ Store.SetPlacementMode (Some DoorType.walk_single);
    Store.AddOpening
      (Opening.mk EmptyString DoorType.walk_single OpeningWall.south 13.5 3
                  6.67 0) 7%N;
    Store.SetSelectedOpeningId (Some "opening-7"%string) ].

Definition viewport800 : DraggableDoor.viewport :=
  DraggableDoor.mkViewport 800 600.

Definition pointerAt (x y : number) : DraggableDoor.pointerEvent :=
  DraggableDoor.mkEvent (Some x) (Some y) None.

(* A building narrowed to 10 ft with a 14 ft hydraulic door quick-added on
   its south wall. *)
Definition oversizedDoor : BuildingState :=
  DoorsWindowsPanel.handleQuickAdd DoorType.hydraulic OpeningWall.south 0%N
    (Store.setDimensions (Dimensions.mkPartial (Some 10) None None)
       Store.initialState).

(* The default building with a window quick-added on its north wall. *)
Definition northWindow : BuildingState :=
  DoorsWindowsPanel.handleQuickAdd DoorType.window_slider OpeningWall.north
    0%N Store.initialState.

(** ** Vocabulary and example states of the further properties *)

(* The default building with a window quick-added on its north wall, after
   an update addressed to an id that no opening carries. *)
Definition updatedElsewhere : BuildingState :=
  Store.updateOpening "opening-1"
    (Opening.mkPartial None None None (Some 5) None None None) northWindow.

(* The window of [northWindow] selected, then removed. *)
Definition selectedThenRemoved : BuildingState :=
  Store.removeOpening "opening-0"
    (Store.setSelectedOpeningId (Some "opening-0"%string) northWindow).

(* The default building with a walk door quick-added on its south wall and a
   window on its east wall. *)
Definition doorAndWindow : BuildingState :=
  DoorsWindowsPanel.handleQuickAdd DoorType.window_hopper OpeningWall.east 1%N
    (DoorsWindowsPanel.handleQuickAdd DoorType.walk_single OpeningWall.south
       0%N Store.initialState).

Definition southDoor : Opening.t :=
  Opening.mk "opening-0" DoorType.walk_single OpeningWall.south
    (30 / 2 - 3 / 2) 3 6.67 0.

Definition eastWindow : Opening.t :=
  Opening.mk "opening-1" DoorType.window_hopper OpeningWall.east
    (40 / 2 - 3 / 2) 3 2 4.

(* The interval of the wall axis that an opening covers, about the middle of
   the wall: from the component along the wall of its drawn position. *)
Definition alongWall (o : Opening.t) (bw bl : number) : number :=
  let '(x, _, z) := DraggableDoor.doorPosition o bw bl in
  match Opening.wall o with
  | OpeningWall.east | OpeningWall.west => z
  | _ => x
  end.

Module Gesture.

Import DraggableDoor Drag.

(* What a pointer-move changes: nothing but the openings of the id of the
   opening it is delivered to, and of those neither id, type, wall, width
   nor height. *)
Record moved (s : BuildingState) (id : string) (st : BuildingState * local)
    : Prop := {
  moved_dimensions : dimensions (fst st) = dimensions s;
  moved_roof : roof (fst st) = roof s;
  moved_colors : colors (fst st) = colors s;
  moved_walls : walls (fst st) = walls s;
  moved_leanToConfigs : leanToConfigs (fst st) = leanToConfigs s;
  moved_leanTos : leanTos (fst st) = leanTos s;
  moved_environment : environment (fst st) = environment s;
  moved_length :
    List.length (openings (fst st)) = List.length (openings s);
  moved_nth : forall j oj,
    nth_error (openings s) j = Some oj ->
    exists oj',
      nth_error (openings (fst st)) j = Some oj'
      /\ same_opening oj oj'
      /\ (Opening.id oj <> id -> oj' = oj) }.

End Gesture.

(* The mode that the next press of the visibility button selects, by the
   label of the button. *)
Definition modeOfLabel (label : string) : option VisibilityMode.t :=
  if String.eqb label "HIDE WALLS" then Some VisibilityMode.hide_walls
  else if String.eqb label "HIDE ROOF" then Some VisibilityMode.hide_roof
  else if String.eqb label "FRAME ONLY" then Some VisibilityMode.frame_only
  else if String.eqb label "SHOW ALL" then Some VisibilityMode.full
  else None.

(* The distance of two points. *)
Definition distance (p q : vec3) : number :=
  let '(px, py, pz) := p in
  let '(qx, qy, qz) := q in
  sqrt ((px - qx) ^ 2 + (py - qy) ^ 2 + (pz - qz) ^ 2).

(* A point strictly inside the volume under the eaves of the building. *)
Definition insideBuilding (s : BuildingState) (p : vec3) : Prop :=
  let '(x, y, z) := p in
  - Building.width s / 2 < x < Building.width s / 2
  /\ 0 < y < Building.eaveHeight s
  /\ - Building.length s / 2 < z < Building.length s / 2.

(* The south door of [doorAndWindow] moved to the east wall. *)
Definition movedEast : BuildingState :=
  DoorsWindowsPanel.onWallChange southDoor OpeningWall.east doorAndWindow.

(* The default building after a legacy lean-to record was added, the sky
   set to night, the camera moved inside and the roof panel expanded. *)
Definition legacyLeanToAdded : BuildingState :=
  Store.setExpandedPanel (Some "roof"%string)
    (Store.setViewMode ViewMode.interior
       (Store.setEnvironment
          (Environment.mkPartial (Some SkyType.night) None None)
          (Store.addLeanTo (LeanTo.mk EmptyString WallSide.east 12 20 8) 7%N
             Store.initialState))).

(* The layers that the visibility mode hides: the covering of the walls,
   the covering of the roof, and the secondary members. *)
Definition isWallCovering (m : member) : bool :=
  match m with
  | WallPanel _ | Wainscot _ | Trim | DoorPart => true
  | _ => false
  end.

Definition isRoofCovering (m : member) : bool :=
  match m with
  | RoofPanel | RidgeCap | RidgeVent | Cupola => true
  | _ => false
  end.

Definition isSecondaryMember (r : role) : bool :=
  match r with
  | (_, Girt) | (_, Purlin) | (LeanToOf _, EaveBeam) => true
  | _ => false
  end.

Definition hideWalls : BuildingState :=
  Store.setVisibilityMode VisibilityMode.hide_walls doorAndWindow.

Definition hideRoof : BuildingState :=
  Store.setVisibilityMode VisibilityMode.hide_roof southLeanToEnabled.

Definition frameOnlyWithLeanTo : BuildingState :=
  Store.setVisibilityMode VisibilityMode.frame_only southLeanToEnabled.

(* Math.max(3, Math.ceil(depth / 3)): the purlins of the lean-to of a side,
   and Math.max(2, Math.floor(height / 4)): the rows of girts of a wall of
   the given height, as array lengths. *)
Definition leanToPurlins (s : BuildingState) (side : WallSide.t) : nat :=
  ToLength
    (Math_max 3
       (Math_ceil
          (LeanToConfig.depth (PerSide.get side (leanToConfigs s)) / 3))).

Definition girtRows (height : number) : nat :=
  ToLength (Math_max 2 (Math_floor (height / 4))).

(* The meshes of a structure that are wall panels, and wainscot bands, on
   whichever side. *)
Definition wallPanelsOf (st : structure) (n : node) : nat :=
  (count_role (st, WallPanel WallSide.north) n
   + count_role (st, WallPanel WallSide.south) n
   + count_role (st, WallPanel WallSide.east) n
   + count_role (st, WallPanel WallSide.west) n)%nat.

Definition wainscotsOf (st : structure) (n : node) : nat :=
  (count_role (st, Wainscot WallSide.north) n
   + count_role (st, Wainscot WallSide.south) n
   + count_role (st, Wainscot WallSide.east) n
   + count_role (st, Wainscot WallSide.west) n)%nat.

(* The west lean-to enabled and fully enclosed, wainscot enabled. *)
Definition westLeanToEnclosed : BuildingState :=
  Store.setWalls (Walls.mkPartial None (Some true) None)
    (Store.setLeanToConfig WallSide.west
       (LeanToConfig.mkPartial (Some true) None None None None None
          (Some LeanToWallType.fully_enclosed))
       Store.initialState).

(* The height of the wall of a side that the girts of the main building are
   spaced over: the end walls take the height of the west wall. *)
Definition girtWallHeight (s : BuildingState) (side : WallSide.t) : number :=
  match side with
  | WallSide.east =>
      if Building.isSingleSlope s
      then Building.eaveHeight s + Building.roofRise s
      else Building.eaveHeight s
  | _ => Building.eaveHeight s
  end.

(* Math.max(least, Math.round(run / 4)): the side purlins of an
   asymmetrical roof over the horizontal run of a rafter, as an array
   length. *)
Definition sidePurlins (least run : number) : nat :=
  ToLength (Math_max least (Math_round (run / 4))).
Arguments sidePurlins (least run)%_R_scope.

(* Whether the end wall of a side has an overhang frame. *)
Definition hasOverhangFrame (s : BuildingState) (side : WallSide.t) : bool :=
  match side with
  | WallSide.north => gtb (PerSide.north (Building.overhangs s)) 0
  | WallSide.south => gtb (PerSide.south (Building.overhangs s)) 0
  | _ => false
  end.

(* A gable roof with two ridge vents and one 2 ft cupola, and the same
   under a single slope roof. *)
Definition ventedGable : BuildingState :=
  Store.setRoof
    (Roof.mkPartial None None None None (Some 2) (Some 1) None)
    Store.initialState.

Definition ventedSingleSlope : BuildingState :=
  Store.setRoof
    (Roof.mkPartial (Some RoofStyle.single_slope) None None None None None
                    None)
    ventedGable.

(* The default building with its west wall left open. *)
Definition westOpen : BuildingState :=
  Store.setWallEnclosed WallSide.west false Store.initialState.

(* The default building with a north overhang of 2 ft. *)
Definition northOverhang : BuildingState :=
  Store.setRoofOverhang WallSide.north 2 frameOnly.

(* A building of one foot of length. *)
Definition oneFootLong : BuildingState :=
  Store.setDimensions (Dimensions.mkPartial None (Some 1) None)
    Store.initialState.

(* The default dimensions under an asymmetrical roof with its peak moved to
   the east. *)
Definition peakToEast : BuildingState :=
  Store.setRoof
    (Roof.mkPartial (Some RoofStyle.asymmetrical) None (Some 8) None None
                    None None)
    Store.initialState.

(* The length and the angle of the roof of the lean-to of a side. *)
Definition leanToRoofLength (s : BuildingState) (side : WallSide.t)
    : number :=
  match side with
  | WallSide.south => Building.south_leanToRoofLength s
  | WallSide.north => Building.north_leanToRoofLength s
  | WallSide.west => Building.west_leanToRoofLength s
  | WallSide.east => Building.east_leanToRoofLength s
  end.

Definition leanToRoofAngle (s : BuildingState) (side : WallSide.t)
    : number :=
  match side with
  | WallSide.south => Building.south_leanToRoofAngle s
  | WallSide.north => Building.north_leanToRoofAngle s
  | WallSide.west => Building.west_leanToRoofAngle s
  | WallSide.east => Building.east_leanToRoofAngle s
  end.

(* The south lean-to enabled with a drop of 5 ft, a depth of 20 ft and a
   roof pitch of 6. *)
Definition steepLeanTo : BuildingState :=
  Store.setLeanToConfig WallSide.south
    (LeanToConfig.mkPartial (Some true) (Some 5) None None (Some 20) (Some 6)
       None)
    Store.initialState.

(* The cell of a useMemo of the building over a sequence of renders: the
   first render fills it, each later one runs useMemo on it. *)
Definition memoOver {A : Type} (deps : BuildingState -> list number)
    (compute : BuildingState -> A) (first : BuildingState)
    (later : list BuildingState) : Memo.cell A :=
  fold_left
    (fun cache s => fst (Memo.useMemo (Some cache) (deps s) (compute s)))
    later
    (fst (Memo.useMemo None (deps first) (compute first))).

(* The triangles of a non-indexed buffer geometry, three vertices each, and
   twice the signed area of a triangle in the plane of the wall: positive
   for a counter-clockwise triangle. *)
Fixpoint trianglesOf (position : list number) : list (vec3 * vec3 * vec3) :=
  match position with
  | ax :: ay :: az :: bx :: by' :: bz :: cx :: cy :: cz :: rest =>
      ((ax, ay, az), (bx, by', bz), (cx, cy, cz)) :: trianglesOf rest
  | _ => []
  end.

Definition doubleArea (t : vec3 * vec3 * vec3) : number :=
  let '((ax, ay, _), (bx, by', _), (cx, cy, _)) := t in
  (bx - ax) * (cy - ay) - (cx - ax) * (by' - ay).

Definition positionOf (g : geometry) : list number :=
  match g with
  | bufferGeometry position _ => position
  | _ => []
  end.

Definition uvOf (g : geometry) : list number :=
  match g with
  | bufferGeometry _ uv => uv
  | _ => []
  end.

(* The default building widened to 40 ft, then narrowed again. *)
Definition widened : BuildingState :=
  Store.setDimensions (Dimensions.mkPartial (Some 40) None None)
    Store.initialState.

(* A fillRect lies within the canvas, and its fill style is a color of
   8-bit channels. *)
Definition withinCanvas (t : MetalMaterial.canvasTexture)
    (f : MetalMaterial.fillRect) : Prop :=
  0 <= MetalMaterial.rect_x f
  /\ 0 <= MetalMaterial.rect_y f
  /\ 0 < MetalMaterial.rect_w f
  /\ 0 < MetalMaterial.rect_h f
  /\ MetalMaterial.rect_x f + MetalMaterial.rect_w f
     <= MetalMaterial.canvas_width t
  /\ MetalMaterial.rect_y f + MetalMaterial.rect_h f
     <= MetalMaterial.canvas_height t.

Definition isChannel (c : number) : Prop :=
  exists z : Z, c = IZR z /\ (0 <= z <= 255)%Z.

Definition isRgb (style : number * number * number) : Prop :=
  let '(r, g, b) := style in isChannel r /\ isChannel g /\ isChannel b.

(* The stripe of a fillRect across the ribs: along y for a roof, along x
   for a wall. *)
Definition stripe (isRoof : bool) (f : MetalMaterial.fillRect)
    : number * number :=
  if isRoof
  then (MetalMaterial.rect_y f,
        MetalMaterial.rect_y f + MetalMaterial.rect_h f)
  else (MetalMaterial.rect_x f,
        MetalMaterial.rect_x f + MetalMaterial.rect_w f).


(** * Properties *)

(** ** Numbers and arrays *)

(* Evaluate the program on a concrete state, down to real arithmetic. *)
Ltac evaluate :=
  cbv - [Rplus Rminus Rmult Rdiv Ropp Rinv IZR INR Rlt Rle Rgt Rge Rmax Rmin
         sqrt atan PI pow cos sin Zfloor Zceil Rlt_dec Rle_dec Req_dec_T].

Lemma eqb_spec (x y : number) : JS.eqb x y = true <-> x = y.
Proof.
  unfold JS.eqb. destruct (Req_dec_T x y); split; intros; congruence.
Qed.

Lemma eqb_refl (x : number) : JS.eqb x x = true.
Proof. now apply eqb_spec. Qed.

Lemma eqb_neq (x y : number) : x <> y -> JS.eqb x y = false.
Proof.
  intro H. destruct (JS.eqb x y) eqn:E; [|reflexivity].
  apply eqb_spec in E. contradiction.
Qed.

Lemma Math_max_lower (a b : number) : a <= Math_max a b.
Proof. apply Rmax_l. Qed.

Lemma clamp_bounds (h x : number) :
  0 <= Math_max 0 (Math_min (Math_max 0 h) x) <= Math_max 0 h.
Proof.
  unfold Math_max, Math_min. split.
  - apply Rmax_l.
  - apply Rmax_lub; [apply Rmax_l | apply Rmin_l].
Qed.

Lemma Math_max_IZR (a b : Z) : Math_max (IZR a) (IZR b) = IZR (Z.max a b).
Proof.
  unfold Math_max, Rmax.
  destruct (Rle_dec (IZR a) (IZR b)) as [H|H].
  - apply le_IZR in H. now rewrite Z.max_r.
  - rewrite Z.max_l; [reflexivity|].
    apply Z.lt_le_incl. apply Z.lt_nge. intro C. apply H. now apply IZR_le.
Qed.

Lemma ToLength_IZR (z : Z) : ToLength (IZR z) = Z.to_nat z.
Proof. unfold ToLength. now rewrite ZfloorZ. Qed.

Lemma INR_ToLength_IZR (z : Z) : (0 <= z)%Z -> INR (ToLength (IZR z)) = IZR z.
Proof.
  intro H. rewrite ToLength_IZR, INR_IZR_INZ. now rewrite Z2Nat.id.
Qed.

Lemma Array_from_length {A} (n : number) (f : nat -> A) :
  List.length (Array_from n f) = ToLength n.
Proof. unfold Array_from. now rewrite length_map, length_seq. Qed.

Lemma Array_from_nth {A} (n : number) (f : nat -> A) (i : nat) :
  (i < ToLength n)%nat -> nth_error (Array_from n f) i = Some (f i).
Proof.
  intro H. unfold Array_from.
  rewrite nth_error_map, nth_error_seq.
  apply Nat.ltb_lt in H. now rewrite H.
Qed.

(** ** The store *)

Lemma dispatch_selection (a : Store.action) (s : BuildingState) :
  match a with
  | Store.SetPlacementMode mode =>
      UI.placementMode (ui (Store.dispatch a s)) = mode
      /\ UI.selectedOpeningId (ui (Store.dispatch a s)) = None
  | Store.SetSelectedOpeningId id =>
      UI.selectedOpeningId (ui (Store.dispatch a s)) = id
      /\ UI.placementMode (ui (Store.dispatch a s)) = None
  | _ =>
      UI.placementMode (ui (Store.dispatch a s)) = UI.placementMode (ui s)
      /\ UI.selectedOpeningId (ui (Store.dispatch a s))
         = UI.selectedOpeningId (ui s)
  end.
Proof. destruct a; split; reflexivity. Qed.

Lemma dispatch_exclusive (a : Store.action) (s : BuildingState) :
  selection_exclusive s -> selection_exclusive (Store.dispatch a s).
Proof.
  unfold selection_exclusive. intro H.
  pose proof (dispatch_selection a s) as D.
  destruct a; destruct D as [D1 D2]; rewrite ?D1, ?D2; auto.
Qed.

Lemma reachable_exclusive (s : BuildingState) :
  Store.reachable s -> selection_exclusive s.
Proof.
  induction 1 as [|s a _ IH].
  - left. reflexivity.
  - now apply dispatch_exclusive.
Qed.

Lemma run_reachable (acts : list Store.action) (s : BuildingState) :
  Store.reachable s -> Store.reachable (Store.run acts s).
Proof.
  revert s. induction acts as [|a acts IH]; intros s H; simpl.
  - exact H.
  - apply IH. now constructor.
Qed.

(** C10. Starting from the initial store state, where placementMode and
    selectedOpeningId are both null, no sequence of store actions reaches
    a state in which both are non-null: setPlacementMode sets
    selectedOpeningId to null, setSelectedOpeningId sets placementMode to
    null, and every other action leaves both fields as they were. *)
Theorem C10_selection_exclusive :
  (UI.placementMode (ui Store.initialState) = None
   /\ UI.selectedOpeningId (ui Store.initialState) = None)
  /\ (forall acts : list Store.action,
        let s := Store.run acts Store.initialState in
        ~ (UI.placementMode (ui s) <> None
           /\ UI.selectedOpeningId (ui s) <> None))
  /\ (forall mode s,
        UI.selectedOpeningId (ui (Store.setPlacementMode mode s)) = None)
  /\ (forall id s,
        UI.placementMode (ui (Store.setSelectedOpeningId id s)) = None)
  /\ (forall a s,
        match a with
        | Store.SetPlacementMode _ | Store.SetSelectedOpeningId _ => True
        | _ =>
            UI.placementMode (ui (Store.dispatch a s))
            = UI.placementMode (ui s)
            /\ UI.selectedOpeningId (ui (Store.dispatch a s))
               = UI.selectedOpeningId (ui s)
        end).
Proof.
  split; [split; reflexivity|].
  split.
  - intros acts s [H1 H2].
    assert (E : selection_exclusive s).
    { apply reachable_exclusive. apply run_reachable. constructor. }
    destruct E as [E|E]; contradiction.
  - split; [reflexivity|]. split; [reflexivity|].
    intros a s. pose proof (dispatch_selection a s) as D.
    destruct a; auto.
Qed.

Lemma C10_selection_exclusive_witness :
  let s := Store.run placeThenSelect Store.initialState in
  UI.selectedOpeningId (ui s) = Some "opening-7"%string
  /\ UI.placementMode (ui s) = None
  /\ ~ (UI.placementMode (ui s) <> None
        /\ UI.selectedOpeningId (ui s) <> None).
Proof.
  split; [reflexivity|]. split; [reflexivity|].
  exact (proj1 (proj2 C10_selection_exclusive) placeThenSelect).
Defined.

(** ** The roof geometry solver *)

Lemma Math_atan2_pos (y x : number) : 0 < x -> Math_atan2 y x = atan (y / x).
Proof.
  intro H. unfold Math_atan2. destruct (Rlt_dec 0 x); [reflexivity|].
  contradiction.
Qed.

(** C3. For a positive width and a pitch between 1 and 6 the roof solver
    computes roofRise = (width/2) * (pitch/12),
    roofAngle = atan2(roofRise, width/2) and
    panelLength = sqrt((width/2)^2 + roofRise^2), so that the rise is
    positive and the angle is atan(pitch/12); with width 30 and pitch 4 the
    rise is 5 and the panel length is sqrt(225 + 25). *)
Theorem C3_roof_solver (s : BuildingState) :
  0 < Building.width s ->
  1 <= Building.pitch s <= 6 ->
  (Building.roofRise s = (Building.width s / 2) * (Building.pitch s / 12)
   /\ Building.roofAngle s
      = Math_atan2 (Building.roofRise s) (Building.width s / 2)
   /\ Building.roofPanelLength s
      = Math_sqrt ((Building.width s / 2) ^ 2 + Building.roofRise s ^ 2))
  /\ (0 < Building.roofRise s
      /\ Building.roofAngle s = atan (Building.pitch s / 12))
  /\ (Building.width s = 30 -> Building.pitch s = 4 ->
      Building.roofRise s = 5
      /\ Building.roofPanelLength s = Math_sqrt (225 + 25)).
Proof.
  intros Hw Hp. split; [repeat split|]. split.
  - split.
    + unfold Building.roofRise. nra.
    + unfold Building.roofAngle. rewrite Math_atan2_pos by lra.
      f_equal. unfold Building.roofRise. field. lra.
  - intros Hw30 Hp4. unfold Building.roofPanelLength, Building.roofRise.
    rewrite Hw30, Hp4. split; [lra|]. f_equal. lra.
Qed.

Lemma C3_roof_solver_witness :
  0 < Building.width Store.initialState
  /\ 1 <= Building.pitch Store.initialState <= 6
  /\ Building.roofRise Store.initialState = 5
  /\ Building.roofPanelLength Store.initialState = Math_sqrt (225 + 25).
Proof.
  assert (Hw : 0 < Building.width Store.initialState) by (evaluate; lra).
  assert (Hp : 1 <= Building.pitch Store.initialState <= 6) by (evaluate; lra).
  split; [exact Hw|]. split; [exact Hp|].
  exact (proj2 (proj2 (C3_roof_solver Store.initialState Hw Hp))
           eq_refl eq_refl).
Defined.

(** C5. With asymmetricOffset = 5 the asymmetrical solver has
    peakOffset = 0: both widths are width/2, both angles are the gable
    roofAngle and both panel lengths are the gable panel length; the
    asymmetrical end wall polygon is then the gable one. *)
Theorem C5_asymmetric_centered (s : BuildingState) :
  0 < Building.width s ->
  Building.asymmetricOffset s = 5 ->
  Building.peakOffset s = 0
  /\ Building.leftWidth s = Building.width s / 2
  /\ Building.rightWidth s = Building.width s / 2
  /\ Building.leftRoofAngle s = Building.roofAngle s
  /\ Building.rightRoofAngle s = Building.roofAngle s
  /\ Building.leftRoofLength s = Building.roofPanelLength s
  /\ Building.rightRoofLength s = Building.roofPanelLength s
  /\ Building.asymmetricalEndWallGeometry s = Building.gableEndWallGeometry s.
Proof.
  intros Hw H5.
  assert (P : Building.peakOffset s = 0).
  { unfold Building.peakOffset. rewrite H5. lra. }
  assert (L : Building.leftWidth s = Building.width s / 2).
  { unfold Building.leftWidth. rewrite P. lra. }
  assert (R : Building.rightWidth s = Building.width s / 2).
  { unfold Building.rightWidth. rewrite P. lra. }
  unfold Building.leftRoofAngle, Building.rightRoofAngle,
    Building.leftRoofLength, Building.rightRoofLength.
  rewrite L, R. repeat split; try assumption.
  unfold Building.asymmetricalEndWallGeometry, Building.gableEndWallGeometry,
    Building.gableInset.
  cbv zeta. rewrite P.
  assert (U : (0 + (Building.width s / 2 - 0))
               / (2 * (Building.width s / 2 - 0)) = 0.5).
  { transitivity (1 / 2); [field; lra | lra]. }
  rewrite U. reflexivity.
Qed.

Lemma C5_asymmetric_centered_witness :
  0 < Building.width centeredAsymmetrical
  /\ Building.asymmetricOffset centeredAsymmetrical = 5
  /\ Building.peakOffset centeredAsymmetrical = 0
  /\ Building.leftRoofLength centeredAsymmetrical
     = Building.roofPanelLength centeredAsymmetrical.
Proof.
  assert (Hw : 0 < Building.width centeredAsymmetrical) by (evaluate; lra).
  split; [exact Hw|]. split; [reflexivity|].
  pose proof (C5_asymmetric_centered centeredAsymmetrical Hw eq_refl) as H.
  split; [exact (proj1 H)|].
  exact (proj1 (proj2 (proj2 (proj2 (proj2 (proj2 H)))))).
Defined.

(** ** The single-slope roof face *)

Lemma SingleSlopeRoof_shown (s : BuildingState) :
  Building.roofStyle s = RoofStyle.single_slope ->
  Building.showRoof s = true ->
  Building.SingleSlopeRoof s =
  [ group
      ((PerSide.east (Building.overhangs s)
        - PerSide.west (Building.overhangs s)) / 2,
       Building.eaveHeight s,
       (PerSide.south (Building.overhangs s)
        - PerSide.north (Building.overhangs s)) / 2) origin
      [ mesh (MainBuilding, RoofPanel) (0, Building.roofRise s / 2, 0)
          (0, 0, Building.singleSlope_slopeAngle s)
          (boxGeometry (Building.singleSlope_slopeLength s + 0.5) 0.15
                       (Building.totalRoofLength s))
          (textured (Building.roofTexture s) 0.5 0.5) ] ].
Proof.
  intros Hs Hr. unfold Building.SingleSlopeRoof, Building.isSingleSlope.
  rewrite Hs, Hr. reflexivity.
Qed.

(** C4, as stated, fails on the default building switched to the
    single-slope style: its east and west overhangs are 1 each, so the
    roof face is at atan2(5, 32), not at atan2(5, 30). *)
Lemma C4_counterexample :
  Building.roofStyle singleSlopeDefault = RoofStyle.single_slope
  /\ Building.showRoof singleSlopeDefault = true
  /\ Building.roofRise singleSlopeDefault = 5
  /\ Building.width singleSlopeDefault = 30
  /\ Building.singleSlope_slopeAngle singleSlopeDefault
     <> Math_atan2 (Building.roofRise singleSlopeDefault)
                   (Building.width singleSlopeDefault).
Proof.
  split; [reflexivity|]. split; [reflexivity|].
  assert (Hr : Building.roofRise singleSlopeDefault = 5)
    by (evaluate; lra).
  assert (Hw : Building.width singleSlopeDefault = 30) by reflexivity.
  split; [exact Hr|]. split; [exact Hw|].
  unfold Building.singleSlope_slopeAngle. rewrite Hr, Hw.
  assert (Ht : Building.singleSlope_totalWidth singleSlopeDefault = 32)
    by (evaluate; lra).
  rewrite Ht. rewrite !Math_atan2_pos by lra.
  apply Rlt_not_eq. apply atan_increasing. lra.
Qed.

(** C4, amended. For the single-slope style the one roof face spans the
    building width plus the east and west overhangs, at the angle
    atan2(roofRise, width + overhangs.east + overhangs.west) with
    roofRise = (width/2) * (pitch/12); when the east and west overhangs
    sum to zero this is atan2(roofRise, width). *)
Theorem C4_single_slope_face (s : BuildingState) :
  Building.roofStyle s = RoofStyle.single_slope ->
  Building.showRoof s = true ->
  (exists p g m,
     Building.SingleSlopeRoof s =
     [ group g origin
         [ mesh (MainBuilding, RoofPanel) p
             (0, 0,
              Math_atan2 (Building.roofRise s)
                (Building.width s + PerSide.east (Building.overhangs s)
                 + PerSide.west (Building.overhangs s)))
             (boxGeometry
                (Math_sqrt
                   ((Building.width s + PerSide.east (Building.overhangs s)
                     + PerSide.west (Building.overhangs s)) ^ 2
                    + Building.roofRise s ^ 2) + 0.5)
                0.15 (Building.totalRoofLength s)) m ] ])
  /\ Building.roofRise s = (Building.width s / 2) * (Building.pitch s / 12)
  /\ (PerSide.east (Building.overhangs s)
      + PerSide.west (Building.overhangs s) = 0 ->
      Building.singleSlope_slopeAngle s
      = Math_atan2 (Building.roofRise s) (Building.width s)).
Proof.
  intros Hs Hr. split; [|split; [reflexivity|]].
  - rewrite (SingleSlopeRoof_shown s Hs Hr). do 3 eexists. reflexivity.
  - intro H0.
    unfold Building.singleSlope_slopeAngle, Building.singleSlope_totalWidth.
    f_equal. lra.
Qed.

Lemma C4_single_slope_face_witness :
  Building.roofStyle singleSlopeDefault = RoofStyle.single_slope
  /\ Building.showRoof singleSlopeDefault = true
  /\ Building.roofRise singleSlopeDefault
     = (Building.width singleSlopeDefault / 2)
       * (Building.pitch singleSlopeDefault / 12).
Proof.
  split; [reflexivity|]. split; [reflexivity|].
  exact (proj1 (proj2 (C4_single_slope_face singleSlopeDefault
                         eq_refl eq_refl))).
Defined.

(** ** The lean-to engine *)

(** C1. For every side the lean-to engine derives
    span = (width for south/north, length for east/west) - cutL - cutR,
    attachHeight = eaveHeight - drop,
    leanToRoofRise = depth * (roofPitch/12) and
    outerHeight = max(1, attachHeight - leanToRoofRise): the outer height
    is at least 1 and an enabled lean-to is always emitted; with depth 12,
    roofPitch 3, drop 1 and eaveHeight 10 the south lean-to has
    attachHeight 9, leanToRoofRise 3 and outerHeight 6. *)
Theorem C1_lean_to_quantities (s : BuildingState) (side : WallSide.t) :
  let c := PerSide.get side (leanToConfigs s) in
  LeanToConfig.enabled c = true ->
  (Building.leanToSpan s side
   = Building.mainDimension s side - LeanToConfig.cutL c
     - LeanToConfig.cutR c
   /\ Building.attachHeight s side
      = Building.eaveHeight s - LeanToConfig.drop c
   /\ Building.leanToRoofRise s side
      = LeanToConfig.depth c * (LeanToConfig.roofPitch c / 12)
   /\ Building.outerHeight s side
      = Math_max 1 (Building.attachHeight s side
                    - Building.leanToRoofRise s side)
   /\ 1 <= Building.outerHeight s side
   /\ List.length (Building.LeanTo s side) = 1%nat)
  /\ (side = WallSide.south ->
      LeanToConfig.depth c = 12 -> LeanToConfig.roofPitch c = 3 ->
      LeanToConfig.drop c = 1 -> Building.eaveHeight s = 10 ->
      Building.attachHeight s side = 9
      /\ Building.leanToRoofRise s side = 3
      /\ Building.outerHeight s side = 6).
Proof.
  intros c He. split.
  - assert (E : List.length (Building.LeanTo s side) = 1%nat).
    { destruct side; simpl in c, He |- *;
        unfold Building.SouthLeanTo, Building.NorthLeanTo,
          Building.WestLeanTo, Building.EastLeanTo, Building.south_config,
          Building.north_config, Building.west_config, Building.east_config;
        subst c; rewrite He; reflexivity. }
    destruct side; simpl;
      (split; [reflexivity|]); (split; [reflexivity|]);
      (split; [reflexivity|]); (split; [reflexivity|]);
      (split; [apply Math_max_lower | exact E]).
  - intros -> Hd Hp Hdrop He10. simpl in c.
    assert (A : Building.attachHeight s WallSide.south = 9).
    { simpl. unfold Building.south_attachHeight, Building.south_config.
      fold c. rewrite Hdrop, He10. lra. }
    assert (B : Building.leanToRoofRise s WallSide.south = 3).
    { simpl. unfold Building.south_leanToRoofRise, Building.south_config.
      fold c. rewrite Hd, Hp. lra. }
    split; [exact A|]. split; [exact B|].
    simpl in *. unfold Building.south_outerHeight. rewrite A, B.
    unfold Math_max. rewrite Rmax_right; lra.
Qed.

Lemma C1_lean_to_quantities_witness :
  LeanToConfig.enabled
    (PerSide.get WallSide.south (leanToConfigs southLeanToEnabled)) = true
  /\ Building.attachHeight southLeanToEnabled WallSide.south = 9
  /\ Building.leanToRoofRise southLeanToEnabled WallSide.south = 3
  /\ Building.outerHeight southLeanToEnabled WallSide.south = 6.
Proof.
  split; [reflexivity|].
  exact (proj2 (C1_lean_to_quantities southLeanToEnabled WallSide.south
                  eq_refl)
           eq_refl eq_refl eq_refl eq_refl eq_refl).
Defined.

(** ** The frame layout engine *)

Lemma numFrames_IZR (s : BuildingState) :
  Building.numFrames s = IZR (numFramesZ s).
Proof.
  unfold Building.numFrames, Building.maxSpacing, numFramesZ, Math_ceil.
  rewrite <- Math_max_IZR, plus_IZR. reflexivity.
Qed.

Lemma numFrames_nat (s : BuildingState) :
  INR (ToLength (Building.numFrames s)) = Building.numFrames s
  /\ (2 <= ToLength (Building.numFrames s))%nat.
Proof.
  rewrite numFrames_IZR. unfold numFramesZ. split.
  - apply INR_ToLength_IZR. lia.
  - rewrite ToLength_IZR. lia.
Qed.

Lemma frameSpacing_bounds (s : BuildingState) :
  0 < Building.length s ->
  0 < Building.frameSpacing s <= Building.maxSpacing.
Proof.
  intro Hpos. unfold Building.frameSpacing, Building.maxSpacing.
  rewrite numFrames_IZR. unfold numFramesZ.
  pose proof (Zceil_bound (Building.length s / 25)) as [_ Hc].
  set (c := Zceil (Building.length s / 25)) in *.
  assert (H1 : IZR c + 1 <= IZR (Z.max 2 (c + 1))).
  { rewrite <- plus_IZR. apply IZR_le. lia. }
  assert (H2 : 2 <= IZR (Z.max 2 (c + 1))) by (apply IZR_le; lia).
  set (n := IZR (Z.max 2 (c + 1))) in *.
  assert (Hn : 0 < n - 1) by lra.
  split.
  - apply Rdiv_lt_0_compat; assumption.
  - apply (Rmult_le_reg_r (n - 1)); [exact Hn|].
    unfold Rdiv. rewrite Rmult_assoc, Rinv_l by lra. lra.
Qed.

Lemma frameZ_cases (s : BuildingState) (i : nat) :
  Building.frameZ s i =
  if Nat.eqb i 0 then - Building.length s / 2 + 1.0
  else if Nat.eqb i (ToLength (Building.numFrames s) - 1)
       then Building.length s / 2 - 1.0
       else - Building.length s / 2 + INR i * Building.frameSpacing s.
Proof.
  destruct (numFrames_nat s) as [Hn H2].
  unfold Building.frameZ.
  destruct (Nat.eqb_spec i 0) as [->|Hi0].
  - simpl INR. rewrite eqb_refl. reflexivity.
  - rewrite (eqb_neq (INR i) 0).
    2:{ intro E. apply Hi0. apply INR_eq. simpl. exact E. }
    assert (Hm : Building.numFrames s - 1
                 = INR (ToLength (Building.numFrames s) - 1)).
    { rewrite minus_INR by lia. simpl INR. rewrite Hn. reflexivity. }
    destruct (Nat.eqb_spec i (ToLength (Building.numFrames s) - 1))
      as [E|E].
    + rewrite Hm, <- E, eqb_refl. reflexivity.
    + rewrite eqb_neq; [reflexivity|].
      rewrite Hm. intro C. apply E. now apply INR_eq.
Qed.

(** C2. For a positive building length the frame layout engine emits
    numFrames = max(2, ceil(length/25) + 1) primary frames, with
    frameSpacing = length/(numFrames - 1), which is positive and at most
    maxSpacing = 25; frame i sits at
    z = -length/2 + i*frameSpacing, except that the first frame is at
    -length/2 + 1.0 and the last at length/2 - 1.0; a length of 40 gives 3
    frames spaced by 20. *)
Theorem C2_frame_layout (s : BuildingState) :
  0 < Building.length s ->
  let n := ToLength (Building.numFrames s) in
  Building.numFrames s
  = Math_max 2 (Math_ceil (Building.length s / 25) + 1)
  /\ INR n = Building.numFrames s
  /\ Building.frameSpacing s
     = Building.length s / (Building.numFrames s - 1)
  /\ 0 < Building.frameSpacing s <= Building.maxSpacing
  /\ List.length (Building.MainSteelFrames s) = n
  /\ (forall i, (i < n)%nat ->
      exists members,
        nth_error (Building.MainSteelFrames s) i
        = Some (group
                  (0, 0,
                   if Nat.eqb i 0 then - Building.length s / 2 + 1.0
                   else if Nat.eqb i (n - 1)
                        then Building.length s / 2 - 1.0
                        else - Building.length s / 2
                             + INR i * Building.frameSpacing s)
                  origin members))
  /\ (Building.length s = 40 ->
      Building.numFrames s = 3 /\ Building.frameSpacing s = 20).
Proof.
  intros Hpos n.
  split; [reflexivity|].
  split; [apply numFrames_nat|].
  split; [reflexivity|].
  split; [now apply frameSpacing_bounds|].
  split; [apply Array_from_length|].
  split.
  - intros i Hi. unfold Building.MainSteelFrames.
    rewrite Array_from_nth by exact Hi.
    rewrite frameZ_cases. fold n.
    unfold Building.frame. eexists. reflexivity.
  - intro H40.
    assert (N : Building.numFrames s = 3).
    { rewrite numFrames_IZR. unfold numFramesZ. rewrite H40.
      rewrite (Zceil_eq 2); [reflexivity|]. lra. }
    split; [exact N|].
    unfold Building.frameSpacing. rewrite N, H40. lra.
Qed.

Lemma C2_frame_layout_witness :
  0 < Building.length length40
  /\ Building.numFrames length40 = 3
  /\ Building.frameSpacing length40 = 20.
Proof.
  assert (H : 0 < Building.length length40) by (evaluate; lra).
  split; [exact H|].
  exact (proj2 (proj2 (proj2 (proj2 (proj2 (proj2
           (C2_frame_layout length40 H)))))) eq_refl).
Defined.

(** ** Dragging an opening *)

Module DragFacts.

Import DraggableDoor Drag.

Lemma updateOpening_nth (s : BuildingState) (k : nat) (o : Opening.t)
    (p : Opening.partial) :
  nth_error (openings s) k = Some o ->
  nth_error (openings (Store.updateOpening (Opening.id o) p s)) k
  = Some (Opening.assign o p).
Proof.
  intro H. unfold Store.updateOpening. simpl.
  rewrite nth_error_map, H. simpl. now rewrite String.eqb_refl.
Qed.

Lemma down_dragging (size : viewport) (s : BuildingState) (k : nat)
    (o : Opening.t) (e0 : pointerEvent) (l : local) :
  nth_error (openings s) k = Some o ->
  dragging s k o e0 (deliver size k (onPointerDown e0) (s, l)) o.
Proof.
  intro H. unfold deliver. simpl fst. rewrite H.
  split; simpl; auto.
  - repeat split.
Qed.

Lemma move_dragging (size : viewport) (s0 : BuildingState) (k : nat)
    (o : Opening.t) (e0 e : pointerEvent) (st : BuildingState * local)
    (o' : Opening.t) :
  dragging s0 k o e0 st o' ->
  exists o'',
    dragging s0 k o e0 (deliver size k (onPointerMove e) st) o''
    /\ Opening.position o''
       = Math_max 0
           (Math_min
              (maxPosition o (Dimensions.width (dimensions s0))
                           (Dimensions.length (dimensions s0)))
              (requestedPosition (Dimensions.width (dimensions s0))
                 (Dimensions.length (dimensions s0)) size o e0 e))
    /\ Opening.bottomOffset o''
       = if isWindow o
         then Math_max 0
                (Math_min (Math_max 0 (14 - Opening.height o))
                          (requestedBottomOffset size o e0 e))
         else Opening.bottomOffset o.
Proof.
  intros [Hd Hn [Hid [Hty [Hw [Hwd Hh]]]] [_ Hb] Hf Hs].
  destruct st as [s l]. simpl in *.
  unfold deliver. simpl fst. rewrite Hn.
  unfold handlePointerMove. rewrite Hf, Hs. simpl.
  eexists. split; [split|split].
  - simpl. exact Hd.
  - simpl fst. apply updateOpening_nth. exact Hn.
  - unfold same_opening. simpl. auto.
  - simpl. split; [exact Hty|]. intro W.
    unfold isWindow in *. rewrite Hty, W. auto.
  - exact Hf.
  - exact Hs.
  - simpl. unfold maxPosition, wallLength, requestedPosition, wallLength.
    rewrite Hd, Hw, Hwd.
    destruct (Opening.wall o); reflexivity.
  - simpl. unfold isWindow, requestedBottomOffset in *. rewrite Hty, Hh.
    destruct (DoorType.startsWith "window" (Opening.type o)) eqn:W.
    + reflexivity.
    + now apply Hb.
Qed.

Lemma moves_dragging (size : viewport) (s0 : BuildingState) (k : nat)
    (o : Opening.t) (e0 : pointerEvent) (es : list pointerEvent) :
  forall st o',
    dragging s0 k o e0 st o' ->
    exists o'',
      dragging s0 k o e0
        (deliverAll size k (List.map onPointerMove es) st) o''.
Proof.
  induction es as [|e es IH]; intros st o' H; simpl.
  - now exists o'.
  - destruct (move_dragging size s0 k o e0 e st o' H) as [o1 [H1 _]].
    exact (IH _ o1 H1).
Qed.

End DragFacts.

(** ** The drag clamp *)

Lemma drag_result (size : DraggableDoor.viewport) (s : BuildingState)
    (k : nat) (o : Opening.t) (e0 : DraggableDoor.pointerEvent)
    (es : list DraggableDoor.pointerEvent) (e : DraggableDoor.pointerEvent) :
  nth_error (openings s) k = Some o ->
  exists o',
    Drag.dragging s k o e0
      (DraggableDoor.deliverAll size k
         (DraggableDoor.onPointerDown e0
          :: List.map DraggableDoor.onPointerMove (es ++ [e]))
         (s, DraggableDoor.initialLocal)) o'
    /\ Opening.position o'
       = Math_max 0
           (Math_min
              (DraggableDoor.maxPosition o (Dimensions.width (dimensions s))
                 (Dimensions.length (dimensions s)))
              (Drag.requestedPosition (Dimensions.width (dimensions s))
                 (Dimensions.length (dimensions s)) size o e0 e))
    /\ Opening.bottomOffset o'
       = if DraggableDoor.isWindow o
         then Math_max 0
                (Math_min (Math_max 0 (14 - Opening.height o))
                          (Drag.requestedBottomOffset size o e0 e))
         else Opening.bottomOffset o.
Proof.
  intro H. unfold DraggableDoor.deliverAll. simpl fold_left.
  rewrite map_app, fold_left_app. simpl fold_left.
  pose proof (DragFacts.down_dragging size s k o e0
                DraggableDoor.initialLocal H) as D0.
  destruct (DragFacts.moves_dragging size s k o e0 es _ o D0) as [o1 D1].
  exact (DragFacts.move_dragging size s k o e0 e _ o1 D1).
Qed.

(** C6, as stated, fails for an opening wider than its wall: on a 10 ft
    south wall a 14 ft door is clamped to position 0, which is not within
    [0, wallLength - width] = [0, -4]. *)
Lemma C6_counterexample :
  exists o',
    nth_error
      (openings
         (fst (DraggableDoor.deliverAll viewport800 0
                 [ DraggableDoor.onPointerDown (pointerAt 100 100);
                   DraggableDoor.onPointerMove (pointerAt 150 100) ]
                 (oversizedDoor, DraggableDoor.initialLocal)))) 0
    = Some o'
    /\ Opening.wall o' = OpeningWall.south
    /\ Dimensions.width (dimensions oversizedDoor) = 10
    /\ Opening.width o' = 14
    /\ Opening.position o' = 0
    /\ ~ (0 <= Opening.position o'
          <= Dimensions.width (dimensions oversizedDoor) - Opening.width o').
Proof.
  destruct (drag_result viewport800 oversizedDoor 0
              (Opening.mk "opening-0" DoorType.hydraulic OpeningWall.south
                 (10 / 2 - 14 / 2) 14 14 0)
              (pointerAt 100 100) [] (pointerAt 150 100) eq_refl)
    as [o' [D [P _]]].
  exists o'.
  destruct D as [_ Hn [_ [_ [Hw [Hwd _]]]] _ _ _].
  split; [exact Hn|]. split; [exact Hw|]. split; [reflexivity|].
  split; [exact Hwd|].
  assert (P0 : Opening.position o' = 0).
  { rewrite P. unfold DraggableDoor.maxPosition, DraggableDoor.wallLength.
    simpl. unfold Math_max, Math_min.
    rewrite (Rmax_left 0 (10 - 14)) by lra.
    apply Rmax_left. apply Rmin_l. }
  split; [exact P0|].
  rewrite P0, Hwd. simpl. lra.
Qed.

(** C6, amended. For every opening being dragged, after pointer-down and
    any sequence of pointer-moves of arbitrary deltas, the position is the
    clamp to [0, max(0, wallLength - width)] of the start position plus
    the scaled horizontal delta of the last move, the delta being
    subtracted for openings on the north and west walls; so it stays
    within [0, wallLength - width] whenever the opening fits its wall.
    The vertical delta is applied only when the opening is a window,
    clamped to [0, max(0, 14 - height)]. *)
Theorem C6_drag_clamped (size : DraggableDoor.viewport) (s : BuildingState)
    (k : nat) (o : Opening.t) (e0 : DraggableDoor.pointerEvent)
    (es : list DraggableDoor.pointerEvent) (e : DraggableDoor.pointerEvent) :
  nth_error (openings s) k = Some o ->
  let bw := Dimensions.width (dimensions s) in
  let bl := Dimensions.length (dimensions s) in
  let wallLength := DraggableDoor.getWallLength bw bl (Opening.wall o) in
  let deltaX := DraggableDoor.eventX e - DraggableDoor.eventX e0 in
  let deltaY := DraggableDoor.eventY e - DraggableDoor.eventY e0 in
  let sensitivityX := wallLength / DraggableDoor.size_width size * 2 in
  let sensitivityY := 20 / DraggableDoor.size_height size * 2 in
  exists o',
    nth_error
      (openings
         (fst (DraggableDoor.deliverAll size k
                 (DraggableDoor.onPointerDown e0
                  :: List.map DraggableDoor.onPointerMove (es ++ [e]))
                 (s, DraggableDoor.initialLocal)))) k
    = Some o'
    /\ Drag.same_opening o o'
    /\ Opening.position o'
       = Math_max 0
           (Math_min (Math_max 0 (wallLength - Opening.width o))
              (match Opening.wall o with
               | OpeningWall.north | OpeningWall.west =>
                   Opening.position o - deltaX * sensitivityX
               | _ => Opening.position o + deltaX * sensitivityX
               end))
    /\ 0 <= Opening.position o' <= Math_max 0 (wallLength - Opening.width o)
    /\ (Opening.width o <= wallLength ->
        0 <= Opening.position o' <= wallLength - Opening.width o)
    /\ (DraggableDoor.isWindow o = true ->
        Opening.bottomOffset o'
        = Math_max 0
            (Math_min (Math_max 0 (14 - Opening.height o))
                      (Opening.bottomOffset o - deltaY * sensitivityY))
        /\ 0 <= Opening.bottomOffset o' <= Math_max 0 (14 - Opening.height o))
    /\ (DraggableDoor.isWindow o = false ->
        Opening.bottomOffset o' = Opening.bottomOffset o).
Proof.
  intros H bw bl wallLength deltaX deltaY sensitivityX sensitivityY.
  destruct (drag_result size s k o e0 es e H) as [o' [D [P B]]].
  exists o'.
  assert (R : 0 <= Opening.position o'
                <= Math_max 0 (wallLength - Opening.width o)).
  { rewrite P. apply clamp_bounds. }
  split; [exact (Drag.dragging_nth _ _ _ _ _ _ D)|].
  split; [exact (Drag.dragging_same _ _ _ _ _ _ D)|].
  split; [exact P|]. split; [exact R|]. split.
  - intro Hfit. unfold Math_max in R.
    rewrite Rmax_right in R by lra. exact R.
  - split; intro W; rewrite W in B.
    + split; [exact B|]. rewrite B. apply clamp_bounds.
    + exact B.
Qed.

Lemma C6_drag_clamped_witness :
  exists o o',
    nth_error (openings northWindow) 0 = Some o
    /\ nth_error
         (openings
            (fst (DraggableDoor.deliverAll viewport800 0
                    (DraggableDoor.onPointerDown (pointerAt 100 100)
                     :: List.map DraggableDoor.onPointerMove
                          ([pointerAt 5000 100] ++ [pointerAt (-9000) 700]))
                    (northWindow, DraggableDoor.initialLocal)))) 0
       = Some o'
    /\ 0 <= Opening.position o' <= 30 - 3.
Proof.
  exists (Opening.mk "opening-0" DoorType.window_slider OpeningWall.north
            (30 / 2 - 3 / 2) 3 2 4).
  destruct (C6_drag_clamped viewport800 northWindow 0
              (Opening.mk "opening-0" DoorType.window_slider
                 OpeningWall.north (30 / 2 - 3 / 2) 3 2 4)
              (pointerAt 100 100) [pointerAt 5000 100]
              (pointerAt (-9000) 700) eq_refl)
    as [o' [Hn [_ [_ [_ [Hfit _]]]]]].
  exists o'. split; [reflexivity|]. split; [exact Hn|].
  apply Hfit. simpl. lra.
Defined.

(** ** Counting the meshes of a role in the scene *)

Lemma count_role_group (r : role) (p q : vec3) (cs : list node) :
  count_role r (group p q cs) = count_in r cs.
Proof. reflexivity. Qed.

Lemma count_in_nil (r : role) : count_in r [] = 0%nat.
Proof. reflexivity. Qed.

Lemma count_in_app (r : role) (a b : list node) :
  count_in r (a ++ b) = (count_in r a + count_in r b)%nat.
Proof.
  unfold count_in. now rewrite flat_map_app, filter_app, length_app.
Qed.

Lemma count_in_mesh (r r' : role) p q g m (l : list node) :
  count_in r (mesh r' p q g m :: l)
  = ((if role_eqb r r' then 1 else 0) + count_in r l)%nat.
Proof.
  unfold count_in. simpl. unfold has_role at 1. simpl.
  destruct (role_eqb r r'); reflexivity.
Qed.

Lemma count_in_group (r : role) p q (cs l : list node) :
  count_in r (group p q cs :: l) = (count_in r cs + count_in r l)%nat.
Proof.
  change (group p q cs :: l) with ([group p q cs] ++ l).
  rewrite count_in_app. f_equal.
  unfold count_in. simpl. now rewrite app_nil_r.
Qed.

Lemma count_in_when (r : role) (c : bool) (l : list node) :
  count_in r (when c l) = if c then count_in r l else 0%nat.
Proof. destruct c; reflexivity. Qed.

Lemma count_in_map {A} (r : role) (f : A -> node) (c : nat) (l : list A) :
  (forall x, count_in r [f x] = c) ->
  count_in r (List.map f l) = (List.length l * c)%nat.
Proof.
  intro H. induction l as [|x l IH]; [reflexivity|].
  simpl List.map. change (f x :: List.map f l) with ([f x] ++ List.map f l).
  rewrite count_in_app, H, IH. simpl. reflexivity.
Qed.

Lemma count_in_Array_from (r : role) (n : number) (f : nat -> node)
    (c : nat) :
  (forall i, count_in r [f i] = c) ->
  count_in r (Array_from n f) = (ToLength n * c)%nat.
Proof.
  intro H. unfold Array_from. rewrite (count_in_map r f c) by exact H.
  now rewrite length_seq.
Qed.

Lemma count0_app (r : role) (a b : list node) :
  count_in r a = 0%nat -> count_in r b = 0%nat ->
  count_in r (a ++ b) = 0%nat.
Proof. intros Ha Hb. now rewrite count_in_app, Ha, Hb. Qed.

Lemma count0_when (r : role) (c : bool) (l : list node) :
  count_in r l = 0%nat -> count_in r (when c l) = 0%nat.
Proof. intro H. rewrite count_in_when, H. now destruct c. Qed.

Lemma count0_mesh (r r' : role) p q g m (l : list node) :
  role_eqb r r' = false -> count_in r l = 0%nat ->
  count_in r (mesh r' p q g m :: l) = 0%nat.
Proof. intros E H. now rewrite count_in_mesh, E, H. Qed.

Lemma count0_group (r : role) p q (cs l : list node) :
  count_in r cs = 0%nat -> count_in r l = 0%nat ->
  count_in r (group p q cs :: l) = 0%nat.
Proof. intros Hc Hl. now rewrite count_in_group, Hc, Hl. Qed.

Lemma count0_map {A} (r : role) (f : A -> node) (l : list A) :
  (forall x, count_in r [f x] = 0%nat) ->
  count_in r (List.map f l) = 0%nat.
Proof. intro H. rewrite (count_in_map r f 0) by exact H. lia. Qed.

Lemma count0_Array_from (r : role) (n : number) (f : nat -> node) :
  (forall i, count_in r [f i] = 0%nat) ->
  count_in r (Array_from n f) = 0%nat.
Proof. intro H. rewrite (count_in_Array_from r n f 0) by exact H. lia. Qed.

Lemma if_same {A} (c : bool) (x : A) : (if c then x else x) = x.
Proof. now destruct c. Qed.

(* Open the element trees of the components. *)
Ltac open_tree :=
  unfold Building.frame, Building.columnBeam, Building.rafterBeam,
    TrapezoidWall.render, DraggableDoor.render;
  cbv beta zeta.

(* A list of nodes holds no mesh of the role. *)
Ltac no_such_mesh :=
  open_tree;
  repeat match goal with
  | |- count_in _ [] = 0%nat => reflexivity
  | |- count_in _ (_ ++ _) = 0%nat => apply count0_app
  | |- count_in _ (when _ _) = 0%nat => apply count0_when
  | |- count_in _ (Array_from _ _) = 0%nat =>
      apply count0_Array_from; intro; cbv beta
  | |- count_in _ (List.map _ _) = 0%nat =>
      apply count0_map; intro; cbv beta
  | |- count_in _ (mesh _ _ _ _ _ :: _) = 0%nat =>
      apply count0_mesh; [reflexivity|]
  | |- count_in _ (group _ _ _ :: _) = 0%nat => apply count0_group
  end.

(* Count the meshes of the role in a list of nodes. *)
Create Rewrite HintDb scene_count.
#[local] Hint Rewrite count_in_app count_in_when count_in_mesh count_in_group
  count_in_nil : scene_count.

Ltac count_meshes :=
  open_tree;
  autorewrite with scene_count;
  cbn [role_eqb structure_eqb member_eqb WallSide.eqb fst snd andb
       Nat.add];
  rewrite ?if_same.

(* Every section of the scene that holds no mesh of the role counts 0. *)
Ltac absent_elsewhere :=
  repeat match goal with
  | |- context [count_in ?r ?l] =>
      let E := fresh "E" in
      assert (E : count_in r l = 0%nat)
        by (unfold Building.FloorSlabSection, Building.MainSteelFrames,
              Building.WallGirts, Building.NorthOverhangFrame,
              Building.SouthOverhangFrame, Building.GablePurlins,
              Building.SingleSlopePurlins, Building.AsymmetricalPurlins,
              Building.RidgeBeamSection, Building.PerimeterEaveBeams,
              Building.WallPanels, Building.Wainscots, Building.GableRoof,
              Building.SingleSlopeRoof, Building.AsymmetricalRoof,
              Building.RidgeVents, Building.Cupolas2ft, Building.Cupolas3ft,
              Building.TrimSection, Building.DoorsAndWindows,
              Building.SouthLeanTo, Building.NorthLeanTo,
              Building.WestLeanTo, Building.EastLeanTo;
            no_such_mesh);
      rewrite E; clear E
  end.

(** ** Listing the meshes of a role in the scene *)

Lemma meshesOf_group (r : role) (p q : vec3) (cs : list node) :
  meshesOf r (group p q cs) = meshes_in r cs.
Proof. reflexivity. Qed.

Lemma meshes_in_none (r : role) (l : list node) :
  count_in r l = 0%nat -> meshes_in r l = [].
Proof. intro H. now apply length_zero_iff_nil. Qed.

Lemma lst_nil (r : role) : meshes_in r [] = [].
Proof. reflexivity. Qed.

Lemma lst_app (r : role) (a b x y : list node) :
  meshes_in r a = x -> meshes_in r b = y -> meshes_in r (a ++ b) = x ++ y.
Proof.
  intros <- <-. unfold meshes_in. now rewrite flat_map_app, filter_app.
Qed.

Lemma lst_when (r : role) (c : bool) (l x : list node) :
  meshes_in r l = x -> meshes_in r (when c l) = when c x.
Proof. intros <-. now destruct c. Qed.

Lemma lst_skip (r r' : role) p q g m (l y : list node) :
  role_eqb r r' = false -> meshes_in r l = y ->
  meshes_in r (mesh r' p q g m :: l) = y.
Proof.
  intros E <-. unfold meshes_in. simpl. unfold has_role at 1. simpl.
  now rewrite E.
Qed.

Lemma lst_take (r r' : role) p q g m (l y : list node) :
  role_eqb r r' = true -> meshes_in r l = y ->
  meshes_in r (mesh r' p q g m :: l) = mesh r' p q g m :: y.
Proof.
  intros E <-. unfold meshes_in. simpl. unfold has_role at 1. simpl.
  now rewrite E.
Qed.

Lemma lst_group (r : role) p q (cs l x y : list node) :
  meshes_in r cs = x -> meshes_in r l = y ->
  meshes_in r (group p q cs :: l) = x ++ y.
Proof.
  intros <- <-. unfold meshes_in. simpl. now rewrite filter_app.
Qed.

Lemma when_nil {A} (c : bool) : when c (@nil A) = [].
Proof. now destruct c. Qed.

(* List the meshes of the role in a list of nodes, top down; a part that
   holds none is settled by counting. *)
Ltac list_down :=
  open_tree;
  repeat match goal with
  | |- meshes_in _ [] = _ => apply lst_nil
  | |- meshes_in _ (_ ++ _) = _ => eapply lst_app
  | |- meshes_in _ (when _ _) = _ =>
      first [ solve [apply meshes_in_none; no_such_mesh] | eapply lst_when ]
  | |- meshes_in _ (Array_from _ _) = _ =>
      solve [apply meshes_in_none; no_such_mesh]
  | |- meshes_in _ (List.map _ _) = _ =>
      solve [apply meshes_in_none; no_such_mesh]
  | |- meshes_in _ (mesh _ _ _ _ _ :: _) = _ =>
      first [ eapply lst_skip; [reflexivity|]
            | eapply lst_take; [reflexivity|] ]
  | |- meshes_in _ (group _ _ _ :: _) = _ => eapply lst_group
  end.

Ltac listed :=
  repeat match goal with
  | |- context [meshes_in ?r ?l] =>
      let E := fresh "E" in
      eassert (E : meshes_in r l = _) by list_down;
      rewrite E; clear E
  end;
  cbn [app]; rewrite ?app_nil_r; rewrite ?when_nil; cbn [app].

(* Open the sections of the scene, for a listing by role. *)
Ltac open_scene_list :=
  unfold Building.render; rewrite ?meshesOf_group;
  unfold Building.children,
    Building.FloorSlabSection, Building.MainSteelFrames,
    Building.WallGirts, Building.NorthOverhangFrame,
    Building.SouthOverhangFrame, Building.GablePurlins,
    Building.SingleSlopePurlins, Building.AsymmetricalPurlins,
    Building.RidgeBeamSection, Building.PerimeterEaveBeams,
    Building.WallPanels, Building.Wainscots, Building.GableRoof,
    Building.SingleSlopeRoof, Building.AsymmetricalRoof,
    Building.RidgeVents, Building.Cupolas2ft, Building.Cupolas3ft,
    Building.TrimSection, Building.DoorsAndWindows,
    Building.SouthLeanTo, Building.NorthLeanTo,
    Building.WestLeanTo, Building.EastLeanTo.

(** ** The visibility policy and the primary frames *)

Lemma frame_members (s : BuildingState) (z : number) :
  count_in (MainBuilding, Column) [Building.frame s MainBuilding z] = 6%nat
  /\ count_in (MainBuilding, KneeBrace) [Building.frame s MainBuilding z]
     = 2%nat
  /\ count_in (MainBuilding, Rafter) [Building.frame s MainBuilding z]
     = raftersPerFrame (Building.roofStyle s).
Proof.
  repeat split; count_meshes; try reflexivity.
  unfold Building.isGable, Building.isSingleSlope, Building.isAsymmetrical.
  destruct (Building.roofStyle s); reflexivity.
Qed.

Lemma frames_only_in_MainSteelFrames (s : BuildingState)
    (doorLocal : string -> DraggableDoor.local) (m : member) :
  m = Column \/ m = KneeBrace \/ m = Rafter ->
  count_in (MainBuilding, m) (Building.children s doorLocal)
  = count_in (MainBuilding, m) (Building.MainSteelFrames s).
Proof.
  intro Hm. unfold Building.children. rewrite !count_in_app.
  destruct Hm as [->|[->| ->]]; absent_elsewhere; lia.
Qed.

(** C7. The visibility policy maps the four modes to
    showWalls = (mode == full), showRoof = (mode == full or hide-walls)
    and showSecondaryMembers = (mode != frame-only); the primary frames
    are emitted in every mode: whatever the mode, the scene holds the
    numFrames main frames, each with its columns, knee braces and
    rafters. *)
Theorem C7_visibility_policy (s : BuildingState)
    (doorLocal : string -> DraggableDoor.local) (mode : VisibilityMode.t) :
  let s' := Store.setVisibilityMode mode s in
  let n := ToLength (Building.numFrames s) in
  (Building.showWalls s', Building.showRoof s',
   Building.showSecondaryMembers s')
  = match mode with
    | VisibilityMode.full => (true, true, true)
    | VisibilityMode.hide_walls => (false, true, true)
    | VisibilityMode.hide_roof => (false, false, true)
    | VisibilityMode.frame_only => (false, false, false)
    end
  /\ Building.MainSteelFrames s' = Building.MainSteelFrames s
  /\ (forall f, In f (Building.MainSteelFrames s') ->
      In f (Building.children s' doorLocal))
  /\ List.length (Building.MainSteelFrames s') = n
  /\ count_role (MainBuilding, Column) (Building.render s' doorLocal)
     = (n * 6)%nat
  /\ count_role (MainBuilding, KneeBrace) (Building.render s' doorLocal)
     = (n * 2)%nat
  /\ count_role (MainBuilding, Rafter) (Building.render s' doorLocal)
     = (n * raftersPerFrame (Building.roofStyle s))%nat.
Proof.
  intros s' n.
  split; [destruct mode; reflexivity|].
  split; [reflexivity|].
  split.
  { intros f Hf. unfold Building.children.
    apply in_or_app. right. apply in_or_app. left. exact Hf. }
  split; [apply Array_from_length|].
  unfold Building.render. rewrite !count_role_group.
  rewrite !frames_only_in_MainSteelFrames by auto.
  unfold Building.MainSteelFrames.
  repeat split.
  - apply count_in_Array_from. intro i. apply (frame_members s').
  - apply count_in_Array_from. intro i. apply (frame_members s').
  - apply count_in_Array_from. intro i. apply (frame_members s').
Qed.

Lemma C7_visibility_policy_witness :
  Building.showWalls frameOnly = false
  /\ Building.showSecondaryMembers frameOnly = false
  /\ count_role (MainBuilding, Column) (Building.render frameOnly noDoors)
     = 18%nat
  /\ count_role (MainBuilding, Rafter) (Building.render frameOnly noDoors)
     = 18%nat.
Proof.
  assert (N : ToLength (Building.numFrames Store.initialState) = 3%nat).
  { rewrite numFrames_IZR. unfold numFramesZ.
    rewrite (Zceil_eq 2) by (evaluate; lra).
    rewrite ToLength_IZR. reflexivity. }
  pose proof (C7_visibility_policy Store.initialState noDoors
                VisibilityMode.frame_only) as H.
  cbv zeta in H. rewrite N in H.
  destruct H as [_ [_ [_ [_ [Hc [_ Hr]]]]]].
  split; [reflexivity|]. split; [reflexivity|].
  split; [exact Hc | exact Hr].
Defined.

(** ** The wainscot of the main building *)

Lemma wainscot_only_in_WallPanels (s : BuildingState)
    (doorLocal : string -> DraggableDoor.local) (side : WallSide.t) :
  count_in (MainBuilding, Wainscot side) (Building.children s doorLocal)
  = count_in (MainBuilding, Wainscot side) (Building.WallPanels s).
Proof.
  unfold Building.children. rewrite !count_in_app.
  destruct side; absent_elsewhere; lia.
Qed.

Lemma wainscot_in_WallPanels (s : BuildingState) (side : WallSide.t) :
  count_in (MainBuilding, Wainscot side) (Building.WallPanels s)
  = if Building.showWalls s
       && Walls.wainscotEnabled (walls s)
       && PerSide.get side (Walls.enclosed (walls s))
       && negb (LeanToConfig.enabled (PerSide.get side (leanToConfigs s)))
    then 1%nat else 0%nat.
Proof.
  unfold Building.WallPanels, Building.Wainscots.
  destruct side; count_meshes; simpl PerSide.get;
    destruct (Building.showWalls s); try reflexivity;
    destruct (Walls.wainscotEnabled (walls s)); try reflexivity;
    simpl;
    match goal with
    | |- context [LeanToConfig.enabled ?c] =>
        destruct (LeanToConfig.enabled c)
    end;
    match goal with
    | |- context [if ?c && _ then _ else _] => destruct c
    end; reflexivity.
Qed.

(** C8. The wainscot band of the main building on a side is emitted only
    if wainscot is enabled, the side is enclosed and the lean-to of that
    side is not enabled (and the walls are shown); so it is suppressed
    entirely on every side whose lean-to is enabled. *)
Theorem C8_wainscot_suppressed (s : BuildingState)
    (doorLocal : string -> DraggableDoor.local) (side : WallSide.t) :
  count_role (MainBuilding, Wainscot side) (Building.render s doorLocal)
  = (if Building.showWalls s
        && Walls.wainscotEnabled (walls s)
        && PerSide.get side (Walls.enclosed (walls s))
        && negb (LeanToConfig.enabled (PerSide.get side (leanToConfigs s)))
     then 1%nat else 0%nat)
  /\ (LeanToConfig.enabled (PerSide.get side (leanToConfigs s)) = true ->
      count_role (MainBuilding, Wainscot side) (Building.render s doorLocal)
      = 0%nat)
  /\ ((0 < count_role (MainBuilding, Wainscot side)
             (Building.render s doorLocal))%nat ->
      Walls.wainscotEnabled (walls s) = true
      /\ PerSide.get side (Walls.enclosed (walls s)) = true
      /\ LeanToConfig.enabled (PerSide.get side (leanToConfigs s)) = false).
Proof.
  unfold Building.render. rewrite count_role_group.
  rewrite wainscot_only_in_WallPanels, wainscot_in_WallPanels.
  split; [reflexivity|]. split.
  - intros ->. now rewrite andb_false_r.
  - destruct (Building.showWalls s), (Walls.wainscotEnabled (walls s)),
      (PerSide.get side (Walls.enclosed (walls s))),
      (LeanToConfig.enabled (PerSide.get side (leanToConfigs s)));
      simpl; intro H; try lia; auto.
Qed.

Lemma C8_wainscot_suppressed_witness :
  LeanToConfig.enabled
    (PerSide.get WallSide.south (leanToConfigs wainscotWithSouthLeanTo))
  = true
  /\ count_role (MainBuilding, Wainscot WallSide.south)
       (Building.render wainscotWithSouthLeanTo noDoors) = 0%nat
  /\ count_role (MainBuilding, Wainscot WallSide.north)
       (Building.render wainscotWithSouthLeanTo noDoors) = 1%nat.
Proof.
  split; [reflexivity|]. split.
  - exact (proj1 (proj2 (C8_wainscot_suppressed wainscotWithSouthLeanTo
                           noDoors WallSide.south)) eq_refl).
  - exact (proj1 (C8_wainscot_suppressed wainscotWithSouthLeanTo noDoors
                    WallSide.north)).
Defined.

(** ** Colors: the geometry and the render that follows a change *)

Lemma geo_app (a a' b b' : list node) :
  List.map geometryOf a' = List.map geometryOf a ->
  List.map geometryOf b' = List.map geometryOf b ->
  List.map geometryOf (a' ++ b') = List.map geometryOf (a ++ b).
Proof. intros Ha Hb. now rewrite !map_app, Ha, Hb. Qed.

Lemma geo_when (c : bool) (l l' : list node) :
  List.map geometryOf l' = List.map geometryOf l ->
  List.map geometryOf (when c l') = List.map geometryOf (when c l).
Proof. intro H. destruct c; [exact H | reflexivity]. Qed.

Lemma geo_cons (x x' : node) (l l' : list node) :
  geometryOf x' = geometryOf x ->
  List.map geometryOf l' = List.map geometryOf l ->
  List.map geometryOf (x' :: l') = List.map geometryOf (x :: l).
Proof. intros Hx Hl. simpl. now rewrite Hx, Hl. Qed.

Lemma geo_group (p q : vec3) (cs cs' : list node) :
  List.map geometryOf cs' = List.map geometryOf cs ->
  geometryOf (group p q cs') = geometryOf (group p q cs).
Proof. intro H. simpl. now rewrite H. Qed.

Lemma geo_mesh (r : role) (p q : vec3) (g : geometry) (m m' : material) :
  geometryOf (mesh r p q g m') = geometryOf (mesh r p q g m).
Proof. reflexivity. Qed.

Lemma geo_map {A} (f f' : A -> node) (l : list A) :
  (forall x, geometryOf (f' x) = geometryOf (f x)) ->
  List.map geometryOf (List.map f' l) = List.map geometryOf (List.map f l).
Proof. intro H. rewrite !map_map. apply map_ext. exact H. Qed.

Lemma geo_Array_from (n : number) (f f' : nat -> node) :
  (forall i, geometryOf (f' i) = geometryOf (f i)) ->
  List.map geometryOf (Array_from n f')
  = List.map geometryOf (Array_from n f).
Proof. intro H. unfold Array_from. now apply geo_map. Qed.

(* Two element trees of the same shape, differing in materials only. *)
Ltac same_geometry :=
  open_tree;
  repeat match goal with
  | |- List.map geometryOf [] = List.map geometryOf [] => reflexivity
  | |- List.map geometryOf (_ ++ _) = List.map geometryOf (_ ++ _) =>
      apply geo_app
  | |- List.map geometryOf (when _ _) = List.map geometryOf (when _ _) =>
      apply geo_when
  | |- List.map geometryOf (Array_from _ _)
       = List.map geometryOf (Array_from _ _) =>
      apply geo_Array_from; intro; cbv beta
  | |- List.map geometryOf (List.map _ _)
       = List.map geometryOf (List.map _ _) =>
      apply geo_map; intro; cbv beta
  | |- List.map geometryOf (_ :: _) = List.map geometryOf (_ :: _) =>
      apply geo_cons
  | |- geometryOf (group _ _ _) = geometryOf (group _ _ _) =>
      apply geo_group
  | |- geometryOf (mesh _ _ _ _ _) = geometryOf (mesh _ _ _ _ _) =>
      apply geo_mesh
  end.

Lemma render_geometry_colors (s : BuildingState) (c : Colors.t)
    (doorLocal : string -> DraggableDoor.local) :
  geometryOf (Building.render (Store.set_colors c s) doorLocal)
  = geometryOf (Building.render s doorLocal).
Proof.
  unfold Building.render. apply geo_group. unfold Building.children.
  unfold Building.FloorSlabSection, Building.MainSteelFrames,
    Building.WallGirts, Building.NorthOverhangFrame,
    Building.SouthOverhangFrame, Building.GablePurlins,
    Building.SingleSlopePurlins, Building.AsymmetricalPurlins,
    Building.RidgeBeamSection, Building.PerimeterEaveBeams,
    Building.WallPanels, Building.Wainscots, Building.GableRoof,
    Building.SingleSlopeRoof, Building.AsymmetricalRoof,
    Building.RidgeVents, Building.Cupolas2ft, Building.Cupolas3ft,
    Building.TrimSection, Building.DoorsAndWindows,
    Building.SouthLeanTo, Building.NorthLeanTo,
    Building.WestLeanTo, Building.EastLeanTo.
  same_geometry.
Qed.

Lemma meshes_primitives :
  forall n : node, List.length (meshes n) = primitives (geometryOf n).
Proof.
  fix IH 1. intros [r p q g m | p q children]; simpl.
  - reflexivity.
  - induction children as [|x xs IHxs]; simpl.
    + reflexivity.
    + rewrite length_app, IH, IHxs. reflexivity.
Qed.

Lemma geometry_roles :
  forall n n' : node,
    geometryOf n' = geometryOf n ->
    List.map role_of (meshes n') = List.map role_of (meshes n).
Proof.
  fix IH 1.
  intros [r p q g m | p q cs] [r' p' q' g' m' | p' q' cs'] H;
    try discriminate; simpl in *.
  - now injection H as ->.
  - injection H as _ _ Hc. revert cs' Hc.
    induction cs as [|x xs IHxs]; intros [|x' xs'] Hc; try discriminate;
      simpl; [reflexivity|].
    injection Hc as Hx Hxs. rewrite !map_app.
    f_equal; [apply IH; exact Hx | apply IHxs; exact Hxs].
Qed.

Lemma roles_count (r : role) :
  forall l l' : list node,
    List.map role_of l' = List.map role_of l ->
    List.length (filter (has_role r) l')
    = List.length (filter (has_role r) l).
Proof.
  induction l as [|x l IH]; intros [|x' l'] H; try discriminate;
    [reflexivity|].
  simpl in H. injection H as Hx Hl. specialize (IH _ Hl). simpl.
  assert (E : has_role r x' = has_role r x)
    by (unfold has_role; now rewrite Hx).
  rewrite E. destruct (has_role r x); simpl; now rewrite IH.
Qed.

Lemma same_deps_refl (l : list number) : Memo.same_deps l l = true.
Proof.
  induction l as [|x l IH]; simpl; [reflexivity|].
  now rewrite eqb_refl, IH.
Qed.

Lemma useMemo_kept {A} (deps : list number) (v compute : A) :
  Memo.useMemo (Some (Memo.mkCell deps v)) deps compute
  = (Memo.mkCell deps v, false).
Proof. unfold Memo.useMemo. simpl. now rewrite same_deps_refl. Qed.

Lemma same_deps_eq (a b : list number) : Memo.same_deps a b = true -> a = b.
Proof.
  revert b. induction a as [|x a IH]; intros [|y b] H;
    try discriminate; [reflexivity|].
  simpl in H. apply andb_true_iff in H. destruct H as [E H].
  apply eqb_spec in E. subst. f_equal. now apply IH.
Qed.

(** ** What a render constructs again *)

Lemma useMemo_deps {A} (cache : option (Memo.cell A)) (d : list number)
    (v : A) :
  Memo.deps (fst (Memo.useMemo cache d v)) = d.
Proof.
  destruct cache as [c|]; simpl; [|reflexivity].
  destruct (Memo.same_deps (Memo.deps c) d) eqn:E; simpl; [|reflexivity].
  now apply same_deps_eq.
Qed.

(* A useMemo that runs again with the dependencies of its last run keeps
   its cell and constructs nothing. *)
Lemma useMemo_again (cache : option (Memo.cell geometry)) (d : list number)
    (g g' : geometry) :
  RenderPass.useMemo (Some (fst (RenderPass.useMemo cache d g))) d g'
  = (fst (RenderPass.useMemo cache d g), []).
Proof.
  unfold RenderPass.useMemo.
  pose proof (useMemo_deps cache d g) as D.
  destruct (Memo.useMemo cache d g) as [[d0 v0] b]. simpl in D. subst d0.
  simpl fst. now rewrite useMemo_kept.
Qed.

Lemma renderTrapezoid_again (s : BuildingState)
    (previous : option RenderPass.fiber)
    (key : WallSide.t * RenderPass.element) :
  RenderPass.renderTrapezoid s (Some (fst (RenderPass.pass s previous))) key
  = (fst (RenderPass.renderTrapezoid s previous key), []).
Proof.
  destruct key as [side e].
  unfold RenderPass.renderTrapezoid. simpl fst. simpl snd.
  cbn [RenderPass.pass RenderPass.trapezoidWall fst].
  unfold RenderPass.renderTrapezoid. simpl fst. simpl snd.
  destruct (RenderPass.trapezoidProps s side e) as [[[w l] h]|];
    [|reflexivity].
  cbv zeta. cbn [fst snd]. now rewrite useMemo_again.
Qed.

Lemma flat_map_none {A B} (f : A -> list B) (l : list A) :
  (forall x, f x = []) -> flat_map f l = [].
Proof.
  intro H. induction l as [|x l IH]; simpl; [reflexivity|].
  now rewrite H, IH.
Qed.

(* A render that follows a render of the same state keeps every cell and
   constructs the geometries of the south lean-to only. *)
Lemma pass_again (s : BuildingState) (previous : option RenderPass.fiber) :
  let first := fst (RenderPass.pass s previous) in
  let second := RenderPass.pass s (Some first) in
  RenderPass.gableEndWall (fst second) = RenderPass.gableEndWall first
  /\ RenderPass.asymmetricalEndWall (fst second)
     = RenderPass.asymmetricalEndWall first
  /\ RenderPass.singleSlopeEndWall (fst second)
     = RenderPass.singleSlopeEndWall first
  /\ (forall side e,
        RenderPass.trapezoidWall (fst second) side e
        = RenderPass.trapezoidWall first side e)
  /\ snd second = RenderPass.inPlace s.
Proof.
  intros first second.
  assert (T : forall key,
            RenderPass.renderTrapezoid s (Some first) key
            = (fst (RenderPass.renderTrapezoid s previous key), []))
    by (intro key; apply renderTrapezoid_again).
  subst second. remember first as f eqn:F. unfold first in F.
  unfold RenderPass.pass in F |- *. cbn [fst snd] in F. subst f.
  cbn [fst snd option_map RenderPass.gableEndWall
       RenderPass.asymmetricalEndWall RenderPass.singleSlopeEndWall
       RenderPass.trapezoidWall].
  rewrite !useMemo_again. cbn [fst snd app].
  split; [reflexivity|]. split; [reflexivity|]. split; [reflexivity|].
  split.
  - intros side e. rewrite T. reflexivity.
  - rewrite (flat_map_none _ _ (fun key => f_equal snd (T key))).
    apply app_nil_r.
Qed.

Lemma pass_colors (s : BuildingState) (c : Colors.t)
    (previous : option RenderPass.fiber) :
  RenderPass.pass (Store.set_colors c s) previous
  = RenderPass.pass s previous.
Proof. reflexivity. Qed.

(* The side walls that the scene draws for a lean-to are those of the
   render pass, constructed in place on the south side and memoized by a
   TrapezoidWall on the three others. *)
Lemma side_walls_drawn (s : BuildingState)
    (doorLocal : string -> DraggableDoor.local) (side : WallSide.t)
    (second : bool) :
  geometriesOf
    (meshesOf (LeanToOf side, WallPanel (RenderPass.lateral side second))
       (Building.render s doorLocal))
  = RenderPass.sideWallBuffers s side second.
Proof.
  destruct side, second; cbn [RenderPass.lateral];
    open_scene_list; listed;
    destruct s as [dims rf cols wl [cn cs ce cw] lts ops env
                     [panel view mode placing selected dragging]];
    unfold RenderPass.sideWallBuffers, RenderPass.inPlace,
      RenderPass.trapezoidProps, RenderPass.leanToWallsShown,
      RenderPass.hasSideWalls, RenderPass.hasGableDress,
      RenderPass.config, Building.showWalls, Building.visibilityMode;
    cbn [PerSide.get PerSide.north PerSide.south PerSide.east PerSide.west
         leanToConfigs ui UI.visibilityMode Building.north_config
         Building.south_config Building.east_config Building.west_config].
  all: match goal with
       | |- context [LeanToConfig.enabled ?c] =>
           destruct c as [[|] dr cl cr dp rp []]
       end; destruct mode; reflexivity.
Qed.

(** C9. Two configuration snapshots that differ only in the four color
    assignments derive the same geometry: the scenes have the same nodes
    with the same roles, positions, rotations, dimensions and vertex
    buffers, hence the same number of primitives.  In the render that
    follows the color change every useMemo keeps its cell, those of the
    three end wall geometries and those of the TrapezoidWall side walls of
    the north, west and east lean-tos, and constructs nothing.  The side
    walls and the gable dress of the south lean-to are not memoized: when
    they are drawn, that render constructs their vertex buffers again. *)
Theorem C9_color_change_rebuilds (s1 s2 : BuildingState)
    (doorLocal : string -> DraggableDoor.local)
    (previous : option RenderPass.fiber) :
  dimensions s1 = dimensions s2 ->
  roof s1 = roof s2 ->
  walls s1 = walls s2 ->
  leanToConfigs s1 = leanToConfigs s2 ->
  leanTos s1 = leanTos s2 ->
  openings s1 = openings s2 ->
  environment s1 = environment s2 ->
  ui s1 = ui s2 ->
  let first := fst (RenderPass.pass s1 previous) in
  let second := RenderPass.pass s2 (Some first) in
  geometryOf (Building.render s1 doorLocal)
  = geometryOf (Building.render s2 doorLocal)
  /\ List.length (meshes (Building.render s1 doorLocal))
     = List.length (meshes (Building.render s2 doorLocal))
  /\ (forall r, count_role r (Building.render s1 doorLocal)
                = count_role r (Building.render s2 doorLocal))
  /\ (forall cached : geometry,
        Memo.useMemo
          (Some (Memo.mkCell (Building.gableEndWallGeometry_deps s1) cached))
          (Building.gableEndWallGeometry_deps s2)
          (Building.gableEndWallGeometry s2)
        = (Memo.mkCell (Building.gableEndWallGeometry_deps s1) cached, false)
        /\ Memo.useMemo
             (Some (Memo.mkCell (Building.asymmetricalEndWallGeometry_deps s1)
                                cached))
             (Building.asymmetricalEndWallGeometry_deps s2)
             (Building.asymmetricalEndWallGeometry s2)
           = (Memo.mkCell (Building.asymmetricalEndWallGeometry_deps s1)
                          cached, false)
        /\ Memo.useMemo
             (Some (Memo.mkCell (Building.singleSlopeEndWallGeometry_deps s1)
                                cached))
             (Building.singleSlopeEndWallGeometry_deps s2)
             (Building.singleSlopeEndWallGeometry s2)
           = (Memo.mkCell (Building.singleSlopeEndWallGeometry_deps s1)
                          cached, false))
  /\ RenderPass.gableEndWall (fst second) = RenderPass.gableEndWall first
  /\ RenderPass.asymmetricalEndWall (fst second)
     = RenderPass.asymmetricalEndWall first
  /\ RenderPass.singleSlopeEndWall (fst second)
     = RenderPass.singleSlopeEndWall first
  /\ (forall side e,
        RenderPass.trapezoidWall (fst second) side e
        = RenderPass.trapezoidWall first side e)
  /\ snd second = RenderPass.inPlace s2
  /\ (forall other,
        geometriesOf
          (meshesOf
             (LeanToOf WallSide.south,
              WallPanel (RenderPass.lateral WallSide.south other))
             (Building.render s2 doorLocal))
        = RenderPass.inPlace s2).
Proof.
  intros Hd Hr Hw Hl Hlt Ho He Hu first second.
  assert (E : s1 = Store.set_colors (colors s1) s2).
  { destruct s1, s2. simpl in *. unfold Store.set_colors. simpl.
    congruence. }
  assert (G : geometryOf (Building.render s1 doorLocal)
              = geometryOf (Building.render s2 doorLocal)).
  { rewrite E. apply render_geometry_colors. }
  split; [exact G|]. split.
  { now rewrite !meshes_primitives, G. }
  split.
  { intro r. unfold count_role. apply roles_count.
    apply geometry_roles. exact G. }
  split.
  { intro cached.
    assert (D1 : Building.gableEndWallGeometry_deps s2
                 = Building.gableEndWallGeometry_deps s1)
      by (rewrite E; reflexivity).
    assert (D2 : Building.asymmetricalEndWallGeometry_deps s2
                 = Building.asymmetricalEndWallGeometry_deps s1)
      by (rewrite E; reflexivity).
    assert (D3 : Building.singleSlopeEndWallGeometry_deps s2
                 = Building.singleSlopeEndWallGeometry_deps s1)
      by (rewrite E; reflexivity).
    rewrite D1, D2, D3. repeat split; apply useMemo_kept. }
  assert (P : first = fst (RenderPass.pass s2 previous)).
  { unfold first. rewrite E. now rewrite pass_colors. }
  destruct (pass_again s2 previous) as (A & B & C & D & F).
  cbv zeta in A, B, C, D, F. unfold second. rewrite P.
  split; [exact A|]. split; [exact B|]. split; [exact C|].
  split; [exact D|]. split; [exact F|].
  intro other. apply (side_walls_drawn s2 doorLocal WallSide.south).
Qed.

Lemma C9_color_change_rebuilds_witness :
  Colors.wall (colors southLeanToWalledRepainted)
  <> Colors.wall (colors southLeanToWalled)
  /\ snd (RenderPass.pass southLeanToWalledRepainted
            (Some (fst (RenderPass.pass southLeanToWalled None))))
     = [ bufferGeometry
           [ 0; 0; 0;  0; 0; 12;  0; 6; 12;  0; 0; 0;  0; 6; 12;  0; 9; 0 ]
           [ 0; 0;  1; 0;  1; 6 / 9;  0; 0;  1; 6 / 9;  0; 1 ] ]
  /\ snd (RenderPass.pass northLeanToWalledRepainted
            (Some (fst (RenderPass.pass northLeanToWalled None))))
     = [].
Proof.
  split; [discriminate|]. split.
  - pose proof (C9_color_change_rebuilds southLeanToWalled
                  southLeanToWalledRepainted noDoors None
                  eq_refl eq_refl eq_refl eq_refl eq_refl eq_refl eq_refl
                  eq_refl) as H.
    cbv zeta in H.
    rewrite (proj1 (proj2 (proj2 (proj2 (proj2 (proj2 (proj2 (proj2
               (proj2 H))))))))).
    change (RenderPass.inPlace southLeanToWalledRepainted)
      with [RenderPass.sideWallGeo southLeanToWalledRepainted].
    assert (O : Building.south_outerHeight southLeanToWalledRepainted = 6)
      by (evaluate; rewrite Rmax_right; lra).
    assert (A : Building.south_attachHeight southLeanToWalledRepainted = 9)
      by (evaluate; lra).
    unfold RenderPass.sideWallGeo. cbv zeta. rewrite O, A. reflexivity.
  - exact (proj1 (proj2 (proj2 (proj2 (proj2 (proj2 (proj2 (proj2 (proj2
             (C9_color_change_rebuilds northLeanToWalled
                northLeanToWalledRepainted noDoors None
                eq_refl eq_refl eq_refl eq_refl eq_refl eq_refl eq_refl
                eq_refl)))))))))).
Defined.

(** * Further properties *)

(** ** The openings of the store *)

Lemma set_openings_same (s : BuildingState) :
  Store.set_openings (openings s) s = s.
Proof. now destruct s. Qed.

Lemma map_unchanged {A} (f : A -> A) (l : list A) :
  (forall x, In x l -> f x = x) -> List.map f l = l.
Proof.
  induction l as [|x l IH]; intro H; [reflexivity|].
  simpl. rewrite H by now left. rewrite IH; [reflexivity|].
  intros y Hy. apply H. now right.
Qed.

Lemma filter_all {A} (f : A -> bool) (l : list A) :
  (forall x, In x l -> f x = true) -> filter f l = l.
Proof.
  induction l as [|x l IH]; intro H; [reflexivity|].
  simpl. rewrite H by now left. rewrite IH; [reflexivity|].
  intros y Hy. apply H. now right.
Qed.

Lemma removeOpening_unknown_id (s : BuildingState) (id : string) :
  (forall o, In o (openings s) -> Opening.id o <> id) ->
  Store.removeOpening id s = s.
Proof.
  intro H. unfold Store.removeOpening.
  rewrite filter_all; [apply set_openings_same|].
  intros o Ho. apply H in Ho. apply String.eqb_neq in Ho. now rewrite Ho.
Qed.

Lemma timestamp_inj (a b : N) : Store.timestamp a = Store.timestamp b -> a = b.
Proof.
  unfold Store.timestamp. intro H.
  apply DecimalN.Unsigned.to_uint_inj.
  assert (Hn : forall n, N.to_uint n <> Decimal.Nil).
  { intros [|p]; [discriminate|]. apply DecimalPos.Unsigned.to_uint_nonnil. }
  pose proof (NilZero.usu _ (Hn a)) as Ha.
  pose proof (NilZero.usu _ (Hn b)) as Hb.
  rewrite H in Ha. congruence.
Qed.

(** X1. updateOpening addressed to an id that no opening carries changes
    nothing: the state it returns is the state it was given. *)
Theorem updateOpening_unknown_id (s : BuildingState) (id : string)
    (updates : Opening.partial) :
  (forall o, In o (openings s) -> Opening.id o <> id) ->
  Store.updateOpening id updates s = s.
Proof.
  intro H. unfold Store.updateOpening.
  rewrite map_unchanged; [apply set_openings_same|].
  intros o Ho. apply H in Ho. apply String.eqb_neq in Ho. now rewrite Ho.
Qed.

Lemma updateOpening_unknown_id_witness : updatedElsewhere = northWindow.
Proof.
  apply updateOpening_unknown_id.
  intros o [<-|[]]. discriminate.
Defined.

(** X2. removeOpening deletes every opening that carries the id and keeps
    all the others; removing again changes nothing; the ui is left as it
    is, so when the removed id was the selected one it stays selected
    although no opening carries it any more. *)
Theorem removeOpening_removes_all (s : BuildingState) (id : string) :
  let s' := Store.removeOpening id s in
  (forall o, In o (openings s') <-> In o (openings s) /\ Opening.id o <> id)
  /\ Store.removeOpening id s' = s'
  /\ ui s' = ui s
  /\ (UI.selectedOpeningId (ui s) = Some id ->
      UI.selectedOpeningId (ui s') = Some id
      /\ forall o, In o (openings s') ->
           DraggableDoor.isSelected o (ui s') = false).
Proof.
  intro s'.
  assert (I : forall o, In o (openings s')
                        <-> In o (openings s) /\ Opening.id o <> id).
  { intro o. unfold s', Store.removeOpening. simpl.
    rewrite filter_In, negb_true_iff, String.eqb_neq. reflexivity. }
  split; [exact I|]. split.
  - apply removeOpening_unknown_id. intros o Ho. now apply I in Ho.
  - split; [reflexivity|]. intro Hsel. split; [exact Hsel|].
    intros o Ho. apply I in Ho. destruct Ho as [_ Hid].
    unfold DraggableDoor.isSelected.
    change (ui s') with (ui s). rewrite Hsel.
    apply String.eqb_neq. congruence.
Qed.

Lemma removeOpening_removes_all_witness :
  openings selectedThenRemoved = []
  /\ UI.selectedOpeningId (ui selectedThenRemoved) = Some "opening-0"%string.
Proof.
  split; [reflexivity|].
  exact (proj1 (proj2 (proj2 (proj2
           (removeOpening_removes_all
              (Store.setSelectedOpeningId (Some "opening-0"%string)
                 northWindow) "opening-0"))) eq_refl)).
Defined.

(** X3. addOpening appends one opening whose id is [opening-] followed by
    the time in decimal.  Removing that id afterwards removes the new
    opening together with every older opening of the same id; when the id
    was fresh this gives back the state before the addition.  Two openings
    added in a row have the same id exactly when they were added at the
    same time. *)
Theorem addOpening_removeOpening (s : BuildingState) (opening : Opening.t)
    (now : N) :
  let id := ("opening-" ++ Store.timestamp now)%string in
  (exists o,
     openings (Store.addOpening opening now s) = openings s ++ [o]
     /\ Opening.id o = id)
  /\ Store.removeOpening id (Store.addOpening opening now s)
     = Store.removeOpening id s
  /\ ((forall o, In o (openings s) -> Opening.id o <> id) ->
      Store.removeOpening id (Store.addOpening opening now s) = s)
  /\ (forall opening' now',
        exists o o',
          openings (Store.addOpening opening' now'
                      (Store.addOpening opening now s))
          = openings s ++ [o; o']
          /\ (Opening.id o = Opening.id o' <-> now = now')).
Proof.
  intro id.
  assert (E : Store.removeOpening id (Store.addOpening opening now s)
              = Store.removeOpening id s).
  { unfold Store.removeOpening, Store.addOpening. simpl.
    rewrite filter_app. simpl. fold id. rewrite String.eqb_refl. simpl.
    now rewrite app_nil_r. }
  split; [eexists; split; reflexivity|].
  split; [exact E|]. split.
  - intro H. rewrite E. now apply removeOpening_unknown_id.
  - intros opening' now'. do 2 eexists. split.
    + unfold Store.addOpening. simpl. rewrite <- app_assoc. reflexivity.
    + simpl. split.
      * intro H. apply timestamp_inj. now injection H.
      * now intros ->.
Qed.

Lemma addOpening_removeOpening_witness :
  Store.removeOpening "opening-0" northWindow = Store.initialState.
Proof.
  refine (proj1 (proj2 (proj2
            (addOpening_removeOpening Store.initialState
               (Opening.mk EmptyString DoorType.window_slider
                  OpeningWall.north (30 / 2 - 3 / 2) 3 2 4) 0%N))) _).
  intros o [].
Defined.

(** ** The life of a drag *)

Module GestureFacts.

Import DraggableDoor Drag Gesture.

Lemma moved_ui (s : BuildingState) (id : string) (s1 : BuildingState)
    (l l1 : local) :
  openings s1 = openings s -> dimensions s1 = dimensions s ->
  roof s1 = roof s -> colors s1 = colors s -> walls s1 = walls s ->
  leanToConfigs s1 = leanToConfigs s -> leanTos s1 = leanTos s ->
  environment s1 = environment s ->
  moved s id (s1, l1).
Proof.
  intros Ho Hd Hr Hc Hw Hl Ht He.
  split; simpl; try assumption; try (now rewrite Ho).
  intros j oj H. exists oj. rewrite Ho. repeat split; auto.
Qed.

Lemma deliver_move_moved (size : viewport) (s : BuildingState) (k : nat)
    (o : Opening.t) (e : pointerEvent) (st : BuildingState * local) :
  nth_error (openings s) k = Some o ->
  moved s (Opening.id o) st ->
  moved s (Opening.id o) (deliver size k (onPointerMove e) st)
  /\ ui (fst (deliver size k (onPointerMove e) st)) = ui (fst st)
  /\ snd (deliver size k (onPointerMove e) st) = snd st.
Proof.
  intros Hk M. destruct st as [s1 l1].
  destruct (moved_nth _ _ _ M k o Hk) as [ok [Hok [[Hid _] _]]].
  simpl fst in Hok. unfold deliver. simpl fst. rewrite Hok.
  unfold handlePointerMove.
  destruct (isDragging l1); [|split; [exact M | split; reflexivity]].
  destruct (dragStartRef l1) as [start|];
    [|split; [exact M | split; reflexivity]].
  cbv zeta. split; [|split; reflexivity].
  destruct M as [Md Mr Mc Mw Ml Mt Me Mlen Mn]. simpl in *.
  split; simpl; try assumption.
  - unfold Store.updateOpening. simpl. now rewrite length_map.
  - intros j oj Hj. destruct (Mn j oj Hj) as [oj' [Hj' [Hs Hne]]].
    rewrite nth_error_map, Hj'. simpl.
    destruct Hs as [Sid [Sty [Swa [Swi She]]]].
    rewrite Sid, Hid.
    destruct (String.eqb_spec (Opening.id oj) (Opening.id o)) as [E|E].
    + eexists. split; [reflexivity|]. split.
      * unfold same_opening. simpl. auto.
      * intro C. contradiction.
    + exists oj'. split; [reflexivity|]. split.
      * unfold same_opening. auto.
      * exact Hne.
Qed.

Lemma deliver_moves_moved (size : viewport) (s : BuildingState) (k : nat)
    (o : Opening.t) (es : list pointerEvent) :
  nth_error (openings s) k = Some o ->
  forall st,
    moved s (Opening.id o) st ->
    moved s (Opening.id o) (deliverAll size k (List.map onPointerMove es) st)
    /\ ui (fst (deliverAll size k (List.map onPointerMove es) st))
       = ui (fst st)
    /\ snd (deliverAll size k (List.map onPointerMove es) st) = snd st.
Proof.
  intro Hk. induction es as [|e es IH]; intros st M.
  - split; [exact M | split; reflexivity].
  - destruct (deliver_move_moved size s k o e st Hk M) as [M1 [U1 L1]].
    destruct (IH _ M1) as [M2 [U2 L2]].
    change (deliverAll size k (List.map onPointerMove (e :: es)) st)
      with (deliverAll size k (List.map onPointerMove es)
              (deliver size k (onPointerMove e) st)).
    split; [exact M2|].
    split; [rewrite U2; exact U1 | rewrite L2; exact L1].
Qed.

(* A pointer-move delivered to a component that is not dragging. *)
Lemma idle_move (size : viewport) (k : nat) (e : pointerEvent)
    (st : BuildingState * local) :
  isDragging (snd st) = false ->
  deliver size k (onPointerMove e) st = st.
Proof.
  intro H. destruct st as [s l]. simpl in H. unfold deliver.
  destruct (nth_error (openings (fst (s, l))) k); [|reflexivity].
  unfold handlePointerMove. now rewrite H.
Qed.

Lemma idle_moves (size : viewport) (k : nat) (es : list pointerEvent)
    (st : BuildingState * local) :
  isDragging (snd st) = false ->
  deliverAll size k (List.map onPointerMove es) st = st.
Proof.
  intro H. induction es as [|e es IH]; [reflexivity|].
  simpl. unfold deliverAll in *. rewrite idle_move by exact H. exact IH.
Qed.

End GestureFacts.

(** X4. The life of a drag of an opening of the store.  From pointer-down
    on, through any pointer-moves, the store says that a door is dragged,
    the orbit controls of the camera are disabled, the opening is the
    selected one and no placement is pending.  Pointer-up, and pointer-leave
    alike, ends the drag: the flag is cleared, the orbit controls are
    enabled again, the openings stay where the last move put them and the
    selection is kept; pointer-moves that follow change nothing. *)
Theorem drag_gesture_lifecycle (size : DraggableDoor.viewport)
    (s : BuildingState) (k : nat) (o : Opening.t)
    (e0 e1 : DraggableDoor.pointerEvent)
    (es : list DraggableDoor.pointerEvent) (l : DraggableDoor.local)
    (release : DraggableDoor.pointer) :
  nth_error (openings s) k = Some o ->
  release = DraggableDoor.onPointerUp e1
  \/ release = DraggableDoor.onPointerLeave e1 ->
  let during :=
    DraggableDoor.deliverAll size k
      (DraggableDoor.onPointerDown e0
       :: List.map DraggableDoor.onPointerMove es) (s, l) in
  let after := DraggableDoor.deliver size k release during in
  (UI.isDraggingDoor (ui (fst during)) = true
   /\ CameraController.enabled (CameraController.render (fst during)) = false
   /\ UI.selectedOpeningId (ui (fst during)) = Some (Opening.id o)
   /\ UI.placementMode (ui (fst during)) = None
   /\ DraggableDoor.isDragging (snd during) = true)
  /\ (UI.isDraggingDoor (ui (fst after)) = false
      /\ CameraController.enabled (CameraController.render (fst after)) = true
      /\ UI.selectedOpeningId (ui (fst after)) = Some (Opening.id o)
      /\ openings (fst after) = openings (fst during)
      /\ snd after
         = DraggableDoor.mkLocal false (DraggableDoor.isHovered l) None)
  /\ (forall es',
        DraggableDoor.deliverAll size k
          (List.map DraggableDoor.onPointerMove es') after = after).
Proof.
  intros Hk Hrel during after.
  set (down := DraggableDoor.deliver size k (DraggableDoor.onPointerDown e0)
                 (s, l)).
  assert (Hdown : down
            = (Store.setSelectedOpeningId (Some (Opening.id o))
                 (Store.setIsDraggingDoor true s),
               DraggableDoor.mkLocal true (DraggableDoor.isHovered l)
                 (Some (DraggableDoor.mkDragStart (Opening.position o)
                          (Opening.bottomOffset o)
                          (DraggableDoor.eventX e0)
                          (DraggableDoor.eventY e0))))).
  { unfold down, DraggableDoor.deliver. simpl fst. now rewrite Hk. }
  assert (M0 : Gesture.moved s (Opening.id o) down).
  { rewrite Hdown. now apply GestureFacts.moved_ui. }
  destruct (GestureFacts.deliver_moves_moved size s k o es Hk down M0)
    as [M [U L]].
  change (DraggableDoor.deliverAll size k
            (List.map DraggableDoor.onPointerMove es) down)
    with during in *.
  rewrite Hdown in U, L. simpl in U, L.
  destruct (Gesture.moved_nth _ _ _ M k o Hk) as [ok [Hok _]].
  assert (A : after
              = (Store.setIsDraggingDoor false (fst during),
                 DraggableDoor.mkLocal false (DraggableDoor.isHovered l)
                   None)).
  { unfold after, DraggableDoor.deliver. rewrite Hok.
    unfold DraggableDoor.handlePointerUp.
    destruct during as [sd ld]. simpl in L. rewrite L.
    destruct Hrel as [-> | ->]; reflexivity. }
  split; [|split].
  - unfold CameraController.render. simpl. rewrite U, L. simpl.
    repeat split.
  - rewrite A. unfold CameraController.render. simpl. rewrite U. simpl.
    repeat split.
  - intro es'. apply GestureFacts.idle_moves. now rewrite A.
Qed.

Lemma drag_gesture_lifecycle_witness :
  let during :=
    DraggableDoor.deliverAll viewport800 0
      (DraggableDoor.onPointerDown (pointerAt 100 100)
       :: List.map DraggableDoor.onPointerMove [pointerAt 150 100])
      (doorAndWindow, DraggableDoor.initialLocal) in
  CameraController.enabled (CameraController.render (fst during)) = false
  /\ CameraController.enabled
       (CameraController.render
          (fst (DraggableDoor.deliver viewport800 0
                  (DraggableDoor.onPointerLeave (pointerAt 900 100)) during)))
     = true.
Proof.
  pose proof (drag_gesture_lifecycle viewport800 doorAndWindow 0 southDoor
                (pointerAt 100 100) (pointerAt 900 100) [pointerAt 150 100]
                DraggableDoor.initialLocal
                (DraggableDoor.onPointerLeave (pointerAt 900 100))
                eq_refl (or_intror eq_refl)) as H.
  cbv zeta in H. destruct H as [[_ [H1 _]] [[_ [H2 _]] _]].
  split; [exact H1 | exact H2].
Defined.

(** X5. What a drag never touches.  Pointer-down and any pointer-moves on
    an opening keep the number and the order of the openings and leave
    every opening of another id exactly as it was; of the openings they
    move, id, type, wall, width and height are kept; and the dimensions,
    the roof, the colors, the walls, the lean-to configurations, the legacy
    lean-tos and the environment are unchanged. *)
Theorem drag_touches_one_id (size : DraggableDoor.viewport)
    (s : BuildingState) (k : nat) (o : Opening.t)
    (e0 : DraggableDoor.pointerEvent)
    (es : list DraggableDoor.pointerEvent) (l : DraggableDoor.local) :
  nth_error (openings s) k = Some o ->
  let s' :=
    fst (DraggableDoor.deliverAll size k
           (DraggableDoor.onPointerDown e0
            :: List.map DraggableDoor.onPointerMove es) (s, l)) in
  List.length (openings s') = List.length (openings s)
  /\ (forall j oj,
        nth_error (openings s) j = Some oj ->
        exists oj',
          nth_error (openings s') j = Some oj'
          /\ Drag.same_opening oj oj'
          /\ (Opening.id oj <> Opening.id o -> oj' = oj))
  /\ dimensions s' = dimensions s
  /\ roof s' = roof s
  /\ colors s' = colors s
  /\ walls s' = walls s
  /\ leanToConfigs s' = leanToConfigs s
  /\ leanTos s' = leanTos s
  /\ environment s' = environment s.
Proof.
  intros Hk s'.
  set (down := DraggableDoor.deliver size k (DraggableDoor.onPointerDown e0)
                 (s, l)).
  assert (M0 : Gesture.moved s (Opening.id o) down).
  { unfold down, DraggableDoor.deliver. simpl fst. rewrite Hk.
    now apply GestureFacts.moved_ui. }
  destruct (GestureFacts.deliver_moves_moved size s k o es Hk down M0)
    as [[Md Mr Mc Mw Ml Mt Me Mlen Mn] _].
  repeat split; assumption.
Qed.

Lemma drag_touches_one_id_witness :
  nth_error
    (openings
       (fst (DraggableDoor.deliverAll viewport800 0
               (DraggableDoor.onPointerDown (pointerAt 100 100)
                :: List.map DraggableDoor.onPointerMove [pointerAt 150 100])
               (doorAndWindow, DraggableDoor.initialLocal)))) 1
  = Some eastWindow.
Proof.
  destruct (proj1 (proj2
              (drag_touches_one_id viewport800 doorAndWindow 0 southDoor
                 (pointerAt 100 100) [pointerAt 150 100]
                 DraggableDoor.initialLocal eq_refl)) 1%nat eastWindow eq_refl)
    as [oj' [H [_ E]]].
  rewrite H. f_equal. apply E. discriminate.
Defined.

(** ** Where an opening is drawn *)

(** X6. Where an opening is drawn.  On one of the four walls the centre
    of an opening along its wall is -wallLength/2 + position + width/2, so
    that it covers [c - width/2, c + width/2] for that centre c; this
    interval lies within the extent [-wallLength/2, wallLength/2] of the
    wall exactly when the position lies within [0, wallLength - width].
    The opening is drawn half a foot outside the line of its wall, with
    its lower edge at bottomOffset.  An opening on a lean-to wall is drawn
    at the origin. *)
Theorem door_within_wall (o : Opening.t) (bw bl : number) :
  match Opening.wall o with
  | OpeningWall.south | OpeningWall.north
  | OpeningWall.east | OpeningWall.west =>
      let L := DraggableDoor.wallLength o bw bl in
      let c := alongWall o bw bl in
      c = - L / 2 + Opening.position o + Opening.width o / 2
      /\ (0 <= Opening.position o <= L - Opening.width o
          <-> - L / 2 <= c - Opening.width o / 2
              /\ c + Opening.width o / 2 <= L / 2)
      /\ (let '(x, y, z) := DraggableDoor.doorPosition o bw bl in
          y - Opening.height o / 2 = Opening.bottomOffset o
          /\ match Opening.wall o with
             | OpeningWall.south => z = bl / 2 + 0.5
             | OpeningWall.north => z = - bl / 2 - 0.5
             | OpeningWall.east => x = bw / 2 + 0.5
             | _ => x = - bw / 2 - 0.5
             end)
  | _ => DraggableDoor.doorPosition o bw bl = (0, 0, 0)
  end.
Proof.
  unfold DraggableDoor.wallLength, alongWall, DraggableDoor.doorPosition,
    DraggableDoor.getWallLength.
  destruct (Opening.wall o); cbv zeta; try reflexivity;
    (split; [lra|]); (split; [|split; lra]);
    split; intros [H1 H2]; split; lra.
Qed.

Lemma door_within_wall_witness :
  alongWall eastWindow 30 40 = 0
  /\ - 40 / 2 <= alongWall eastWindow 30 40 - 3 / 2
  /\ alongWall eastWindow 30 40 + 3 / 2 <= 40 / 2.
Proof.
  pose proof (door_within_wall eastWindow 30 40) as W.
  simpl in W. destruct W as [E [[R _] _]].
  split; [rewrite E; evaluate; lra|].
  apply R. evaluate. lra.
Defined.

(** ** The doors and windows panel *)

Lemma isWindow_defaults (d : DoorType.t) :
  DoorType.startsWith "window" d = snd (DoorsWindowsPanel.defaults d).
Proof. destruct d; reflexivity. Qed.

(** X7. Quick-add appends one opening of the chosen type on the chosen
    wall, with the default size of its type and centred on the wall: its
    position is wallLength/2 - width/2.  The position lies within
    [0, max(0, wallLength - width)], the range of the position slider and
    of the drag alike, exactly when the default width is at most the wall length, which holds
    for every type on a wall of 14 ft or more.  The types that are given the
    bottom offset 4 are exactly those that the scene treats as windows, the
    others get 0, and either offset lies within the vertical range
    [0, 14 - height] of a drag.  The ui is left as it is. *)
Theorem handleQuickAdd_centred (d : DoorType.t) (wall : OpeningWall.t)
    (now : N) (s : BuildingState) :
  let s' := DoorsWindowsPanel.handleQuickAdd d wall now s in
  let wallLength := DoorsWindowsPanel.getWallLength s wall in
  exists o,
    openings s' = openings s ++ [o]
    /\ Opening.id o = ("opening-" ++ Store.timestamp now)%string
    /\ Opening.type o = d
    /\ Opening.wall o = wall
    /\ (Opening.width o, Opening.height o)
       = fst (DoorsWindowsPanel.defaults d)
    /\ Opening.position o = wallLength / 2 - Opening.width o / 2
    /\ DoorsWindowsPanel.maxPosition s o
       = DraggableDoor.maxPosition o (Building.width s') (Building.length s')
    /\ (0 <= Opening.position o <= DoorsWindowsPanel.maxPosition s o
        <-> Opening.width o <= wallLength)
    /\ (14 <= wallLength ->
        0 <= Opening.position o <= wallLength - Opening.width o)
    /\ Opening.bottomOffset o
       = (if DraggableDoor.isWindow o then 4 else 0)
    /\ 0 <= Opening.bottomOffset o <= 14 - Opening.height o
    /\ ui s' = ui s.
Proof.
  intros s' wallLength.
  assert (G : DraggableDoor.getWallLength (Dimensions.width (dimensions s))
                (Dimensions.length (dimensions s)) wall = wallLength)
    by (destruct wall; reflexivity).
  unfold s', DoorsWindowsPanel.handleQuickAdd.
  pose proof (isWindow_defaults d) as W.
  destruct (DoorsWindowsPanel.defaults d) as [[w h] win] eqn:D.
  rewrite G. unfold Store.addOpening. simpl openings.
  eexists. split; [reflexivity|]. simpl.
  split; [reflexivity|]. split; [reflexivity|]. split; [reflexivity|].
  split; [reflexivity|]. split; [reflexivity|].
  split.
  { unfold DoorsWindowsPanel.maxPosition, DraggableDoor.maxPosition,
      DraggableDoor.wallLength. destruct wall; reflexivity. }
  unfold DoorsWindowsPanel.maxPosition, DraggableDoor.isWindow. simpl.
  fold wallLength. simpl in W. rewrite W.
  assert (Hw : 0 < w <= 14 /\ 0 <= (if win then 4 else 0) <= 14 - h).
  { destruct d; injection D as <- <- <-; lra. }
  split.
  { unfold Math_max. split.
    - intros [H0 _]. lra.
    - intro H. rewrite Rmax_right by lra. lra. }
  split; [intro; lra|]. split; [reflexivity|].
  split; [exact (proj2 Hw) | reflexivity].
Qed.

(** X8. Moving an opening to another wall from its row of the panel
    recentres it: the opening keeps its id, type, size and bottom offset,
    is on the new wall and at wallLength/2 - width/2 of that wall, so that
    on one of the four walls it is drawn at the middle of the wall; the
    other openings, of other ids, are left as they are. *)
Theorem onWallChange_recentres (s : BuildingState) (k : nat) (o : Opening.t)
    (newWall : OpeningWall.t) :
  nth_error (openings s) k = Some o ->
  let s' := DoorsWindowsPanel.onWallChange o newWall s in
  (exists o',
     nth_error (openings s') k = Some o'
     /\ Opening.id o' = Opening.id o
     /\ Opening.type o' = Opening.type o
     /\ Opening.width o' = Opening.width o
     /\ Opening.height o' = Opening.height o
     /\ Opening.bottomOffset o' = Opening.bottomOffset o
     /\ Opening.wall o' = newWall
     /\ Opening.position o'
        = DoorsWindowsPanel.getWallLength s newWall / 2 - Opening.width o / 2
     /\ (match newWall with
         | OpeningWall.south | OpeningWall.north
         | OpeningWall.east | OpeningWall.west =>
             alongWall o' (Building.width s') (Building.length s') = 0
         | _ => True
         end))
  /\ (forall j oj,
        nth_error (openings s) j = Some oj ->
        Opening.id oj <> Opening.id o ->
        nth_error (openings s') j = Some oj).
Proof.
  intros Hk s'. split.
  - eexists. split.
    + unfold s', DoorsWindowsPanel.onWallChange, Store.updateOpening.
      simpl. rewrite nth_error_map, Hk. simpl.
      rewrite String.eqb_refl. reflexivity.
    + simpl. do 7 (split; [reflexivity|]).
      unfold alongWall, DraggableDoor.doorPosition,
        DoorsWindowsPanel.getWallLength.
      destruct newWall; simpl; trivial; unfold Building.width,
        Building.length; simpl; lra.
  - intros j oj Hj Hne.
    unfold s', DoorsWindowsPanel.onWallChange, Store.updateOpening.
    simpl. rewrite nth_error_map, Hj. simpl.
    apply String.eqb_neq in Hne. now rewrite Hne.
Qed.

Lemma onWallChange_recentres_witness :
  nth_error (openings movedEast) 0
  = Some (Opening.mk "opening-0" DoorType.walk_single OpeningWall.east
            (40 / 2 - 3 / 2) 3 6.67 0)
  /\ nth_error (openings movedEast) 1 = Some eastWindow.
Proof.
  pose proof (onWallChange_recentres doorAndWindow 0 southDoor
                OpeningWall.east eq_refl) as [_ H].
  split; [reflexivity|].
  apply (H 1%nat eastWindow eq_refl). discriminate.
Defined.

(** ** The view controls of the sidebar *)

(** X9. The visibility button steps through the four modes in the order
    full, hide-walls, hide-roof, frame-only and back to full: a press sets
    the mode that follows the current one and changes nothing else, the
    label of the button names the mode that the next press selects, the
    button is highlighted exactly when the walls are hidden, and four
    presses give back the state they started from. *)
Theorem cycleVisibility_cycle (s : BuildingState) :
  let next :=
    match UI.visibilityMode (ui s) with
    | VisibilityMode.full => VisibilityMode.hide_walls
    | VisibilityMode.hide_walls => VisibilityMode.hide_roof
    | VisibilityMode.hide_roof => VisibilityMode.frame_only
    | VisibilityMode.frame_only => VisibilityMode.full
    end in
  Sidebar.cycleVisibility s = Store.setVisibilityMode next s
  /\ modeOfLabel (Sidebar.getVisibilityLabel (ui s)) = Some next
  /\ Sidebar.visibilityHighlighted (ui s) = negb (Building.showWalls s)
  /\ Sidebar.cycleVisibility
       (Sidebar.cycleVisibility
          (Sidebar.cycleVisibility (Sidebar.cycleVisibility s))) = s.
Proof.
  destruct s as [d r c w lc lt o e [p v m pm sel dr]].
  destruct m; repeat split.
Qed.

Lemma NoDup_filter_eqb (p : string) (l : list string) :
  NoDup l -> (List.length (filter (String.eqb p) l) <= 1)%nat.
Proof.
  induction 1 as [|x l Hx Hl IH]; simpl; [lia|].
  destruct (String.eqb_spec p x) as [->|Hne]; [|exact IH].
  simpl. rewrite (proj2 (List.length_zero_iff_nil _)); [lia|].
  destruct (filter (String.eqb x) l) as [|y l'] eqn:F; [reflexivity|].
  exfalso. apply Hx.
  assert (In y (filter (String.eqb x) l)) as Hy by (rewrite F; now left).
  apply filter_In in Hy. destruct Hy as [Hy E].
  apply String.eqb_eq in E. now subst.
Qed.

(** X10. The accordion shows at most one of its panels expanded.  Toggling
    a panel that is collapsed expands it alone, which collapses the panel
    that was expanded; toggling the expanded panel collapses it, so that
    none is expanded. *)
Theorem accordion_single_panel (s : BuildingState) (id : string) :
  In id Sidebar.panels ->
  let s' := Sidebar.onToggle id s in
  (List.length (filter (Sidebar.isExpanded (ui s)) Sidebar.panels) <= 1)%nat
  /\ filter (Sidebar.isExpanded (ui s')) Sidebar.panels
     = (if Sidebar.isExpanded (ui s) id then [] else [id]).
Proof.
  intros Hid s'. split.
  - unfold Sidebar.isExpanded.
    destruct (UI.expandedPanel (ui s)) as [p|]; [|simpl; lia].
    apply (NoDup_filter_eqb p).
    repeat constructor; simpl; intuition discriminate.
  - unfold s', Sidebar.onToggle.
    destruct (Sidebar.isExpanded (ui s) id); [reflexivity|].
    simpl in Hid.
    repeat (destruct Hid as [<-|Hid]; [reflexivity|]).
    contradiction.
Qed.

Lemma accordion_single_panel_witness :
  filter (Sidebar.isExpanded (ui (Sidebar.onToggle "roof" Store.initialState)))
    Sidebar.panels = ["roof"%string]
  /\ filter
       (Sidebar.isExpanded
          (ui (Sidebar.onToggle "dimensions" Store.initialState)))
       Sidebar.panels = [].
Proof.
  split.
  - apply (accordion_single_panel Store.initialState "roof").
    simpl. tauto.
  - apply (accordion_single_panel Store.initialState "dimensions").
    simpl. tauto.
Defined.

(** ** The camera *)

Lemma distance_is (px py pz qx qy qz d : number) :
  0 <= d ->
  (px - qx) ^ 2 + (py - qy) ^ 2 + (pz - qz) ^ 2 = d * d ->
  distance (px, py, pz) (qx, qy, qz) = d.
Proof.
  intros Hd E. unfold distance. rewrite E. now apply sqrt_square.
Qed.

(** X11. The camera placement agrees with the limits of the orbit controls.
    In either view mode the effect puts the camera at a distance from the
    target of the controls that lies within [minDistance, maxDistance]: 10
    within [1, 50] inside, 90 within [20, 200] outside.  Inside, the camera
    looks level, at 0.6 of the eave height, and for a building of positive
    width, length and eave height it stands strictly within the building;
    pressing the INSIDE button of the sidebar in the exterior view brings
    it there. *)
Theorem camera_within_orbit_limits (s : BuildingState) :
  let controls := CameraController.render s in
  let placed := CameraController.effect true s in
  (exists t,
     CameraController.controls_target placed = Some t
     /\ distance (CameraController.camera_position placed) t
        = (match UI.viewMode (ui s) with
           | ViewMode.interior => 10
           | ViewMode.exterior => 90
           end)
     /\ CameraController.minDistance controls
        <= distance (CameraController.camera_position placed) t
        <= CameraController.maxDistance controls)
  /\ (0 < Building.width s -> 0 < Building.length s ->
      0 < Building.eaveHeight s ->
      (UI.viewMode (ui s) = ViewMode.interior ->
       insideBuilding s (CameraController.camera_position placed))
      /\ (UI.viewMode (ui s) = ViewMode.exterior ->
          insideBuilding s
            (CameraController.camera_position
               (CameraController.effect true (Sidebar.onViewModeClick s))))).
Proof.
  intros controls placed. split.
  - unfold placed, controls, CameraController.effect, CameraController.render.
    destruct (UI.viewMode (ui s));
      cbn [CameraController.camera_position CameraController.controls_target
           CameraController.minDistance CameraController.maxDistance].
    + eexists. split; [reflexivity|].
      match goal with
      | |- context [distance ?p ?q] => set (d := distance p q)
      end.
      assert (D : d = 90) by (apply distance_is; lra).
      rewrite D. repeat split; lra.
    + eexists. split; [reflexivity|].
      match goal with
      | |- context [distance ?p ?q] => set (d := distance p q)
      end.
      assert (D : d = 10) by (apply distance_is; lra).
      rewrite D. repeat split; lra.
  - intros Hw Hl Hh. unfold Building.width, Building.length,
      Building.eaveHeight in *.
    unfold placed, CameraController.effect, Sidebar.onViewModeClick,
      insideBuilding, Building.width, Building.length, Building.eaveHeight.
    split; intros ->; simpl; repeat split; lra.
Qed.

(** ** What the building is derived from *)

(** X12. The building that is rendered is a function of the dimensions,
    the roof, the colors, the walls, the four lean-to configurations, the
    openings, the visibility mode and the selected opening only.  The
    legacy lean-to records, the environment, the expanded panel, the view
    mode, the pending placement and the drag flag of the store have no
    effect on it: adding, updating or removing a legacy lean-to draws
    nothing. *)
Theorem render_reads (s s' : BuildingState)
    (doorLocal : string -> DraggableDoor.local) :
  dimensions s' = dimensions s ->
  roof s' = roof s ->
  colors s' = colors s ->
  walls s' = walls s ->
  leanToConfigs s' = leanToConfigs s ->
  openings s' = openings s ->
  UI.visibilityMode (ui s') = UI.visibilityMode (ui s) ->
  UI.selectedOpeningId (ui s') = UI.selectedOpeningId (ui s) ->
  Building.render s' doorLocal = Building.render s doorLocal.
Proof.
  destruct s as [d r c w lc lt o e [p v m pm sel dr]].
  destruct s' as [d' r' c' w' lc' lt' o' e' [p' v' m' pm' sel' dr']].
  simpl. intros -> -> -> -> -> -> -> ->. reflexivity.
Qed.

Lemma render_reads_witness :
  Building.render legacyLeanToAdded noDoors
  = Building.render Store.initialState noDoors.
Proof.
  apply render_reads; reflexivity.
Defined.

(** X13. The lean-to of each side is configured on its own.
    setLeanToConfig merges the patch into the configuration of the given
    side: the fields that the patch names take its values and the others
    keep theirs.  The configurations of the three other sides are left as
    they are, and so are the element trees of their lean-tos. *)
Theorem setLeanToConfig_one_side (s : BuildingState) (side side' : WallSide.t)
    (config : LeanToConfig.partial) :
  side' <> side ->
  let s' := Store.setLeanToConfig side config s in
  let old := PerSide.get side (leanToConfigs s) in
  let new := PerSide.get side (leanToConfigs s') in
  LeanToConfig.enabled new
  = match LeanToConfig.p_enabled config with
    | Some v => v
    | None => LeanToConfig.enabled old
    end
  /\ LeanToConfig.drop new
     = match LeanToConfig.p_drop config with
       | Some v => v
       | None => LeanToConfig.drop old
       end
  /\ LeanToConfig.cutL new
     = match LeanToConfig.p_cutL config with
       | Some v => v
       | None => LeanToConfig.cutL old
       end
  /\ LeanToConfig.cutR new
     = match LeanToConfig.p_cutR config with
       | Some v => v
       | None => LeanToConfig.cutR old
       end
  /\ LeanToConfig.depth new
     = match LeanToConfig.p_depth config with
       | Some v => v
       | None => LeanToConfig.depth old
       end
  /\ LeanToConfig.roofPitch new
     = match LeanToConfig.p_roofPitch config with
       | Some v => v
       | None => LeanToConfig.roofPitch old
       end
  /\ LeanToConfig.walls new
     = match LeanToConfig.p_walls config with
       | Some v => v
       | None => LeanToConfig.walls old
       end
  /\ PerSide.get side' (leanToConfigs s')
     = PerSide.get side' (leanToConfigs s)
  /\ Building.LeanTo s' side' = Building.LeanTo s side'.
Proof.
  intros Hne s' old new.
  destruct side, side'; try contradiction; repeat split; reflexivity.
Qed.

Lemma setLeanToConfig_one_side_witness :
  LeanToConfig.enabled
    (PerSide.get WallSide.south (leanToConfigs southLeanToEnabled)) = true
  /\ LeanToConfig.depth
       (PerSide.get WallSide.south (leanToConfigs southLeanToEnabled)) = 12
  /\ Building.LeanTo southLeanToEnabled WallSide.north
     = Building.LeanTo Store.initialState WallSide.north.
Proof.
  assert (H : WallSide.north <> WallSide.south) by discriminate.
  pose proof (setLeanToConfig_one_side Store.initialState WallSide.south
                WallSide.north
                (LeanToConfig.mkPartial (Some true) None None None None None
                   None) H) as T.
  cbv zeta in T.
  destruct T as [T1 [_ [_ [_ [T5 [_ [_ [_ T9]]]]]]]].
  split; [exact T1|]. split; [exact T5 | exact T9].
Defined.

(** ** Counting by structure *)

Lemma role_eqb_member (r r' : role) :
  member_eqb (snd r) (snd r') = false -> role_eqb r r' = false.
Proof. intro H. unfold role_eqb. rewrite H. apply andb_false_r. Qed.

Lemma role_eqb_structure (r r' : role) :
  structure_eqb (fst r) (fst r') = false -> role_eqb r r' = false.
Proof. intro H. unfold role_eqb. now rewrite H. Qed.


(* A list of nodes holds no mesh of the structure. *)
Ltac no_such_structure :=
  open_tree;
  repeat match goal with
  | |- count_in _ [] = 0%nat => reflexivity
  | |- count_in _ (_ ++ _) = 0%nat => apply count0_app
  | |- count_in _ (when _ _) = 0%nat => apply count0_when
  | |- count_in _ (Array_from _ _) = 0%nat =>
      apply count0_Array_from; intro; cbv beta
  | |- count_in _ (List.map _ _) = 0%nat =>
      apply count0_map; intro; cbv beta
  | |- count_in _ (mesh _ _ _ _ _ :: _) = 0%nat =>
      apply count0_mesh; [apply role_eqb_structure; reflexivity|]
  | |- count_in _ (group _ _ _ :: _) = 0%nat => apply count0_group
  end.

Ltac absent_structure_elsewhere :=
  repeat match goal with
  | |- context [count_in ?r ?l] =>
      let E := fresh "E" in
      assert (E : count_in r l = 0%nat)
        by (unfold Building.FloorSlabSection, Building.MainSteelFrames,
              Building.WallGirts, Building.NorthOverhangFrame,
              Building.SouthOverhangFrame, Building.GablePurlins,
              Building.SingleSlopePurlins, Building.AsymmetricalPurlins,
              Building.RidgeBeamSection, Building.PerimeterEaveBeams,
              Building.WallPanels, Building.Wainscots, Building.GableRoof,
              Building.SingleSlopeRoof, Building.AsymmetricalRoof,
              Building.RidgeVents, Building.Cupolas2ft, Building.Cupolas3ft,
              Building.TrimSection, Building.DoorsAndWindows,
              Building.SouthLeanTo, Building.NorthLeanTo,
              Building.WestLeanTo, Building.EastLeanTo;
            no_such_structure);
      rewrite E; clear E
  end.

Lemma leanTo_only_in_LeanTo (s : BuildingState)
    (doorLocal : string -> DraggableDoor.local) (side : WallSide.t)
    (m : member) :
  count_role (LeanToOf side, m) (Building.render s doorLocal)
  = count_in (LeanToOf side, m) (Building.LeanTo s side).
Proof.
  unfold Building.render. rewrite count_role_group.
  unfold Building.children. rewrite !count_in_app.
  destruct side; unfold Building.LeanTo; absent_structure_elsewhere; lia.
Qed.

(** ** Counting, goal directed *)

Lemma cnt_app (r : role) (a b : list node) (x y : nat) :
  count_in r a = x -> count_in r b = y -> count_in r (a ++ b) = (x + y)%nat.
Proof. intros <- <-. apply count_in_app. Qed.

Lemma cnt_when (r : role) (c : bool) (l : list node) (x : nat) :
  count_in r l = x -> count_in r (when c l) = if c then x else 0%nat.
Proof. intros <-. apply count_in_when. Qed.

Lemma cnt_mesh (r r' : role) p q g m (l : list node) (b : bool) (x : nat) :
  role_eqb r r' = b -> count_in r l = x ->
  count_in r (mesh r' p q g m :: l) = ((if b then 1 else 0) + x)%nat.
Proof. intros <- <-. apply count_in_mesh. Qed.

Lemma cnt_group (r : role) p q (cs l : list node) (x y : nat) :
  count_in r cs = x -> count_in r l = y ->
  count_in r (group p q cs :: l) = (x + y)%nat.
Proof. intros <- <-. apply count_in_group. Qed.

Ltac tidy_count :=
  repeat (rewrite ?Nat.mul_0_r, ?Nat.mul_1_r, ?Nat.add_0_r, ?Nat.add_0_l,
            ?if_same).

(* Count the meshes of the role in a list of nodes, top down. *)
Ltac count_down :=
  open_tree;
  repeat match goal with
  | |- count_in _ [] = _ => apply count_in_nil
  | |- count_in _ (_ ++ _) = _ => eapply cnt_app
  | |- count_in _ (when _ _) = _ => eapply cnt_when
  | |- count_in _ (Array_from _ _) = _ =>
      first [ solve [apply count0_Array_from; intro; cbv beta; no_such_mesh]
            | eapply count_in_Array_from; intro; cbv beta ]
  | |- count_in _ (List.map _ _) = _ =>
      first [ solve [apply count0_map; intro; cbv beta; no_such_mesh]
            | eapply count_in_map; intro; cbv beta ]
  | |- count_in _ (mesh _ _ _ _ _ :: _) = _ =>
      eapply cnt_mesh; [cbv; reflexivity|]
  | |- count_in _ (group _ _ _ :: _) = _ => eapply cnt_group
  end.

Ltac counted :=
  repeat match goal with
  | |- context [count_in ?r ?l] =>
      let E := fresh "E" in
      eassert (E : count_in r l = _) by count_down;
      rewrite E; clear E
  end;
  cbn [Nat.add Nat.mul]; tidy_count.

Lemma ToLength_3 : ToLength 3 = 3%nat.
Proof. apply (ToLength_IZR 3). Qed.

Lemma ToLength_max (a : Z) (x : number) :
  (0 <= a)%Z ->
  (Z.to_nat a <= ToLength (Math_max (IZR a) (IZR (Zfloor x))))%nat
  /\ (Z.to_nat a <= ToLength (Math_max (IZR a) (IZR (Zceil x))))%nat.
Proof.
  intro Ha. rewrite !Math_max_IZR, !ToLength_IZR. lia.
Qed.

(** ** What the visibility mode hides *)

Lemma count0_when_false (r : role) (l : list node) :
  count_in r (when false l) = 0%nat.
Proof. reflexivity. Qed.

(* A list of nodes holds no mesh of the role, the parts under the flag of
   [H], which is off, being left out. *)
Ltac hidden_mesh H :=
  open_tree;
  repeat (rewrite ?H; cbn [andb];
          match goal with
          | |- count_in _ [] = 0%nat => reflexivity
          | |- count_in _ (when false _) = 0%nat => reflexivity
          | |- count_in _ (_ ++ _) = 0%nat => apply count0_app
          | |- count_in _ (when _ _) = 0%nat => apply count0_when
          | |- count_in _ (Array_from _ _) = 0%nat =>
              apply count0_Array_from; intro; cbv beta
          | |- count_in _ (List.map _ _) = 0%nat =>
              apply count0_map; intro; cbv beta
          | |- count_in _ (mesh _ _ _ _ _ :: _) = 0%nat =>
              apply count0_mesh;
              [first [ apply role_eqb_member; reflexivity
                     | apply role_eqb_structure; reflexivity ]|]
          | |- count_in _ (group _ _ _ :: _) = 0%nat => apply count0_group
          end).

Ltac open_scene :=
  unfold Building.render; rewrite ?count_role_group;
  unfold Building.children,
    Building.FloorSlabSection, Building.MainSteelFrames,
    Building.WallGirts, Building.NorthOverhangFrame,
    Building.SouthOverhangFrame, Building.GablePurlins,
    Building.SingleSlopePurlins, Building.AsymmetricalPurlins,
    Building.RidgeBeamSection, Building.PerimeterEaveBeams,
    Building.WallPanels, Building.Wainscots, Building.GableRoof,
    Building.SingleSlopeRoof, Building.AsymmetricalRoof,
    Building.RidgeVents, Building.Cupolas2ft, Building.Cupolas3ft,
    Building.TrimSection, Building.DoorsAndWindows,
    Building.SouthLeanTo, Building.NorthLeanTo,
    Building.WestLeanTo, Building.EastLeanTo.

(** X14. In frame-only mode no secondary member is rendered: the scene
    holds no girt and no purlin, of the main building or of any lean-to,
    and no eave beam of a lean-to. *)
Theorem secondary_members_hidden (s : BuildingState)
    (doorLocal : string -> DraggableDoor.local) (r : role) :
  Building.showSecondaryMembers s = false ->
  isSecondaryMember r = true ->
  count_role r (Building.render s doorLocal) = 0%nat.
Proof.
  intros H Hr. destruct r as [st m].
  destruct m; try discriminate; try (destruct st; discriminate).
  - destruct st; try discriminate; open_scene; hidden_mesh H.
  - open_scene; hidden_mesh H.
  - open_scene; hidden_mesh H.
Qed.

Lemma secondary_members_hidden_witness :
  count_role (LeanToOf WallSide.south, Purlin)
    (Building.render frameOnlyWithLeanTo noDoors) = 0%nat
  /\ count_role (MainBuilding, Girt)
       (Building.render frameOnlyWithLeanTo noDoors) = 0%nat.
Proof.
  split; apply secondary_members_hidden; reflexivity.
Defined.

(** X15. In every mode but full the covering of the walls is hidden: the
    scene holds no wall panel, no wainscot, no trim and no part of a door
    or window, on the main building or on any lean-to. *)
Theorem wall_covering_hidden (s : BuildingState)
    (doorLocal : string -> DraggableDoor.local) (st : structure)
    (m : member) :
  Building.showWalls s = false ->
  isWallCovering m = true ->
  count_role (st, m) (Building.render s doorLocal) = 0%nat.
Proof.
  intros H Hm.
  destruct m; try discriminate; open_scene; hidden_mesh H.
Qed.

Lemma wall_covering_hidden_witness :
  count_role (OpeningOf "opening-0", DoorPart)
    (Building.render hideWalls noDoors) = 0%nat
  /\ count_role (MainBuilding, WallPanel WallSide.south)
       (Building.render hideWalls noDoors) = 0%nat.
Proof.
  split; apply wall_covering_hidden; reflexivity.
Defined.

(** X16. In the modes hide-roof and frame-only the covering of the roof is
    hidden: the scene holds no roof panel, no ridge cap, no ridge vent and
    no cupola, on the main building or on any lean-to. *)
Theorem roof_covering_hidden (s : BuildingState)
    (doorLocal : string -> DraggableDoor.local) (st : structure)
    (m : member) :
  Building.showRoof s = false ->
  isRoofCovering m = true ->
  count_role (st, m) (Building.render s doorLocal) = 0%nat.
Proof.
  intros H Hm.
  destruct m; try discriminate; open_scene; hidden_mesh H.
Qed.

Lemma roof_covering_hidden_witness :
  count_role (MainBuilding, RoofPanel) (Building.render hideRoof noDoors)
  = 0%nat
  /\ count_role (LeanToOf WallSide.south, RoofPanel)
       (Building.render hideRoof noDoors) = 0%nat.
Proof.
  split; apply roof_covering_hidden; reflexivity.
Defined.

(** ** The lean-tos *)

Ltac open_leanTo :=
  unfold Building.LeanTo, Building.SouthLeanTo, Building.NorthLeanTo,
    Building.WestLeanTo, Building.EastLeanTo, Building.south_config,
    Building.north_config, Building.west_config, Building.east_config;
  cbv beta zeta.

Ltac count_leanTo :=
  open_leanTo; counted; rewrite ?ToLength_3; simpl PerSide.get.

(** X17. The frame and the roof of a lean-to.  An enabled lean-to has
    three frames, each with one column and one rafter of three plates, in
    every visibility mode; two eave beams and max(3, ceil(depth/3))
    purlins, which are at least three, unless the mode is frame-only; and
    one roof panel when the roof is shown.  A lean-to that is not enabled
    draws nothing at all. *)
Theorem leanTo_frame_and_roof (s : BuildingState)
    (doorLocal : string -> DraggableDoor.local) (side : WallSide.t) :
  let config := PerSide.get side (leanToConfigs s) in
  let scene := Building.render s doorLocal in
  let on (c : bool) (n : nat) :=
    if LeanToConfig.enabled config && c then n else 0%nat in
  count_role (LeanToOf side, Column) scene = on true 9%nat
  /\ count_role (LeanToOf side, Rafter) scene = on true 9%nat
  /\ count_role (LeanToOf side, EaveBeam) scene
     = on (Building.showSecondaryMembers s) 2%nat
  /\ count_role (LeanToOf side, Purlin) scene
     = on (Building.showSecondaryMembers s) (leanToPurlins s side)
  /\ (3 <= leanToPurlins s side)%nat
  /\ count_role (LeanToOf side, RoofPanel) scene
     = on (Building.showRoof s) 1%nat
  /\ (LeanToConfig.enabled config = false ->
      forall m, count_role (LeanToOf side, m) scene = 0%nat).
Proof.
  intros config scene on. unfold scene, on, config, leanToPurlins.
  rewrite !leanTo_only_in_LeanTo.
  split; [|split; [|split; [|split; [|split; [|split]]]]].
  - destruct side; count_leanTo;
      match goal with |- context [LeanToConfig.enabled ?c] =>
        destruct (LeanToConfig.enabled c) end; reflexivity.
  - destruct side; count_leanTo;
      match goal with |- context [LeanToConfig.enabled ?c] =>
        destruct (LeanToConfig.enabled c) end; reflexivity.
  - destruct side; count_leanTo;
      match goal with |- context [LeanToConfig.enabled ?c] =>
        destruct (LeanToConfig.enabled c) end;
      destruct (Building.showSecondaryMembers s); reflexivity.
  - destruct side; count_leanTo;
      match goal with |- context [LeanToConfig.enabled ?c] =>
        destruct (LeanToConfig.enabled c) end;
      destruct (Building.showSecondaryMembers s); reflexivity.
  - unfold Math_ceil. apply (ToLength_max 3). lia.
  - destruct side; count_leanTo;
      match goal with |- context [LeanToConfig.enabled ?c] =>
        destruct (LeanToConfig.enabled c) end;
      destruct (Building.showRoof s); reflexivity.
  - intros Hoff m. rewrite leanTo_only_in_LeanTo.
    destruct side; simpl in Hoff; open_leanTo; rewrite Hoff; reflexivity.
Qed.

Lemma leanTo_frame_and_roof_witness :
  count_role (LeanToOf WallSide.south, Column)
    (Building.render frameOnlyWithLeanTo noDoors) = 9%nat
  /\ count_role (LeanToOf WallSide.south, Purlin)
       (Building.render southLeanToEnabled noDoors) = 4%nat
  /\ count_role (LeanToOf WallSide.north, Column)
       (Building.render southLeanToEnabled noDoors) = 0%nat.
Proof.
  pose proof (leanTo_frame_and_roof frameOnlyWithLeanTo noDoors
                WallSide.south) as F.
  pose proof (leanTo_frame_and_roof southLeanToEnabled noDoors
                WallSide.south) as S.
  pose proof (leanTo_frame_and_roof southLeanToEnabled noDoors
                WallSide.north) as N.
  cbv zeta in F, S, N.
  split; [exact (proj1 F)|]. split.
  - rewrite (proj1 (proj2 (proj2 (proj2 S)))).
    unfold leanToPurlins, Math_ceil.
    rewrite (Zceil_eq 4) by (evaluate; lra).
    rewrite Math_max_IZR, ToLength_IZR. reflexivity.
  - exact (proj2 (proj2 (proj2 (proj2 (proj2 (proj2 N))))) eq_refl Column).
Defined.

Ltac case_leanTo s :=
  match goal with |- context [LeanToConfig.enabled ?c] =>
    destruct (LeanToConfig.enabled c), (LeanToConfig.walls c)
  end;
  destruct (Building.showWalls s); try reflexivity.

(** X18. The six wall variants of a lean-to.  With the walls shown, an
    enabled lean-to has these wall panels: full-length, the front wall;
    fully-enclosed, the front wall and the two side walls; open, none;
    gable-dress, the two triangles under the roof; gable-walls-only, the
    two side walls; 2ft-apron, the apron at the front.  Its wainscot, when
    enabled, is one band under each wall of the full-length,
    fully-enclosed and gable-walls-only variants and none for the others;
    its trim has 3, 7, 0, 2, 6 and 2 pieces for the six variants; its girts,
    unless the mode hides them, are max(2, floor(outerHeight/4)) rows and
    a base girt on the front wall of the full-length and the
    fully-enclosed variants only. *)
Theorem leanTo_wall_variants (s : BuildingState)
    (doorLocal : string -> DraggableDoor.local) (side : WallSide.t) :
  let config := PerSide.get side (leanToConfigs s) in
  let scene := Building.render s doorLocal in
  let shown := LeanToConfig.enabled config && Building.showWalls s in
  wallPanelsOf (LeanToOf side) scene
  = (if shown
     then match LeanToConfig.walls config with
          | LeanToWallType.full_length => 1
          | LeanToWallType.fully_enclosed => 3
          | LeanToWallType.open => 0
          | LeanToWallType.gable_dress => 2
          | LeanToWallType.gable_walls_only => 2
          | LeanToWallType.apron_2ft => 1
          end
     else 0)%nat
  /\ wainscotsOf (LeanToOf side) scene
     = (if shown && Walls.wainscotEnabled (walls s)
        then match LeanToConfig.walls config with
             | LeanToWallType.full_length => 1
             | LeanToWallType.fully_enclosed => 3
             | LeanToWallType.gable_walls_only => 2
             | _ => 0
             end
        else 0)%nat
  /\ count_role (LeanToOf side, Trim) scene
     = (if shown
        then match LeanToConfig.walls config with
             | LeanToWallType.full_length => 3
             | LeanToWallType.fully_enclosed => 7
             | LeanToWallType.open => 0
             | LeanToWallType.gable_dress => 2
             | LeanToWallType.gable_walls_only => 6
             | LeanToWallType.apron_2ft => 2
             end
        else 0)%nat
  /\ count_role (LeanToOf side, Girt) scene
     = (if shown && Building.showSecondaryMembers s
        then match LeanToConfig.walls config with
             | LeanToWallType.full_length | LeanToWallType.fully_enclosed =>
                 girtRows (Building.outerHeight s side) + 1
             | _ => 0
             end
        else 0)%nat.
Proof.
  intros config scene shown.
  unfold scene, shown, config, wallPanelsOf, wainscotsOf, girtRows.
  rewrite !leanTo_only_in_LeanTo.
  split; [|split; [|split]].
  - destruct side; count_leanTo; case_leanTo s.
  - destruct side; count_leanTo; case_leanTo s;
      destruct (Walls.wainscotEnabled (walls s)); reflexivity.
  - destruct side; count_leanTo; case_leanTo s.
  - destruct side; count_leanTo; unfold Building.outerHeight;
      case_leanTo s;
      destruct (Building.showSecondaryMembers s); reflexivity.
Qed.

Lemma leanTo_wall_variants_witness :
  wallPanelsOf (LeanToOf WallSide.west)
    (Building.render westLeanToEnclosed noDoors) = 3%nat
  /\ wainscotsOf (LeanToOf WallSide.west)
       (Building.render westLeanToEnclosed noDoors) = 3%nat
  /\ count_role (LeanToOf WallSide.west, Trim)
       (Building.render westLeanToEnclosed noDoors) = 7%nat.
Proof.
  pose proof (leanTo_wall_variants westLeanToEnclosed noDoors WallSide.west)
    as [P [W [T _]]].
  split; [exact P|]. split; [exact W | exact T].
Defined.

(** ** The roof of the main building *)

Ltac case_style s :=
  unfold Building.isGable, Building.isSingleSlope, Building.isAsymmetrical;
  destruct (Building.roofStyle s); simpl RoofStyle.eqb;
  rewrite ?andb_true_r, ?andb_false_r.

(** X19. The roof of the main building is that of its style alone.  When
    the roof is shown the scene holds two roof panels and one ridge cap
    for the gable and for the asymmetrical style, and one roof panel and no
    ridge cap for the single slope; the ridge beam of the gable and of the
    asymmetrical style is there in every visibility mode. *)
Theorem roof_by_style (s : BuildingState)
    (doorLocal : string -> DraggableDoor.local) :
  let scene := Building.render s doorLocal in
  count_role (MainBuilding, RoofPanel) scene
  = (if Building.showRoof s
     then match Building.roofStyle s with
          | RoofStyle.single_slope => 1
          | _ => 2
          end
     else 0)%nat
  /\ count_role (MainBuilding, RidgeCap) scene
     = (if Building.showRoof s
        then match Building.roofStyle s with
             | RoofStyle.single_slope => 0
             | _ => 1
             end
        else 0)%nat
  /\ count_role (MainBuilding, RidgeBeam) scene
     = (match Building.roofStyle s with
        | RoofStyle.single_slope => 0
        | _ => 1
        end)%nat.
Proof.
  intro scene. unfold scene.
  split; [|split]; open_scene; counted; case_style s;
    try destruct (Building.showRoof s); reflexivity.
Qed.

Lemma ToLength_not_positive (n : number) : gtb n 0 = false -> ToLength n = 0%nat.
Proof.
  unfold gtb, ToLength. destruct (Rlt_dec 0 n) as [H|H]; [discriminate|].
  intros _. pose proof (Zfloor_bound n) as [B _].
  assert (Z : (Zfloor n <= 0)%Z).
  { apply le_IZR. lra. }
  lia.
Qed.

(** X20. Ridge vents and cupolas are drawn on a gable roof only.  With
    the roof shown, a gable roof carries two meshes for each ridge vent and
    three for each cupola of either size, the counts of the store being
    truncated to integers and negative counts giving none; under a single
    slope or an asymmetrical roof none is drawn, whatever the counts. *)
Theorem roof_accessories_gable_only (s : BuildingState)
    (doorLocal : string -> DraggableDoor.local) :
  let scene := Building.render s doorLocal in
  let shown := Building.showRoof s && Building.isGable s in
  count_role (MainBuilding, RidgeVent) scene
  = (if shown then ToLength (Building.ridgeVents s) * 2 else 0)%nat
  /\ count_role (MainBuilding, Cupola) scene
     = (if shown
        then (ToLength (Building.cupola2ft s)
              + ToLength (Building.cupola3ft s)) * 3
        else 0)%nat
  /\ (Building.roofStyle s <> RoofStyle.gable ->
      count_role (MainBuilding, RidgeVent) scene = 0%nat
      /\ count_role (MainBuilding, Cupola) scene = 0%nat).
Proof.
  intros scene shown. unfold scene, shown.
  assert (V : count_role (MainBuilding, RidgeVent)
                (Building.render s doorLocal)
              = (if Building.showRoof s && Building.isGable s
                 then ToLength (Building.ridgeVents s) * 2 else 0)%nat).
  { open_scene; counted.
    destruct (Building.showRoof s), (Building.isGable s),
      (gtb (Building.ridgeVents s) 0) eqn:G; simpl; try reflexivity.
    now rewrite (ToLength_not_positive _ G). }
  assert (C : count_role (MainBuilding, Cupola)
                (Building.render s doorLocal)
              = (if Building.showRoof s && Building.isGable s
                 then (ToLength (Building.cupola2ft s)
                       + ToLength (Building.cupola3ft s)) * 3
                 else 0)%nat).
  { open_scene; counted.
    destruct (Building.showRoof s), (Building.isGable s),
      (gtb (Building.cupola2ft s) 0) eqn:G2,
      (gtb (Building.cupola3ft s) 0) eqn:G3; simpl; try reflexivity;
      rewrite ?(ToLength_not_positive _ G2), ?(ToLength_not_positive _ G3);
      lia. }
  split; [exact V|]. split; [exact C|].
  intro Hs. rewrite V, C.
  assert (G : Building.isGable s = false).
  { unfold Building.isGable. destruct (Building.roofStyle s);
      try reflexivity. contradiction. }
  rewrite G, andb_false_r. split; reflexivity.
Qed.

Lemma roof_accessories_gable_only_witness :
  count_role (MainBuilding, RidgeVent) (Building.render ventedGable noDoors)
  = 4%nat
  /\ count_role (MainBuilding, Cupola) (Building.render ventedGable noDoors)
     = 3%nat
  /\ count_role (MainBuilding, RidgeVent)
       (Building.render ventedSingleSlope noDoors) = 0%nat.
Proof.
  pose proof (roof_accessories_gable_only ventedGable noDoors) as [V [C _]].
  pose proof (roof_accessories_gable_only ventedSingleSlope noDoors)
    as [_ [_ S]].
  split; [|split].
  - rewrite V. change (Building.ridgeVents ventedGable) with (IZR 2).
    rewrite ToLength_IZR. reflexivity.
  - rewrite C. change (Building.cupola2ft ventedGable) with (IZR 1).
    change (Building.cupola3ft ventedGable) with (IZR 0).
    rewrite !ToLength_IZR. reflexivity.
  - apply S. discriminate.
Defined.

(** ** The walls of the main building *)

(** X21. Each wall of the main building has one panel when it is enclosed
    and the walls are shown, and none otherwise, whatever the roof style.
    The panel of the south and of the north wall is drawn with the end wall
    geometry of the roof style, and with no other: the gable polygon under
    a gable roof, the polygon with the offset peak under an asymmetrical
    roof, the sloped quadrilateral under a single slope.  The panels of the
    west and of the east wall are boxes of the eave height, the east one
    raised by the roof rise less 0.15 under a single slope. *)
Theorem wall_panel_per_enclosed_wall (s : BuildingState)
    (doorLocal : string -> DraggableDoor.local) (side : WallSide.t) :
  let scene := Building.render s doorLocal in
  let shown :=
    Building.showWalls s && PerSide.get side (Walls.enclosed (walls s)) in
  let endWall :=
    match Building.roofStyle s with
    | RoofStyle.gable => Building.gableEndWallGeometry s
    | RoofStyle.asymmetrical => Building.asymmetricalEndWallGeometry s
    | RoofStyle.single_slope => Building.singleSlopeEndWallGeometry s
    end in
  let eastWallHeight :=
    match Building.roofStyle s with
    | RoofStyle.single_slope =>
        Building.eaveHeight s + Building.roofRise s - 0.15
    | _ => Building.eaveHeight s
    end in
  count_role (MainBuilding, WallPanel side) scene
  = (if shown then 1 else 0)%nat
  /\ meshesOf (MainBuilding, WallPanel side) scene
     = when shown
         [ mesh (MainBuilding, WallPanel side)
             match side with
             | WallSide.south => (0, 0, Building.length s / 2 + 0.05)
             | WallSide.north => (0, 0, - Building.length s / 2 - 0.05)
             | WallSide.west =>
                 (- Building.width s / 2, Building.eaveHeight s / 2, 0)
             | WallSide.east =>
                 (Building.width s / 2, eastWallHeight / 2, 0)
             end
             origin
             match side with
             | WallSide.south | WallSide.north => endWall
             | WallSide.west =>
                 boxGeometry 0.4 (Building.eaveHeight s) (Building.length s)
             | WallSide.east =>
                 boxGeometry 0.4 eastWallHeight (Building.length s)
             end
             (textured (Building.wallTexture s) 0.4 0.6) ].
Proof.
  intros scene shown endWall eastWallHeight.
  assert (L : meshesOf (MainBuilding, WallPanel side) scene
              = when shown
                  [ mesh (MainBuilding, WallPanel side)
                      match side with
                      | WallSide.south =>
                          (0, 0, Building.length s / 2 + 0.05)
                      | WallSide.north =>
                          (0, 0, - Building.length s / 2 - 0.05)
                      | WallSide.west =>
                          (- Building.width s / 2,
                           Building.eaveHeight s / 2, 0)
                      | WallSide.east =>
                          (Building.width s / 2, eastWallHeight / 2, 0)
                      end
                      origin
                      match side with
                      | WallSide.south | WallSide.north => endWall
                      | WallSide.west =>
                          boxGeometry 0.4 (Building.eaveHeight s)
                            (Building.length s)
                      | WallSide.east =>
                          boxGeometry 0.4 eastWallHeight (Building.length s)
                      end
                      (textured (Building.wallTexture s) 0.4 0.6) ]).
  { subst scene shown endWall eastWallHeight.
    destruct side; open_scene_list; listed; cbn [PerSide.get];
      destruct (Building.showWalls s); try reflexivity;
      cbn [when andb];
      match goal with
      | |- context [PerSide.north (Walls.enclosed ?w)] =>
          destruct (PerSide.north (Walls.enclosed w))
      | |- context [PerSide.south (Walls.enclosed ?w)] =>
          destruct (PerSide.south (Walls.enclosed w))
      | |- context [PerSide.east (Walls.enclosed ?w)] =>
          destruct (PerSide.east (Walls.enclosed w))
      | |- context [PerSide.west (Walls.enclosed ?w)] =>
          destruct (PerSide.west (Walls.enclosed w))
      end;
      unfold Building.isGable, Building.isSingleSlope,
        Building.isAsymmetrical;
      destruct (Building.roofStyle s); reflexivity. }
  split; [|exact L].
  change (count_role (MainBuilding, WallPanel side) scene)
    with (List.length (meshesOf (MainBuilding, WallPanel side) scene)).
  rewrite L. now destruct shown.
Qed.

Lemma girtRows_ge_2 (h : number) : (2 <= girtRows h)%nat.
Proof. unfold girtRows, Math_floor. apply (ToLength_max 2). lia. Qed.



(** ** The overhang frames *)



(** ** The order of the main frames *)

Lemma frameSpacing_above_1 (s : BuildingState) :
  2 < Building.length s ->
  (3 <= ToLength (Building.numFrames s))%nat ->
  1 < Building.frameSpacing s.
Proof.
  intros HL H3. unfold Building.frameSpacing.
  rewrite numFrames_IZR in *. unfold numFramesZ in *.
  rewrite ToLength_IZR in H3.
  pose proof (Zceil_bound (Building.length s / 25)) as [Hc _].
  set (c := Zceil (Building.length s / 25)) in *.
  assert (E : Z.max 2 (c + 1) = (c + 1)%Z) by lia.
  rewrite E, plus_IZR.
  replace (IZR c + 1 - 1) with (IZR c) by lra.
  assert (C2 : 2 <= IZR c) by (apply IZR_le; lia).
  apply (Rmult_lt_reg_r (IZR c)); [lra|].
  unfold Rdiv. rewrite Rmult_assoc, Rinv_l by lra. lra.
Qed.

Lemma frameSpacing_total (s : BuildingState) :
  Building.frameSpacing s * (Building.numFrames s - 1) = Building.length s.
Proof.
  unfold Building.frameSpacing.
  assert (H : 2 <= Building.numFrames s).
  { unfold Building.numFrames. apply Math_max_lower. }
  field. lra.
Qed.

(** X24. The main frames stand in order along the building.  For a
    building longer than 2 ft the z positions of the frames increase
    strictly from the first frame to the last, so that no two frames
    coincide, and every frame stands between the two end frames, which are
    1 ft inside the end walls.  For a building shorter than 2 ft the two
    frames that are left stand in the reverse order, each beyond the
    other. *)
Theorem frames_in_order (s : BuildingState) :
  let n := ToLength (Building.numFrames s) in
  (2 < Building.length s ->
   (forall i, (i + 1 < n)%nat ->
      Building.frameZ s i < Building.frameZ s (i + 1))
   /\ (forall i, (i < n)%nat ->
         - Building.length s / 2 + 1 <= Building.frameZ s i
         <= Building.length s / 2 - 1))
  /\ (Building.length s < 2 ->
      n = 2%nat /\ Building.frameZ s 1 < Building.frameZ s 0).
Proof.
  intro n.
  destruct (numFrames_nat s) as [Hn H2]. fold n in Hn, H2.
  pose proof (frameSpacing_total s) as Ht. rewrite <- Hn in Ht.
  assert (Step : 2 < Building.length s ->
            forall i, (i + 1 < n)%nat ->
              Building.frameZ s i < Building.frameZ s (i + 1)).
  { intros HL i Hi. rewrite !frameZ_cases. fold n.
    assert (Hsp : (3 <= n)%nat -> 1 < Building.frameSpacing s)
      by (intro; now apply frameSpacing_above_1).
    replace (Nat.eqb (i + 1) 0) with false
      by (symmetry; apply Nat.eqb_neq; lia).
    replace (Nat.eqb i (n - 1)) with false
      by (symmetry; apply Nat.eqb_neq; lia).
    destruct (Nat.eqb_spec i 0) as [Hi0|Hi0];
      destruct (Nat.eqb_spec (i + 1) (n - 1)) as [E|E].
    - lra.
    - assert (H3 : (3 <= n)%nat) by lia. apply Hsp in H3.
      rewrite Hi0. simpl INR. lra.
    - assert (H3 : (3 <= n)%nat) by lia. apply Hsp in H3.
      assert (En : INR n = INR i + 2).
      { replace n with (i + 2)%nat by lia. rewrite plus_INR. simpl. lra. }
      rewrite En in Ht. nra.
    - assert (H3 : (3 <= n)%nat) by lia. apply Hsp in H3.
      rewrite plus_INR. simpl INR. nra. }
  split.
  - intro HL. split; [now apply Step|].
    assert (Mono : forall j i, (i + j < n)%nat ->
              Building.frameZ s i <= Building.frameZ s (i + j)).
    { induction j as [|j IH]; intros i Hij.
      - rewrite Nat.add_0_r. lra.
      - replace (i + S j)%nat with ((i + j) + 1)%nat by lia.
        pose proof (IH i ltac:(lia)).
        pose proof (Step HL (i + j)%nat ltac:(lia)). lra. }
    assert (Z0 : Building.frameZ s 0 = - Building.length s / 2 + 1).
    { rewrite frameZ_cases. simpl. lra. }
    assert (Zn : Building.frameZ s (n - 1) = Building.length s / 2 - 1).
    { rewrite frameZ_cases. fold n.
      replace (Nat.eqb (n - 1) 0) with false
        by (symmetry; apply Nat.eqb_neq; lia).
      rewrite Nat.eqb_refl. lra. }
    intros i Hi. split.
    + rewrite <- Z0. apply (Mono i 0%nat). simpl. exact Hi.
    + rewrite <- Zn. replace (n - 1)%nat with (i + (n - 1 - i))%nat by lia.
      apply Mono. lia.
  - intro HL.
    assert (N2 : n = 2%nat).
    { unfold n. rewrite numFrames_IZR, ToLength_IZR. unfold numFramesZ.
      pose proof (Zceil_bound (Building.length s / 25)) as [Hc _].
      assert (C : (Zceil (Building.length s / 25) <= 1)%Z).
      { apply Z.lt_succ_r. apply lt_IZR.
        change (Z.succ 1) with 2%Z. lra. }
      lia. }
    split; [exact N2|].
    rewrite !frameZ_cases. fold n. rewrite N2. simpl. lra.
Qed.

Lemma frames_in_order_witness :
  Building.frameZ length40 0 < Building.frameZ length40 1
  /\ Building.frameZ length40 1 < Building.frameZ length40 2
  /\ Building.frameZ oneFootLong 1 < Building.frameZ oneFootLong 0.
Proof.
  assert (N : ToLength (Building.numFrames length40) = 3%nat).
  { rewrite numFrames_IZR. unfold numFramesZ.
    rewrite (Zceil_eq 2) by (evaluate; lra).
    rewrite ToLength_IZR. reflexivity. }
  assert (H : 2 < Building.length length40) by (evaluate; lra).
  destruct (proj1 (frames_in_order length40) H) as [S _].
  rewrite N in S.
  assert (H1 : Building.length oneFootLong < 2) by (evaluate; lra).
  destruct (proj2 (frames_in_order oneFootLong) H1) as [_ R].
  split; [apply (S 0%nat); lia|]. split; [apply (S 1%nat); lia | exact R].
Defined.

(** ** The planes of the roofs *)

Lemma slope_closes (run rise : number) :
  0 < run ->
  Math_sqrt (run ^ 2 + rise ^ 2) * Math_cos (Math_atan2 rise run) = run
  /\ Math_sqrt (run ^ 2 + rise ^ 2) * Math_sin (Math_atan2 rise run) = rise.
Proof.
  intro Hr. rewrite Math_atan2_pos by exact Hr.
  unfold Math_sqrt, Math_cos, Math_sin. rewrite cos_atan, sin_atan.
  assert (Hq : 0 < 1 + (rise / run)²).
  { pose proof (Rle_0_sqr (rise / run)). lra. }
  assert (Hs : 0 < sqrt (1 + (rise / run)²)) by now apply sqrt_lt_R0.
  assert (E : sqrt (run ^ 2 + rise ^ 2)
              = run * sqrt (1 + (rise / run)²)).
  { replace (run ^ 2 + rise ^ 2) with (run² * (1 + (rise / run)²)).
    - rewrite sqrt_mult by (try apply Rle_0_sqr; lra).
      rewrite sqrt_Rsqr by lra. reflexivity.
    - unfold Rsqr. field. lra. }
  rewrite E. split; field; lra.
Qed.

(** X25. The planes of the gable and of the asymmetrical roof close over
    the building.  For a positive width, a plane of length roofPanelLength
    inclined at roofAngle covers half the width and rises by roofRise.
    For an asymmetric offset between 1 and 9 the peak lies strictly within
    the building, at most 0.64 of the half width off its centre, to the
    west below 5 and to the east above; the runs of the two planes are
    positive and add up to the width; and either plane, of its own length
    and at its own angle, covers its run and rises by the same roofRise,
    so that the two meet at one ridge. *)
Theorem roof_planes_close (s : BuildingState) :
  0 < Building.width s ->
  (Building.roofPanelLength s * Math_cos (Building.roofAngle s)
   = Building.width s / 2
   /\ Building.roofPanelLength s * Math_sin (Building.roofAngle s)
      = Building.roofRise s)
  /\ (1 <= Building.asymmetricOffset s <= 9 ->
      Rabs (Building.peakOffset s) <= 0.64 * (Building.width s / 2)
      /\ (Building.asymmetricOffset s < 5 -> Building.peakOffset s < 0)
      /\ (5 < Building.asymmetricOffset s -> 0 < Building.peakOffset s)
      /\ 0 < Building.leftWidth s
      /\ 0 < Building.rightWidth s
      /\ Building.leftWidth s + Building.rightWidth s = Building.width s
      /\ Building.leftRoofLength s * Math_cos (Building.leftRoofAngle s)
         = Building.leftWidth s
      /\ Building.rightRoofLength s * Math_cos (Building.rightRoofAngle s)
         = Building.rightWidth s
      /\ Building.leftRoofLength s * Math_sin (Building.leftRoofAngle s)
         = Building.roofRise s
      /\ Building.rightRoofLength s * Math_sin (Building.rightRoofAngle s)
         = Building.roofRise s).
Proof.
  intro Hw. split.
  - apply slope_closes. lra.
  - intros [Ho1 Ho9].
    assert (P : Building.peakOffset s
                = (Building.asymmetricOffset s - 5) / 5
                  * (Building.width s / 2) * 0.8) by reflexivity.
    assert (Hl : 0 < Building.leftWidth s)
      by (unfold Building.leftWidth; rewrite P; nra).
    assert (Hr : 0 < Building.rightWidth s)
      by (unfold Building.rightWidth; rewrite P; nra).
    split.
    { rewrite P. apply Rabs_le. split; nra. }
    split; [intro; rewrite P; nra|].
    split; [intro; rewrite P; nra|].
    split; [exact Hl|]. split; [exact Hr|].
    split; [unfold Building.leftWidth, Building.rightWidth; lra|].
    destruct (slope_closes (Building.leftWidth s) (Building.roofRise s) Hl)
      as [Lc Ls].
    destruct (slope_closes (Building.rightWidth s) (Building.roofRise s) Hr)
      as [Rc Rs].
    repeat split; assumption.
Qed.

Lemma roof_planes_close_witness :
  0 < Building.peakOffset peakToEast
  /\ Building.leftWidth peakToEast + Building.rightWidth peakToEast = 30
  /\ Building.rightRoofLength peakToEast
     * Math_sin (Building.rightRoofAngle peakToEast) = 5.
Proof.
  assert (Hw : 0 < Building.width peakToEast) by (evaluate; lra).
  assert (Ho : 1 <= Building.asymmetricOffset peakToEast <= 9)
    by (evaluate; lra).
  destruct (proj2 (roof_planes_close peakToEast Hw) Ho)
    as [_ [_ [He [_ [_ [Hs [_ [_ [_ Hr]]]]]]]]].
  split; [apply He; evaluate; lra|].
  split; [rewrite Hs; reflexivity|].
  rewrite Hr. evaluate. lra.
Defined.

(** X26. The roof of a lean-to and the heights of its two supports.  For a
    positive depth, a plane of length leanToRoofLength inclined at
    leanToRoofAngle covers the depth and drops by leanToRoofRise.  The
    outer height is never below 1.  When attachHeight - leanToRoofRise is
    at least 1 the outer height is that difference, so that the drop of the
    roof is the difference of the attach height and the outer height; when
    it is less, the outer height is held at 1 and the roof, which keeps its
    rise, drops by more than the difference of the two heights. *)
Theorem leanTo_roof_plane (s : BuildingState) (side : WallSide.t) :
  let depth := LeanToConfig.depth (PerSide.get side (leanToConfigs s)) in
  let rise := Building.leanToRoofRise s side in
  let drop := leanToRoofLength s side * Math_sin (leanToRoofAngle s side) in
  0 < depth ->
  leanToRoofLength s side * Math_cos (leanToRoofAngle s side) = depth
  /\ drop = rise
  /\ 1 <= Building.outerHeight s side
  /\ (1 <= Building.attachHeight s side - rise ->
      drop = Building.attachHeight s side - Building.outerHeight s side)
  /\ (Building.attachHeight s side - rise < 1 ->
      Building.outerHeight s side = 1
      /\ Building.attachHeight s side - Building.outerHeight s side < drop).
Proof.
  intros depth rise drop Hd.
  destruct (slope_closes depth rise Hd) as [Hc Hs].
  assert (L : leanToRoofLength s side = Math_sqrt (depth ^ 2 + rise ^ 2))
    by (destruct side; reflexivity).
  assert (A : leanToRoofAngle s side = Math_atan2 rise depth)
    by (destruct side; reflexivity).
  assert (O : Building.outerHeight s side
              = Math_max 1 (Building.attachHeight s side - rise))
    by (destruct side; reflexivity).
  unfold drop. rewrite L, A, O, Hs.
  split; [exact Hc|]. split; [reflexivity|].
  unfold Math_max.
  split; [apply Rmax_l|]. split.
  - intro H. rewrite Rmax_right by exact H. lra.
  - intro H. rewrite Rmax_left by lra. split; [reflexivity | lra].
Qed.

Lemma leanTo_roof_plane_witness :
  Building.outerHeight southLeanToEnabled WallSide.south = 6
  /\ Building.outerHeight steepLeanTo WallSide.south = 1
  /\ leanToRoofLength steepLeanTo WallSide.south
     * Math_sin (leanToRoofAngle steepLeanTo WallSide.south) = 10.
Proof.
  assert (D : 0 < LeanToConfig.depth
                    (PerSide.get WallSide.south
                       (leanToConfigs southLeanToEnabled)))
    by (evaluate; lra).
  assert (D' : 0 < LeanToConfig.depth
                     (PerSide.get WallSide.south (leanToConfigs steepLeanTo)))
    by (evaluate; lra).
  pose proof (leanTo_roof_plane southLeanToEnabled WallSide.south D) as T.
  pose proof (leanTo_roof_plane steepLeanTo WallSide.south D') as T'.
  cbv zeta in T, T'.
  destruct T as [_ [Td [_ [Tu _]]]].
  destruct T' as [_ [Td' [_ [_ Tc]]]].
  split; [|split].
  - assert (U : 1 <= Building.attachHeight southLeanToEnabled WallSide.south
                     - Building.leanToRoofRise southLeanToEnabled
                         WallSide.south)
      by (evaluate; lra).
    apply Tu in U. rewrite Td in U. revert U. evaluate. lra.
  - apply Tc. evaluate. lra.
  - rewrite Td'. evaluate. lra.
Defined.

(** ** The memoized end walls *)

Lemma memoOver_fresh {A : Type} (deps : BuildingState -> list number)
    (compute : BuildingState -> A) :
  (forall s s', deps s = deps s' -> compute s = compute s') ->
  forall later first,
    Memo.deps (memoOver deps compute first later)
    = deps (last later first)
    /\ Memo.value (memoOver deps compute first later)
       = compute (last later first).
Proof.
  intros Hc later. unfold memoOver.
  induction later as [|s later IH] using rev_ind; intro first.
  - simpl. split; reflexivity.
  - rewrite fold_left_app, last_last. simpl.
    destruct (IH first) as [Hd Hv].
    set (c := fold_left _ later _) in *.
    unfold Memo.useMemo.
    destruct (Memo.same_deps (Memo.deps c) (deps s)) eqn:E.
    + apply same_deps_eq in E. simpl. split; [exact E|].
      rewrite Hv. apply Hc. congruence.
    + simpl. split; reflexivity.
Qed.

(** X27. The dependency lists of the three end wall geometries are
    complete: two states that agree on the dependencies of a geometry give
    the same geometry.  So over any sequence of renders the memoized
    geometry is never stale: after each render the cell holds the geometry
    of the state that was rendered last. *)
Theorem end_wall_memo_fresh (first : BuildingState)
    (later : list BuildingState) :
  let final := last later first in
  Memo.value
    (memoOver Building.gableEndWallGeometry_deps
       Building.gableEndWallGeometry first later)
  = Building.gableEndWallGeometry final
  /\ Memo.value
       (memoOver Building.asymmetricalEndWallGeometry_deps
          Building.asymmetricalEndWallGeometry first later)
     = Building.asymmetricalEndWallGeometry final
  /\ Memo.value
       (memoOver Building.singleSlopeEndWallGeometry_deps
          Building.singleSlopeEndWallGeometry first later)
     = Building.singleSlopeEndWallGeometry final.
Proof.
  intro final. unfold final.
  split; [|split]; apply memoOver_fresh; intros s s' H;
    unfold Building.gableEndWallGeometry_deps,
      Building.asymmetricalEndWallGeometry_deps,
      Building.singleSlopeEndWallGeometry_deps in H;
    unfold Building.gableEndWallGeometry,
      Building.asymmetricalEndWallGeometry,
      Building.singleSlopeEndWallGeometry;
    cbv zeta; injection H; intros; congruence.
Qed.

(** ** The polygons of the end walls *)

(** X28. The polygon of an end wall is covered without gap or overlap.
    For a positive width and eave height and a roof rise that is not
    negative, the triangles of the gable end wall, of the asymmetrical end
    wall with its peak within the building, and of the single slope end
    wall are all counter-clockwise, and their areas add up to the area of
    the wall: the rectangle under the eaves and the triangle above it, 0.2
    higher than the roof rise, for the first two, and the quadrilateral
    from eaveHeight - 0.1 at the west to eaveHeight + roofRise - 0.1 at the
    east for the third. *)
Theorem end_wall_polygons (s : BuildingState) :
  0 < Building.width s -> 0 < Building.eaveHeight s ->
  0 <= Building.roofRise s ->
  let w := Building.width s in
  let h := Building.eaveHeight s in
  let rise := Building.roofRise s in
  let triangles g := trianglesOf (positionOf g) in
  let area g := fold_right Rplus 0 (List.map doubleArea (triangles g)) / 2 in
  (List.length (triangles (Building.gableEndWallGeometry s)) = 3%nat
   /\ Forall (fun t => 0 < doubleArea t)
        (triangles (Building.gableEndWallGeometry s))
   /\ area (Building.gableEndWallGeometry s) = w * h + w * (rise + 0.2) / 2)
  /\ (- w / 2 < Building.peakOffset s < w / 2 ->
      List.length (triangles (Building.asymmetricalEndWallGeometry s))
      = 3%nat
      /\ Forall (fun t => 0 < doubleArea t)
           (triangles (Building.asymmetricalEndWallGeometry s))
      /\ area (Building.asymmetricalEndWallGeometry s)
         = w * h + w * (rise + 0.2) / 2)
  /\ (0.1 < h ->
      List.length (triangles (Building.singleSlopeEndWallGeometry s))
      = 2%nat
      /\ Forall (fun t => 0 < doubleArea t)
           (triangles (Building.singleSlopeEndWallGeometry s))
      /\ area (Building.singleSlopeEndWallGeometry s)
         = w * ((h - 0.1) + (h + rise - 0.1)) / 2).
Proof.
  intros Hw Hh Hr w h rise triangles area.
  unfold area, triangles, Building.gableEndWallGeometry,
    Building.asymmetricalEndWallGeometry,
    Building.singleSlopeEndWallGeometry, Building.gableInset.
  subst w h rise. cbv zeta. cbn [trianglesOf positionOf].
  set (w := Building.width s) in *. set (h := Building.eaveHeight s) in *.
  set (rise := Building.roofRise s) in *.
  set (p := Building.peakOffset s) in *.
  clearbody w h rise p.
  split; [|split].
  - split; [reflexivity|]. split.
    + repeat (apply Forall_cons; [simpl; nra|]). apply Forall_nil.
    + simpl. nra.
  - intros [Hp1 Hp2]. split; [reflexivity|]. split.
    + repeat (apply Forall_cons; [simpl; nra|]). apply Forall_nil.
    + simpl. nra.
  - intro H1. split; [reflexivity|]. split.
    + repeat (apply Forall_cons; [simpl; nra|]). apply Forall_nil.
    + simpl. nra.
Qed.

Lemma end_wall_polygons_witness :
  fold_right Rplus 0
    (List.map doubleArea
       (trianglesOf
          (positionOf (Building.gableEndWallGeometry Store.initialState))))
  / 2
  = 30 * 10 + 30 * (5 + 0.2) / 2.
Proof.
  assert (Hw : 0 < Building.width Store.initialState) by (evaluate; lra).
  assert (Hh : 0 < Building.eaveHeight Store.initialState)
    by (evaluate; lra).
  assert (Hr : 0 <= Building.roofRise Store.initialState)
    by (evaluate; lra).
  pose proof (end_wall_polygons Store.initialState Hw Hh Hr) as T.
  cbv zeta in T. destruct T as [[_ [_ A]] _].
  rewrite A. evaluate. lra.
Defined.

(** ** The trapezoid wall *)

(** X29. The two triangles of a trapezoid wall cover the trapezoid between
    the ground, a low edge and a high edge: for a positive width, a low
    height that is not negative and a positive high height neither
    triangle is clockwise and their areas add up to
    width * (lowHeight + highHeight) / 2; and when the low height is at most
    the high height, all texture coordinates lie within [0, 1]. *)
Theorem trapezoid_wall_covers (width lowHeight highHeight : number) :
  0 < width -> 0 <= lowHeight -> 0 < highHeight ->
  let g := TrapezoidWall.geometry width lowHeight highHeight in
  List.length (trianglesOf (positionOf g)) = 2%nat
  /\ Forall (fun t => 0 <= doubleArea t) (trianglesOf (positionOf g))
  /\ fold_right Rplus 0 (List.map doubleArea (trianglesOf (positionOf g))) / 2
     = width * (lowHeight + highHeight) / 2
  /\ (lowHeight <= highHeight -> Forall (fun c => 0 <= c <= 1) (uvOf g)).
Proof.
  intros Hw Hl Hh g. unfold g, TrapezoidWall.geometry.
  cbn [trianglesOf positionOf uvOf].
  split; [reflexivity|]. split.
  { repeat (apply Forall_cons; [simpl; nra|]). apply Forall_nil. }
  split; [simpl; nra|].
  intro Hle.
  assert (V : 0 <= lowHeight / Math_max highHeight 1 <= 1).
  { unfold Math_max.
    assert (M : 0 < Rmax highHeight 1).
    { apply Rlt_le_trans with 1; [lra | apply Rmax_r]. }
    assert (L : lowHeight <= Rmax highHeight 1).
    { apply Rle_trans with highHeight; [exact Hle | apply Rmax_l]. }
    split.
    - apply Rmult_le_pos; [exact Hl|]. left. now apply Rinv_0_lt_compat.
    - apply (Rmult_le_reg_r (Rmax highHeight 1)); [exact M|].
      unfold Rdiv. rewrite Rmult_assoc, Rinv_l by lra. lra. }
  repeat (apply Forall_cons; [try exact V; lra|]). apply Forall_nil.
Qed.

Lemma trapezoid_wall_covers_witness :
  fold_right Rplus 0
    (List.map doubleArea
       (trianglesOf (positionOf (TrapezoidWall.geometry 12 6 9)))) / 2
  = 12 * (6 + 9) / 2.
Proof.
  assert (H1 : 0 < 12) by lra.
  assert (H2 : 0 <= 6) by lra.
  assert (H3 : 0 < 9) by lra.
  exact (proj1 (proj2 (proj2 (trapezoid_wall_covers 12 6 9 H1 H2 H3)))).
Defined.

(** ** The corrugated texture *)

Lemma channel_floor (c : number) :
  0 <= c <= 1 ->
  exists z : Z, Math_floor (c * 255) = IZR z /\ (0 <= z <= 255)%Z.
Proof.
  intros [H0 H1]. exists (Zfloor (c * 255)). split; [reflexivity|].
  pose proof (Zfloor_bound (c * 255)) as [Hl Hu].
  split.
  - apply Zfloor_lub. simpl. lra.
  - apply Z.lt_succ_r. apply lt_IZR. unfold Z.succ. rewrite plus_IZR.
    simpl. lra.
Qed.

Lemma channel_highlight (z : Z) :
  (0 <= z <= 255)%Z -> isChannel (Math_min 255 (IZR z + 50)).
Proof.
  intro H. exists (Z.min 255 (z + 50)). split; [|lia].
  unfold Math_min, Rmin. rewrite <- plus_IZR.
  destruct (Rle_dec 255 (IZR (z + 50))) as [L|L].
  - apply le_IZR in L. now rewrite Z.min_l.
  - rewrite Z.min_r; [reflexivity|].
    apply Z.lt_le_incl. apply Z.lt_nge. intro C. apply L. now apply IZR_le.
Qed.

Lemma channel_shadow (z : Z) :
  (0 <= z <= 255)%Z -> isChannel (Math_max 0 (IZR z - 40)).
Proof.
  intro H. exists (Z.max 0 (z - 40)). split; [|lia].
  rewrite <- minus_IZR. apply Math_max_IZR.
Qed.

(** X30. The canvas of a corrugated texture.  For a base color whose
    channels lie within [0, 1], the canvas of 128 by 128 is filled with the
    base color and then with the highlight and the shadow of 8 ribs of 16
    pixels: 17 rectangles, each within the canvas and each in a color of
    integer channels within [0, 255], the highlight 50 above and the shadow
    40 below the base color, cut off at 255 and at 0.  Rib i has its
    highlight on [16 i, 16 i + 6.4] and its shadow on
    [16 i + 9.6, 16 (i + 1)], across y for a roof and across x for a wall,
    the stripes running over the whole of the other direction, so that the
    stripes of the ribs do not overlap and the last rib ends at the edge of
    the canvas. *)
Theorem corrugated_texture_ribs (cr cg cb : number) (isRoof : bool) :
  0 <= cr <= 1 -> 0 <= cg <= 1 -> 0 <= cb <= 1 ->
  let t := MetalMaterial.createCorrugatedTexture (cr, cg, cb) isRoof in
  let fills := MetalMaterial.fills t in
  List.length fills = 17%nat
  /\ Forall (withinCanvas t) fills
  /\ Forall (fun f => isRgb (MetalMaterial.fillStyle f)) fills
  /\ (forall i, (i < 8)%nat ->
      exists highlight shadow,
        nth_error fills (1 + 2 * i) = Some highlight
        /\ nth_error fills (2 + 2 * i) = Some shadow
        /\ stripe isRoof highlight = (16 * INR i, 16 * INR i + 6.4)
        /\ stripe isRoof shadow = (16 * INR i + 9.6, 16 * (INR i + 1))
        /\ stripe (negb isRoof) highlight = (0, 128)
        /\ stripe (negb isRoof) shadow = (0, 128)).
Proof.
  intros Hr Hg Hb t fills.
  destruct (channel_floor cr Hr) as [zr [Er Zr]].
  destruct (channel_floor cg Hg) as [zg [Eg Zg]].
  destruct (channel_floor cb Hb) as [zb [Eb Zb]].
  assert (N : Zceil (Math_floor (128 / 16)) = 8%Z).
  { unfold Math_floor. rewrite (Zfloor_eq 8) by (simpl; lra).
    apply Zceil_eq. simpl. lra. }
  unfold fills, t, MetalMaterial.createCorrugatedTexture,
    MetalMaterial.for_lt.
  cbv zeta. rewrite N, Er, Eg, Eb.
  cbn [MetalMaterial.fills Z.to_nat Pos.to_nat Pos.iter_op Nat.add seq
       flat_map app].
  pose proof (channel_highlight zr Zr) as Hhr.
  pose proof (channel_highlight zg Zg) as Hhg.
  pose proof (channel_highlight zb Zb) as Hhb.
  pose proof (channel_shadow zr Zr) as Hsr.
  pose proof (channel_shadow zg Zg) as Hsg.
  pose proof (channel_shadow zb Zb) as Hsb.
  split; [reflexivity|]. split; [|split].
  - repeat (apply Forall_cons;
            [unfold withinCanvas; destruct isRoof; simpl; lra|]).
    apply Forall_nil.
  - apply Forall_cons.
    { simpl. repeat split; eexists; (split; [reflexivity | assumption]). }
    repeat (apply Forall_cons;
            [destruct isRoof; simpl; repeat split; assumption|]).
    apply Forall_nil.
  - intros i Hi.
    do 8 (destruct i as [|i];
          [do 2 eexists; split; [reflexivity|]; split; [reflexivity|];
           destruct isRoof; simpl; repeat split; f_equal; lra|]).
    lia.
Qed.

Lemma corrugated_texture_ribs_witness :
  List.length
    (MetalMaterial.fills
       (MetalMaterial.createCorrugatedTexture (0.5, 0.25, 1) true))
  = 17%nat.
Proof.
  assert (H1 : 0 <= 0.5 <= 1) by lra.
  assert (H2 : 0 <= 0.25 <= 1) by lra.
  assert (H3 : 0 <= 1 <= 1) by lra.
  exact (proj1 (corrugated_texture_ribs 0.5 0.25 1 true H1 H2 H3)).
Defined.
